(** * BambuRFID: a shallow embedding of the tag codec, the key derivation,
      the transport encoders, the NFC bridge session and the dump catalog.

    Python values are modelled as follows.
    - [bytes] / [bytearray]: [list byte]; a slice assignment [b[i:j] = v]
      is [take i b ++ v ++ drop j b], which changes the length of [b] when
      [v] has not [j - i] bytes, as in Python.
    - [int]: [Z].  [struct.pack("<H", v)] raises outside [0, 65535].
    - [float]: an IEEE-754 binary64 value, [spec_float] at precision 53 and
      [emax = 1024]; arithmetic is [SFmul] and [SFdiv] of the Standard
      Library, which round to nearest even.  NaN carries no payload here.
    - [str]: the list of its code points.
    - exceptions: the [Raise] branch of [result]. *)

From Stdlib Require Import ZArith NArith List String Ascii Bool Lia.
From Stdlib Require Import Strings.Byte.
From Stdlib Require Import Floats.SpecFloat.
From stdpp Require Import base option list gmap strings pretty sorting.

Open Scope Z_scope.

(** ** Python primitives *)

Module Py.

Inductive exn :=
| ValueError | IndexError | KeyError | UnicodeEncodeError
| StructError | OverflowError | ConnectionError | TimeoutError
| CancelledError | InvalidStateError | Exception (message : string).

Inductive result (A : Type) :=
| Ok (a : A)
| Raise (e : exn).
Arguments Ok {A} a.
Arguments Raise {A} e.

Definition bind {A B} (r : result A) (k : A -> result B) : result B :=
  match r with
  | Ok a => k a
  | Raise e => Raise e
  end.

Abbreviation bytes := (list byte).

Definition byte_to_Z (b : byte) : Z := Z.of_N (Byte.to_N b).

Definition byte_of_Z (z : Z) : byte :=
  match Byte.of_N (Z.to_N (z mod 256)) with
  | Some b => b
  | None => x00
  end.

(** [b[i:j]] for constants [0 <= i <= j]. *)
Definition slice {A} (l : list A) (i j : nat) : list A :=
  take (j - i) (drop i l).

(** [b[i:j] = v] on a bytearray, for constants [0 <= i <= j]. *)
Definition slice_assign {A} (l : list A) (i j : nat) (v : list A) : list A :=
  take i l ++ v ++ drop j l.

(** [v.ljust(n, fill)] *)
Definition ljust {A} (n : nat) (fill : A) (v : list A) : list A :=
  v ++ replicate (n - length v) fill.

(** [raw.split(b"\x00")[0]] *)
Fixpoint until_nul (raw : bytes) : bytes :=
  match raw with
  | [] => []
  | b :: rest => if Byte.eqb b x00 then [] else b :: until_nul rest
  end.

(** A [str] is the list of its code points. *)
Abbreviation str := (list N).

(** [raw.decode("ascii", errors="replace")]: every byte above 0x7F becomes
    U+FFFD. *)
Definition decode_ascii_replace (raw : bytes) : str :=
  map (fun b => let n := Byte.to_N b in
                if (n <? 128)%N then n else 0xFFFD%N) raw.

(** [s.encode("ascii")] *)
Fixpoint encode_ascii (s : str) : result bytes :=
  match s with
  | [] => Ok []
  | c :: rest =>
      if (c <? 128)%N then
        match Byte.of_N c, encode_ascii rest with
        | Some b, Ok bs => Ok (b :: bs)
        | _, Raise e => Raise e
        | None, _ => Raise UnicodeEncodeError
        end
      else Raise UnicodeEncodeError
  end.

(** [c.isspace()] for one code point. *)
Definition isspace (c : N) : bool :=
  ((9 <=? c) && (c <=? 13) || (28 <=? c) && (c <=? 32)
   || (c =? 0x85) || (c =? 0xA0) || (c =? 0x1680)
   || (0x2000 <=? c) && (c <=? 0x200A)
   || (c =? 0x2028) || (c =? 0x2029) || (c =? 0x202F)
   || (c =? 0x205F) || (c =? 0x3000))%N.

Fixpoint lstrip (s : str) : str :=
  match s with
  | [] => []
  | c :: rest => if isspace c then lstrip rest else s
  end.

Definition rstrip (s : str) : str := rev (lstrip (rev s)).

(** [s.strip()] *)
Definition strip (s : str) : str := rstrip (lstrip s).

(** Little-endian integers. *)
Fixpoint le_to_Z (bs : bytes) : Z :=
  match bs with
  | [] => 0
  | b :: rest => byte_to_Z b + 256 * le_to_Z rest
  end.

Fixpoint Z_to_le (n : nat) (z : Z) : bytes :=
  match n with
  | O => []
  | S n' => byte_of_Z z :: Z_to_le n' (z / 256)
  end.

(** [struct.unpack_from(fmt, data, offset)] needs [size] bytes at [offset]. *)
Definition unpack_from (size : nat) (data : bytes) (offset : nat)
  : result bytes :=
  if (offset + size <=? length data)%nat
  then Ok (slice data offset (offset + size))
  else Raise StructError.

(** [struct.pack("<H", value)] *)
Definition pack_H (value : Z) : result bytes :=
  if (0 <=? value) && (value <=? 65535)
  then Ok (Z_to_le 2 value)
  else Raise StructError.

(** *** Floats *)

Abbreviation float := spec_float.

Definition f64_round (s : bool) (m : positive) (e : Z) : float :=
  binary_round 53 1024 s m e.

(** [float(z)] for an [int]. *)
Definition float_of_int (z : Z) : float := binary_normalize 53 1024 z 0 false.

Definition fmul (x y : float) : float := SFmul 53 1024 x y.
Definition fdiv (x y : float) : float := SFdiv 53 1024 x y.

(** [int(x)]: truncation toward zero; NaN and the infinities raise. *)
Definition int_of_float (x : float) : result Z :=
  match x with
  | S754_zero _ => Ok 0
  | S754_infinity _ => Raise OverflowError
  | S754_nan => Raise ValueError
  | S754_finite s m e =>
      let mag := match e with
                 | Zneg k => Z.shiftr (Zpos m) (Zpos k)
                 | _ => Z.shiftl (Zpos m) e
                 end in
      Ok (if s then - mag else mag)
  end.

(** The binary32 value held by a 32-bit pattern, as a double.  Every
    binary32 value is a binary64 value, so the conversion is exact. *)
Definition f32_of_bits (n : Z) : float :=
  let s := Z.testbit n 31 in
  let e := (n / 2 ^ 23) mod 256 in
  let m := n mod 2 ^ 23 in
  if e =? 0 then
    match m with
    | Zpos p => f64_round s p (-149)
    | _ => S754_zero s
    end
  else if e =? 255 then
    if m =? 0 then S754_infinity s else S754_nan
  else
    match m + 2 ^ 23 with
    | Zpos p => f64_round s p (e - 150)
    | _ => S754_nan
    end.

Definition sign_bit (s : bool) : Z := if s then 2 ^ 31 else 0.

(** The 32-bit pattern of a binary32 value.  [spec_float] has one NaN, so
    a NaN is written as the default quiet NaN; CPython keeps the sign and
    the payload of a quiet NaN through [unpack] and [pack].  What is
    proved of the two binary32 fields leaves NaN patterns out. *)
Definition bits_of_f32 (x : spec_float) : Z :=
  match x with
  | S754_zero s => sign_bit s
  | S754_infinity s => sign_bit s + 255 * 2 ^ 23
  | S754_nan => 0x7FC00000
  | S754_finite s m e =>
      if Zpos (digits2_pos m) =? 24
      then sign_bit s + (e + 150) * 2 ^ 23 + (Zpos m - 2 ^ 23)
      else sign_bit s + Zpos m
  end.

(** The double [x] rounded to binary32 (the C cast [(float)x]). *)
Definition f32_round (x : float) : spec_float :=
  match x with
  | S754_finite s m e => binary_round 24 128 s m e
  | _ => x
  end.

(** [struct.pack("<f", x)]: a finite double that rounds to a binary32
    infinity raises OverflowError. *)
Definition pack_f (x : float) : result bytes :=
  match x, f32_round x with
  | S754_finite _ _ _, S754_infinity _ => Raise OverflowError
  | _, y => Ok (Z_to_le 4 (bits_of_f32 y))
  end.

(** [struct.unpack("<f", bs)] on exactly four bytes. *)
Definition unpack_f (bs : bytes) : float := f32_of_bits (le_to_Z bs).

End Py.

Export Py.

Notation "'let*' x ':=' r 'in' k" := (Py.bind r (fun x => k))
  (at level 10, x name, r at level 100, k at level 200).


(** ** rfid/mifare.py *)

Module Mifare.

Definition NUM_SECTORS : nat := 16.
Definition BLOCKS_PER_SECTOR : nat := 4.
Definition BYTES_PER_BLOCK : nat := 16.
Definition TOTAL_BLOCKS : nat := NUM_SECTORS * BLOCKS_PER_SECTOR.
Definition TOTAL_BYTES : nat := TOTAL_BLOCKS * BYTES_PER_BLOCK.

Definition sector_to_block (sector : nat) : nat := sector * BLOCKS_PER_SECTOR.

Definition is_sector_trailer (block : nat) : bool :=
  ((block + 1) mod BLOCKS_PER_SECTOR =? 0)%nat.

Definition KEY_A_OFFSET : nat := 0.
Definition KEY_A_LENGTH : nat := 6.
Definition ACCESS_BITS_OFFSET : nat := 6.
Definition ACCESS_BITS_LENGTH : nat := 4.
Definition KEY_B_OFFSET : nat := 10.
Definition KEY_B_LENGTH : nat := 6.

Definition DEFAULT_KEY_A : bytes := replicate 6 xff.
Definition DEFAULT_KEY_B : bytes := replicate 6 xff.

Definition block_to_sector (block : nat) : nat :=
  (block / BLOCKS_PER_SECTOR)%nat.

Definition sector_trailer_block (sector : nat) : nat :=
  (sector_to_block sector + BLOCKS_PER_SECTOR - 1)%nat.

Definition data_blocks_for_sector (sector : nat) : list nat :=
  let first := sector_to_block sector in
  map (fun i => (first + i)%nat) (seq 0 (BLOCKS_PER_SECTOR - 1)).

(** The loop that extends [blocks] sector by sector. *)
Definition all_data_blocks : list nat :=
  fold_left (fun blocks s => blocks ++ data_blocks_for_sector s)
            (seq 0 NUM_SECTORS) [].

Definition block_to_byte_offset (block : nat) : nat :=
  (block * BYTES_PER_BLOCK)%nat.

(** The dict that [parse_sector_trailer] returns. *)
Record sector_trailer := {
  key_a : bytes;
  access_bits : bytes;
  key_b : bytes
}.

Definition parse_sector_trailer (data : bytes) : result sector_trailer :=
  if negb (length data =? BYTES_PER_BLOCK)%nat then Raise ValueError else
  Ok {| key_a := slice data KEY_A_OFFSET (KEY_A_OFFSET + KEY_A_LENGTH);
        access_bits := slice data ACCESS_BITS_OFFSET
                             (ACCESS_BITS_OFFSET + ACCESS_BITS_LENGTH);
        key_b := slice data KEY_B_OFFSET (KEY_B_OFFSET + KEY_B_LENGTH) |}.

End Mifare.

(** ** rfid/bambu_format.py *)

Module BambuFormat.

Record FilamentData := {
  uid : bytes;
  manufacturer_data : bytes;
  material_variant_id : str;
  material_id : str;
  filament_type : str;
  detailed_filament_type : str;
  color_rgba : bytes;
  spool_weight_g : Z;
  filament_diameter_mm : float;
  drying_temp_c : Z;
  drying_time_h : Z;
  bed_temp_type : Z;
  bed_temp_c : Z;
  max_hotend_temp_c : Z;
  min_hotend_temp_c : Z;
  xcam_info : bytes;
  nozzle_diameter : float;
  tray_uid : str;
  spool_width_mm : float;
  production_datetime : str;
  short_production_datetime : str;
  filament_length_m : Z;
  color_format : Z;
  color_count : Z;
  secondary_color_abgr : bytes;
  rsa_signature : bytes;
  raw_blocks : list bytes
}.

(** [FilamentData()]: the dataclass defaults. *)
Definition FilamentData_default : FilamentData := {|
  uid := [];
  manufacturer_data := [];
  material_variant_id := [];
  material_id := [];
  filament_type := [];
  detailed_filament_type := [];
  color_rgba := [x00; x00; x00; xff];
  spool_weight_g := 0;
  filament_diameter_mm := S754_finite false 7881299347898368 (-52);
  drying_temp_c := 0;
  drying_time_h := 0;
  bed_temp_type := 0;
  bed_temp_c := 0;
  max_hotend_temp_c := 0;
  min_hotend_temp_c := 0;
  xcam_info := [];
  nozzle_diameter := S754_zero false;
  tray_uid := [];
  spool_width_mm := S754_zero false;
  production_datetime := [];
  short_production_datetime := [];
  filament_length_m := 0;
  color_format := 0;
  color_count := 0;
  secondary_color_abgr := [];
  rsa_signature := [];
  raw_blocks := []
|}.

Definition SECTOR_TRAILER_BLOCKS : list nat :=
  [3; 7; 11; 15; 19; 23; 27; 31; 35; 39; 43; 47; 51; 55; 59; 63]%nat.

Definition RSA_SIGNATURE_SECTORS : list nat := seq 10 6.

(** The two nested loops that fill [RSA_DATA_BLOCKS]. *)
Definition RSA_DATA_BLOCKS : list nat :=
  flat_map (fun _s => map (fun _i => (_s * 4 + _i)%nat) (seq 0 3))
           RSA_SIGNATURE_SECTORS.

Definition _read_string (block_data : bytes) (start length : nat) : str :=
  let raw := slice block_data start (start + length) in
  strip (decode_ascii_replace (until_nul raw)).

Definition _read_uint16_le (data : bytes) (offset : nat) : result Z :=
  let* raw := unpack_from 2 data offset in Ok (le_to_Z raw).

Definition _read_float_le (data : bytes) (offset : nat) : result float :=
  let* raw := unpack_from 4 data offset in Ok (unpack_f raw).

Definition _write_uint16_le (value : Z) : result bytes := pack_H value.

Definition _write_float_le (value : float) : result bytes := pack_f value.

(** [blocks[k]] where [k < 64] and [blocks] has 64 elements: both hold at
    every use below ([parse_tag_dump] checks the length first, and
    [build_tag_blocks] starts from 64 blocks), so IndexError cannot occur. *)
Definition blk (blocks : list bytes) (k : nat) : bytes := blocks !!! k.

Definition parse_tag_dump (blocks : list bytes) : result FilamentData :=
  if negb (length blocks =? 64)%nat then Raise ValueError else
  if existsb (fun b => negb (length b =? 16)%nat) blocks
  then Raise ValueError else
  let* spool_weight := _read_uint16_le (blk blocks 5) 4 in
  let* filament_diameter := _read_float_le (blk blocks 5) 8 in
  let* drying_temp := _read_uint16_le (blk blocks 6) 0 in
  let* drying_time := _read_uint16_le (blk blocks 6) 2 in
  let* bed_type := _read_uint16_le (blk blocks 6) 4 in
  let* bed_temp := _read_uint16_le (blk blocks 6) 6 in
  let* max_hotend := _read_uint16_le (blk blocks 6) 8 in
  let* min_hotend := _read_uint16_le (blk blocks 6) 10 in
  let* nozzle := _read_float_le (blk blocks 8) 12 in
  let* raw_width := _read_uint16_le (blk blocks 10) 4 in
  let* filament_length := _read_uint16_le (blk blocks 14) 4 in
  let* format := _read_uint16_le (blk blocks 16) 0 in
  let* count := _read_uint16_le (blk blocks 16) 2 in
  let sig_bytes := flat_map (fun blk_num => blk blocks blk_num)
                            RSA_DATA_BLOCKS in
  Ok {|
    raw_blocks := blocks;
    uid := slice (blk blocks 0) 0 4;
    manufacturer_data := slice (blk blocks 0) 4 16;
    material_variant_id := _read_string (blk blocks 1) 0 8;
    material_id := _read_string (blk blocks 1) 8 8;
    filament_type := _read_string (blk blocks 2) 0 16;
    detailed_filament_type := _read_string (blk blocks 4) 0 16;
    color_rgba := slice (blk blocks 5) 0 4;
    spool_weight_g := spool_weight;
    filament_diameter_mm := filament_diameter;
    drying_temp_c := drying_temp;
    drying_time_h := drying_time;
    bed_temp_type := bed_type;
    bed_temp_c := bed_temp;
    max_hotend_temp_c := max_hotend;
    min_hotend_temp_c := min_hotend;
    xcam_info := slice (blk blocks 8) 0 12;
    nozzle_diameter := nozzle;
    tray_uid := _read_string (blk blocks 9) 0 16;
    spool_width_mm := fdiv (float_of_int raw_width) (float_of_int 100);
    production_datetime := _read_string (blk blocks 12) 0 16;
    short_production_datetime := _read_string (blk blocks 13) 0 16;
    filament_length_m := filament_length;
    color_format := format;
    color_count := count;
    secondary_color_abgr :=
      if (format =? 2) && (8 <=? length (blk blocks 16))%nat
      then slice (blk blocks 16) 4 8
      else secondary_color_abgr FilamentData_default;
    rsa_signature := take 256 sig_bytes
  |}.

(** [blocks[k][i:j] = v] *)
Definition set_slice (blocks : list bytes) (k i j : nat) (v : bytes)
  : list bytes :=
  <[k := slice_assign (blk blocks k) i j v]> blocks.

(** [blocks[k][i:j] = s.encode("ascii")[:n].ljust(n, b"\x00")] with
    [n = j - i]. *)
Definition set_ascii (blocks : list bytes) (k i j : nat) (s : str)
  : result (list bytes) :=
  let* raw := encode_ascii s in
  Ok (set_slice blocks k i j (ljust (j - i) x00 (take (j - i) raw))).

(** [blocks[k][i:i+2] = _write_uint16_le(value)] *)
Definition set_uint16 (blocks : list bytes) (k i : nat) (value : Z)
  : result (list bytes) :=
  let* raw := _write_uint16_le value in
  Ok (set_slice blocks k i (i + 2) raw).

(** [blocks[k][i:i+4] = _write_float_le(value)] *)
Definition set_float (blocks : list bytes) (k i : nat) (value : float)
  : result (list bytes) :=
  let* raw := _write_float_le value in
  Ok (set_slice blocks k i (i + 4) raw).

(** One turn of the signature loop: the chunk at [offset] replaces the
    whole block when it has 16 bytes. *)
Definition write_sig_chunk (sig : bytes) (acc : list bytes * nat)
  (blk_num : nat) : list bytes * nat :=
  let '(blocks, offset) := acc in
  let chunk := slice sig offset (offset + 16) in
  (if (length chunk =? 16)%nat then <[blk_num := chunk]> blocks else blocks,
   (offset + 16)%nat).

Definition build_tag_blocks (fd : FilamentData) : result (list bytes) :=
  let blocks :=
    if negb (length (raw_blocks fd) =? 0)%nat
       && (length (raw_blocks fd) =? 64)%nat
    then raw_blocks fd
    else replicate 64 (replicate 16 x00) in
  let blocks :=
    if negb (length (uid fd) =? 0)%nat
    then set_slice blocks 0 0 4 (ljust 4 x00 (take 4 (uid fd)))
    else blocks in
  let blocks :=
    if negb (length (manufacturer_data fd) =? 0)%nat
    then set_slice blocks 0 4 16 (ljust 12 x00 (take 12 (manufacturer_data fd)))
    else blocks in
  let* blocks := set_ascii blocks 1 0 8 (material_variant_id fd) in
  let* blocks := set_ascii blocks 1 8 16 (material_id fd) in
  let* blocks := set_ascii blocks 2 0 16 (filament_type fd) in
  let* blocks := set_ascii blocks 4 0 16 (detailed_filament_type fd) in
  let blocks := set_slice blocks 5 0 4 (take 4 (color_rgba fd)) in
  let* blocks := set_uint16 blocks 5 4 (spool_weight_g fd) in
  let* blocks := set_float blocks 5 8 (filament_diameter_mm fd) in
  let* blocks := set_uint16 blocks 6 0 (drying_temp_c fd) in
  let* blocks := set_uint16 blocks 6 2 (drying_time_h fd) in
  let* blocks := set_uint16 blocks 6 4 (bed_temp_type fd) in
  let* blocks := set_uint16 blocks 6 6 (bed_temp_c fd) in
  let* blocks := set_uint16 blocks 6 8 (max_hotend_temp_c fd) in
  let* blocks := set_uint16 blocks 6 10 (min_hotend_temp_c fd) in
  let blocks :=
    if negb (length (xcam_info fd) =? 0)%nat
    then set_slice blocks 8 0 12 (ljust 12 x00 (take 12 (xcam_info fd)))
    else blocks in
  let* blocks := set_float blocks 8 12 (nozzle_diameter fd) in
  let* blocks := set_ascii blocks 9 0 16 (tray_uid fd) in
  let* raw_width :=
    int_of_float (fmul (spool_width_mm fd) (float_of_int 100)) in
  let* blocks := set_uint16 blocks 10 4 raw_width in
  let* blocks := set_ascii blocks 12 0 16 (production_datetime fd) in
  let* blocks := set_ascii blocks 13 0 16 (short_production_datetime fd) in
  let* blocks := set_uint16 blocks 14 4 (filament_length_m fd) in
  let* blocks := set_uint16 blocks 16 0 (color_format fd) in
  let* blocks := set_uint16 blocks 16 2 (color_count fd) in
  let blocks :=
    if negb (length (secondary_color_abgr fd) =? 0)%nat
    then set_slice blocks 16 4 8 (take 4 (secondary_color_abgr fd))
    else blocks in
  let blocks :=
    if negb (length (rsa_signature fd) =? 0)%nat
    then
      let sig := ljust 256 x00 (take 256 (rsa_signature fd)) in
      fst (fold_left (write_sig_chunk sig) RSA_DATA_BLOCKS (blocks, 0%nat))
    else blocks in
  Ok blocks.

End BambuFormat.

(** ** Python text primitives of the transport formats *)

(** Hex, base64 and Proxmark text is a [string]: one character per code
    point below U+0100.  The functions of the standard library are
    modelled as CPython 3.11 has them. *)
Module PyText.

(** [Py_ISSPACE]: the white space that [bytes.fromhex] skips. *)
Definition is_ascii_space (c : ascii) : bool :=
  let n := N_of_ascii c in ((n =? 32) || (9 <=? n) && (n <=? 13))%N.

(** The value of a hexadecimal digit of either case. *)
Definition hex_value (c : ascii) : option N :=
  let n := N_of_ascii c in
  if ((48 <=? n) && (n <=? 57))%N then Some (n - 48)%N
  else if ((65 <=? n) && (n <=? 70))%N then Some (n - 55)%N
  else if ((97 <=? n) && (n <=? 102))%N then Some (n - 87)%N
  else None.

(** [bytes.fromhex(s)]: white space is skipped between bytes, not between
    the two digits of a byte. *)
Fixpoint fromhex (s : string) : result bytes :=
  match s with
  | EmptyString => Ok []
  | String c rest =>
      if is_ascii_space c then fromhex rest else
      match rest with
      | EmptyString => Raise ValueError
      | String d rest' =>
          match hex_value c, hex_value d with
          | Some h, Some l =>
              match Byte.of_N (h * 16 + l) with
              | Some b => let* bs := fromhex rest' in Ok (b :: bs)
              | None => Raise ValueError
              end
          | _, _ => Raise ValueError
          end
      end
  end.

Definition hex_digit_lower (n : N) : ascii :=
  match n with
  | 0 => "0" | 1 => "1" | 2 => "2" | 3 => "3" | 4 => "4" | 5 => "5"
  | 6 => "6" | 7 => "7" | 8 => "8" | 9 => "9" | 10 => "a" | 11 => "b"
  | 12 => "c" | 13 => "d" | 14 => "e" | _ => "f"
  end%N%char.

(** [data.hex()] *)
Definition hex (data : bytes) : string :=
  String.concat ""
    (map (fun b => let n := Byte.to_N b in
                   String (hex_digit_lower (n / 16))
                          (String (hex_digit_lower (n mod 16)) ""))
         data).

(** The value of a character of the base64 alphabet. *)
Definition b64_value (c : ascii) : option N :=
  let n := N_of_ascii c in
  if ((65 <=? n) && (n <=? 90))%N then Some (n - 65)%N
  else if ((97 <=? n) && (n <=? 122))%N then Some (n - 71)%N
  else if ((48 <=? n) && (n <=? 57))%N then Some (n + 4)%N
  else if (n =? 43)%N then Some 62%N
  else if (n =? 47)%N then Some 63%N
  else None.

Definition out_byte (n : N) (k : result bytes) : result bytes :=
  let* bs := k in Ok (byte_of_Z (Z.of_N n) :: bs).

(** [binascii.a2b_base64(s)] without [strict_mode]: characters outside the
    alphabet are dropped; a pad that completes a quad ends the input; an
    incomplete quad at the end raises [binascii.Error], a [ValueError]. *)
Fixpoint a2b_base64 (s : string) (quad_pos leftchar pads : N)
  : result bytes :=
  match s with
  | EmptyString => if (quad_pos =? 0)%N then Ok [] else Raise ValueError
  | String c rest =>
      if Ascii.eqb c "="%char then
        if (2 <=? quad_pos)%N then
          if (4 <=? quad_pos + (pads + 1))%N then Ok []
          else a2b_base64 rest quad_pos leftchar (pads + 1)%N
        else a2b_base64 rest quad_pos leftchar pads
      else
        match b64_value c with
        | None => a2b_base64 rest quad_pos leftchar pads
        | Some this_ch =>
            match quad_pos with
            | 0%N => a2b_base64 rest 1%N this_ch 0%N
            | 1%N =>
                out_byte (leftchar * 4 + this_ch / 16)
                         (a2b_base64 rest 2%N (this_ch mod 16)%N 0%N)
            | 2%N =>
                out_byte (leftchar * 16 + this_ch / 4)
                         (a2b_base64 rest 3%N (this_ch mod 4)%N 0%N)
            | _ =>
                out_byte (leftchar * 64 + this_ch)
                         (a2b_base64 rest 0%N 0%N 0%N)
            end
        end
  end.

Definition is_ascii (s : string) : bool :=
  forallb (fun c => (N_of_ascii c <? 128)%N) (list_ascii_of_string s).

(** [base64.b64decode(s)] for a [str] argument: it is encoded as ASCII,
    which raises [ValueError] on any other character. *)
Definition b64decode (s : string) : result bytes :=
  if is_ascii s then a2b_base64 s 0 0 0 else Raise ValueError.

(** [s.replace(c, "")] for a one-character [c]. *)
Fixpoint remove_char (c : ascii) (s : string) : string :=
  match s with
  | EmptyString => EmptyString
  | String d rest =>
      if Ascii.eqb d c then remove_char c rest
      else String d (remove_char c rest)
  end.

(** [c.isspace()] *)
Definition isspace (c : ascii) : bool := Py.isspace (N_of_ascii c).

Fixpoint lstrip (s : string) : string :=
  match s with
  | EmptyString => EmptyString
  | String c rest => if isspace c then lstrip rest else s
  end.

Definition rev_string (s : string) : string :=
  string_of_list_ascii (rev (list_ascii_of_string s)).

(** [s.strip()] *)
Definition strip (s : string) : string :=
  rev_string (lstrip (rev_string (lstrip s))).

(** The line boundaries of [str.splitlines] below U+0100. *)
Definition is_linebreak (c : ascii) : bool :=
  let n := N_of_ascii c in
  ((10 <=? n) && (n <=? 13) || (28 <=? n) && (n <=? 30) || (n =? 0x85))%N.

(** [s.splitlines()]: a carriage return and the line feed after it are one
    boundary; there is no empty last line. *)
Fixpoint splitlines (s : string) : list string :=
  match s with
  | EmptyString => []
  | String c rest =>
      if is_linebreak c then
        match rest with
        | String d rest' =>
            if Ascii.eqb c "013"%char && Ascii.eqb d "010"%char
            then EmptyString :: splitlines rest'
            else EmptyString :: splitlines rest
        | EmptyString => [EmptyString]
        end
      else
        match splitlines rest with
        | [] => [String c EmptyString]
        | line :: lines => String c line :: lines
        end
  end.

(** [s.startswith(prefix)] *)
Definition startswith (s pre : string) : bool := String.prefix pre s.

(** [c in s] for a one-character [c]. *)
Fixpoint contains_char (c : ascii) (s : string) : bool :=
  match s with
  | EmptyString => false
  | String d rest => Ascii.eqb d c || contains_char c rest
  end.

(** [s.split(c, 1)[1]] when [c in s]: the text after the first [c]. *)
Fixpoint after_char (c : ascii) (s : string) : string :=
  match s with
  | EmptyString => EmptyString
  | String d rest => if Ascii.eqb d c then rest else after_char c rest
  end.

End PyText.

(** ** crypto/kdf.py *)

(** Modelled from the spec: the hash, HMAC and HKDF come from the
    PyCryptodome package, which is not part of the repository.  SHA-256
    follows FIPS 180-4, HMAC follows RFC 2104 and [HKDF] follows the
    package's function of that name (RFC 5869: extract with the salt as the
    HMAC key, expand in 32-byte steps, cut into [num_keys] keys). *)
Module SHA256.

Definition w32 (x : Z) : Z := x mod 2 ^ 32.

Definition rotr (n x : Z) : Z :=
  Z.lor (Z.shiftr x n) (w32 (Z.shiftl x (32 - n))).

Definition Ch (x y z : Z) : Z :=
  Z.lxor (Z.land x y) (Z.land (Z.lxor x 0xFFFFFFFF) z).

Definition Maj (x y z : Z) : Z :=
  Z.lxor (Z.lxor (Z.land x y) (Z.land x z)) (Z.land y z).

Definition Sigma0 (x : Z) : Z :=
  Z.lxor (Z.lxor (rotr 2 x) (rotr 13 x)) (rotr 22 x).

Definition Sigma1 (x : Z) : Z :=
  Z.lxor (Z.lxor (rotr 6 x) (rotr 11 x)) (rotr 25 x).

Definition sigma0 (x : Z) : Z :=
  Z.lxor (Z.lxor (rotr 7 x) (rotr 18 x)) (Z.shiftr x 3).

Definition sigma1 (x : Z) : Z :=
  Z.lxor (Z.lxor (rotr 17 x) (rotr 19 x)) (Z.shiftr x 10).

(** The round constants: the first 32 bits of the fractional parts of the
    cube roots of the first 64 primes. *)
Definition K : list Z :=
  [
    1116352408; 1899447441; 3049323471; 3921009573; 961987163; 1508970993;
    2453635748; 2870763221; 3624381080; 310598401; 607225278; 1426881987;
    1925078388; 2162078206; 2614888103; 3248222580; 3835390401; 4022224774;
    264347078; 604807628; 770255983; 1249150122; 1555081692; 1996064986;
    2554220882; 2821834349; 2952996808; 3210313671; 3336571891; 3584528711;
    113926993; 338241895; 666307205; 773529912; 1294757372; 1396182291;
    1695183700; 1986661051; 2177026350; 2456956037; 2730485921; 2820302411;
    3259730800; 3345764771; 3516065817; 3600352804; 4094571909; 275423344;
    430227734; 506948616; 659060556; 883997877; 958139571; 1322822218;
    1537002063; 1747873779; 1955562222; 2024104815; 2227730452; 2361852424;
    2428436474; 2756734187; 3204031479; 3329325298
  ].

Record state := {
  ha : Z; hb : Z; hc : Z; hd : Z; he : Z; hf : Z; hg : Z; hh : Z
}.

(** The first 32 bits of the fractional parts of the square roots of the
    first 8 primes. *)
Definition H0 : state :=
  {| ha := 1779033703; hb := 3144134277; hc := 1013904242; hd := 2773480762;
     he := 1359893119; hf := 2600822924; hg := 528734635; hh := 1541459225 |}.

Definition round (s : state) (k w : Z) : state :=
  let t1 := w32 (hh s + Sigma1 (he s) + Ch (he s) (hf s) (hg s) + k + w) in
  let t2 := w32 (Sigma0 (ha s) + Maj (ha s) (hb s) (hc s)) in
  {| ha := w32 (t1 + t2); hb := ha s; hc := hb s; hd := hc s;
     he := w32 (hd s + t1); hf := he s; hg := hf s; hh := hg s |}.

(** The 64 rounds; [win] holds the sixteen schedule words from the
    current one on. *)
Fixpoint rounds (ks : list Z) (win : list Z) (s : state) : state :=
  match ks, win with
  | k :: ks', w :: rest =>
      let w16 := w32 (sigma1 (nth 13 rest 0) + nth 8 rest 0
                      + sigma0 (nth 0 rest 0) + w) in
      rounds ks' (rest ++ [w16]) (round s k w)
  | _, _ => s
  end.

(** Big-endian 32-bit words of a block. *)
Fixpoint be_words (bs : bytes) : list Z :=
  match bs with
  | b3 :: b2 :: b1 :: b0 :: rest =>
      (byte_to_Z b3 * 2 ^ 24 + byte_to_Z b2 * 2 ^ 16
       + byte_to_Z b1 * 2 ^ 8 + byte_to_Z b0) :: be_words rest
  | _ => []
  end.

Definition compress (s : state) (block : bytes) : state :=
  let r := rounds K (be_words block) s in
  {| ha := w32 (ha s + ha r); hb := w32 (hb s + hb r);
     hc := w32 (hc s + hc r); hd := w32 (hd s + hd r);
     he := w32 (he s + he r); hf := w32 (hf s + hf r);
     hg := w32 (hg s + hg r); hh := w32 (hh s + hh r) |}.

Fixpoint process (fuel : nat) (data : bytes) (s : state) : state :=
  match fuel, data with
  | S fuel', _ :: _ => process fuel' (drop 64 data) (compress s (take 64 data))
  | _, _ => s
  end.

Definition be_bytes (n : nat) (x : Z) : bytes := rev (Z_to_le n x).

(** The message, a 1 bit, zeros up to 56 modulo 64, and the bit length on
    eight bytes. *)
Definition pad (msg : bytes) : bytes :=
  let l := length msg in
  msg ++ [x80] ++ replicate ((119 - l mod 64) mod 64) x00
      ++ be_bytes 8 (8 * Z.of_nat l).

Definition state_bytes (s : state) : bytes :=
  be_bytes 4 (ha s) ++ be_bytes 4 (hb s) ++ be_bytes 4 (hc s)
  ++ be_bytes 4 (hd s) ++ be_bytes 4 (he s) ++ be_bytes 4 (hf s)
  ++ be_bytes 4 (hg s) ++ be_bytes 4 (hh s).

Definition digest_size : nat := 32.
Definition block_size : nat := 64.

(** Modelled from the spec: [SHA256.new(msg).digest()] of PyCryptodome,
    after FIPS 180-4. *)
Definition sha256 (msg : bytes) : bytes :=
  let data := pad msg in
  state_bytes (process (length data) data H0).

Definition xor_pad (pad_byte : Z) (key : bytes) : bytes :=
  map (fun b => byte_of_Z (Z.lxor (byte_to_Z b) pad_byte)) key.

(** Modelled from the spec: [HMAC.new(key, msg, digestmod=SHA256).digest()]
    of PyCryptodome, after RFC 2104. *)
Definition hmac (key msg : bytes) : bytes :=
  let key := if (block_size <? length key)%nat then sha256 key else key in
  let key := ljust block_size x00 key in
  sha256 (xor_pad 0x5c key ++ sha256 (xor_pad 0x36 key ++ msg)).

Definition _HKDF_extract (salt ikm : bytes) : bytes := hmac salt ikm.

(** The loop of the expand step: [t_last] is [t[-1]], [acc] the join of
    [t], [n] the counter byte. *)
Fixpoint expand_loop (fuel : nat) (prk info : bytes) (okm_len : nat)
  (t_last acc : bytes) (n : Z) : bytes :=
  match fuel with
  | O => acc
  | S fuel' =>
      if (length acc <? okm_len)%nat then
        let t := hmac prk (t_last ++ info ++ [byte_of_Z n]) in
        expand_loop fuel' prk info okm_len t (acc ++ t) (n + 1)
      else acc
  end.

Definition _HKDF_expand (prk info : bytes) (okm_len : nat) : bytes :=
  take okm_len (expand_loop okm_len prk info okm_len [] [] 1).

(** What [HKDF] returns: one byte string, or a list when [num_keys > 1]. *)
Inductive hkdf_out :=
| OneKey (key : bytes)
| KeyList (keys : list bytes).

(** [range(0, stop, step)] *)
Definition range_step (stop step : nat) : list nat :=
  map (fun q => (q * step)%nat) (seq 0 ((stop + step - 1) / step)).

(** Modelled from the spec: [Crypto.Protocol.KDF.HKDF] with
    [hashmod=SHA256], after RFC 5869. *)
Definition HKDF (master : bytes) (key_len : nat) (salt : bytes)
  (num_keys : nat) (context : bytes) : result hkdf_out :=
  let output_len := (key_len * num_keys)%nat in
  if (255 * digest_size <? output_len)%nat then Raise ValueError else
  let salt := if (length salt =? 0)%nat
              then replicate digest_size x00 else salt in
  let prk := _HKDF_extract salt master in
  let okm := _HKDF_expand prk context output_len in
  if (num_keys =? 1)%nat then Ok (OneKey (take key_len okm)) else
  let kol := map (fun idx => slice okm idx (idx + key_len))
                 (range_step output_len key_len) in
  Ok (KeyList (take num_keys kol)).

End SHA256.

Module Kdf.

Import SHA256.

Definition MASTER_KEY : bytes :=
  [x9a; x75; x9c; xf2; xc4; xf7; xca; xff;
   x22; x2c; xb9; x76; x9b; x41; xbc; x96].

(** [b"RFID-A\x00"] *)
Definition CONTEXT : bytes := [x52; x46; x49; x44; x2d; x41; x00].

Definition NUM_SECTORS : nat := 16.

Definition KEY_LENGTH : nat := 6.

Definition derive_keys (uid : bytes) : result (list bytes) :=
  let* raw := HKDF uid KEY_LENGTH MASTER_KEY NUM_SECTORS CONTEXT in
  match raw with
  | KeyList keys => Ok keys
  | OneKey raw =>
      Ok (map (fun i => slice raw (i * KEY_LENGTH) ((i + 1) * KEY_LENGTH))
              (seq 0 NUM_SECTORS))
  end.

End Kdf.

(** ** rfid/tag_builder.py *)

Module TagBuilder.

Import BambuFormat.

(** Text output is a [string] of 7-bit characters. *)

Definition hex_digit_upper (n : N) : ascii :=
  match n with
  | 0 => "0" | 1 => "1" | 2 => "2" | 3 => "3" | 4 => "4" | 5 => "5"
  | 6 => "6" | 7 => "7" | 8 => "8" | 9 => "9" | 10 => "A" | 11 => "B"
  | 12 => "C" | 13 => "D" | 14 => "E" | _ => "F"
  end%N%char.

(** [f"{b:02X}"] for one byte. *)
Definition hex_byte_upper (b : byte) : string :=
  let n := Byte.to_N b in
  String (hex_digit_upper (n / 16)) (String (hex_digit_upper (n mod 16)) "").

(** [data.hex().upper()] *)
Definition hex_upper (data : bytes) : string :=
  String.concat "" (map hex_byte_upper data).

Definition b64_char (n : N) : ascii :=
  if (n <? 26)%N then ascii_of_N (65 + n)
  else if (n <? 52)%N then ascii_of_N (97 + (n - 26))
  else if (n <? 62)%N then ascii_of_N (48 + (n - 52))
  else if (n =? 62)%N then "+"%char else "/"%char.

(** [base64.b64encode(data).decode("ascii")] *)
Fixpoint b64encode (data : bytes) : string :=
  match data with
  | [] => ""
  | [a] =>
      let n := (Byte.to_N a * 65536)%N in
      String (b64_char (n / 262144))
        (String (b64_char ((n / 4096) mod 64)) "==")
  | [a; b] =>
      let n := (Byte.to_N a * 65536 + Byte.to_N b * 256)%N in
      String (b64_char (n / 262144))
        (String (b64_char ((n / 4096) mod 64))
           (String (b64_char ((n / 64) mod 64)) "="))
  | a :: b :: c :: rest =>
      let n := (Byte.to_N a * 65536 + Byte.to_N b * 256 + Byte.to_N c)%N in
      String (b64_char (n / 262144))
        (String (b64_char ((n / 4096) mod 64))
           (String (b64_char ((n / 64) mod 64))
              (String (b64_char (n mod 64)) (b64encode rest))))
  end.

(** [f"{i:02d}"] *)
Definition dec2 (i : nat) : string :=
  if (i <? 10)%nat then String "0" (pretty i) else pretty i.

Definition build_blocks (fd : FilamentData) : result (list bytes) :=
  build_tag_blocks fd.

Definition build_binary (fd : FilamentData) : result bytes :=
  let* blocks := build_tag_blocks fd in Ok (concat blocks).

Definition build_hex (fd : FilamentData) : result string :=
  let* data := build_binary fd in Ok (hex_upper data).

Definition build_base64 (fd : FilamentData) : result string :=
  let* data := build_binary fd in Ok (b64encode data).

Definition build_base64_blocks (fd : FilamentData) : result (list string) :=
  let* blocks := build_tag_blocks fd in Ok (map b64encode blocks).

Definition build_hex_blocks (fd : FilamentData) : result (list string) :=
  let* blocks := build_tag_blocks fd in Ok (map hex_upper blocks).

Definition build_proxmark3_dump (fd : FilamentData) : result string :=
  let* blocks := build_tag_blocks fd in
  let lines :=
    imap (fun i block =>
            let hex_bytes := String.concat " " (map hex_byte_upper block) in
            ("Block " ++ dec2 i ++ ": " ++ hex_bytes)%string)
         blocks in
  Ok (String.concat (String (ascii_of_N 10) "") lines).

End TagBuilder.

(** ** rfid/tag_parser.py *)

Module TagParser.

Import BambuFormat PyText.

Definition parse_from_blocks (blocks : list bytes) : result FilamentData :=
  parse_tag_dump blocks.

Definition parse_from_binary (data : bytes) : result FilamentData :=
  if negb (length data =? Mifare.TOTAL_BYTES)%nat then Raise ValueError else
  let blocks :=
    map (fun i => slice data (i * Mifare.BYTES_PER_BLOCK)
                             ((i + 1) * Mifare.BYTES_PER_BLOCK))
        (seq 0 Mifare.TOTAL_BLOCKS) in
  parse_tag_dump blocks.

Definition parse_from_hex (hex_string : string) : result FilamentData :=
  let clean :=
    remove_char "013" (remove_char "010" (remove_char " " hex_string)) in
  let* data := fromhex clean in
  parse_from_binary data.

Definition parse_from_base64 (b64_string : string) : result FilamentData :=
  let* data := b64decode b64_string in
  parse_from_binary data.

(** [[f(x) for x in xs]], stopping at the first exception. *)
Fixpoint traverse {A B} (f : A -> result B) (xs : list A) : result (list B) :=
  match xs with
  | [] => Ok []
  | x :: rest =>
      let* y := f x in
      let* ys := traverse f rest in
      Ok (y :: ys)
  end.

Definition parse_from_base64_blocks (b64_blocks : list string)
  : result FilamentData :=
  let* blocks := traverse b64decode b64_blocks in
  parse_tag_dump blocks.

Definition parse_from_hex_blocks (hex_blocks : list string)
  : result FilamentData :=
  let* blocks := traverse fromhex hex_blocks in
  parse_tag_dump blocks.

(** The body of the loop over the lines of a Proxmark3 dump. *)
Definition proxmark3_line (blocks : list bytes) (line : string)
  : result (list bytes) :=
  let line := strip line in
  if (String.length line =? 0)%nat || startswith line "#" then Ok blocks else
  let hex_part :=
    if contains_char ":" line then strip (after_char ":" line) else line in
  let hex_clean := remove_char " " hex_part in
  if (String.length hex_clean =? 32)%nat then
    let* b := fromhex hex_clean in Ok (blocks ++ [b])
  else Ok blocks.

Definition parse_proxmark3_dump (dump_text : string) : result FilamentData :=
  let* blocks :=
    fold_left (fun acc line => let* blocks := acc in
                               proxmark3_line blocks line)
              (splitlines (strip dump_text)) (Ok []) in
  if negb (length blocks =? Mifare.TOTAL_BLOCKS)%nat then Raise ValueError
  else parse_tag_dump blocks.

End TagParser.

(** ** crypto/kdf.py: the hex wrapper *)

Module KdfHex.

Import Kdf.

Definition derive_keys_from_hex (uid_hex : string) : result (list string) :=
  let* uid := PyText.fromhex uid_hex in
  let* keys := derive_keys uid in
  Ok (map TagBuilder.hex_upper keys).

End KdfHex.

(** ** crypto/tag_auth.py *)

Module TagAuth.

Import Kdf.

Record SectorAuth := {
  sector : nat;
  key : bytes;
  key_hex : string
}.

Definition get_sector_auths (uid : bytes) : result (list SectorAuth) :=
  let* keys := derive_keys uid in
  Ok (imap (fun i k => {| sector := i; key := k;
                          key_hex := TagBuilder.hex_upper k |}) keys).

(** The dict that [get_auth_payload] returns. *)
Record auth_payload := {
  payload_uid : string;          (* "uid" *)
  payload_keys : list string     (* "keys" *)
}.

Definition get_auth_payload (uid : bytes) : result auth_payload :=
  let* keys := derive_keys uid in
  Ok {| payload_uid := TagBuilder.hex_upper uid;
        payload_keys := map TagBuilder.hex_upper keys |}.

End TagAuth.

(** ** bridge/nfc_bridge.py *)

(** The coroutines of [NFCBridgeManager] run on one event loop, so the code
    between two [await]s is atomic.  Each method is a function on the
    manager's state; [request_read] and [request_write] are cut at their
    [await asyncio.wait_for]: one function up to the suspension, one for
    the resumption.  Futures are shared between the pending tables and the
    waiting coroutines: the tables hold handles into [futures]. *)
Module Bridge.

(** A JSON object of the protocol; only its string fields are inspected. *)
Abbreviation message := (gmap string string).

Inductive future_state :=
| FPending
| FResult (data : message)
| FException (e : exn)
| FCancelled.

(** [fut.done()] *)
Definition done (s : future_state) : bool :=
  match s with
  | FPending => false
  | _ => true
  end.

(** What the manager does to the outside. *)
Inductive effect :=
| Accepted (websocket : nat)
| Closed (websocket : nat)
| SentJson (websocket : nat) (msg : message)
| CalledBack (data : message).

Record NFCBridgeManager := {
  _phone : option nat;
  _pending_reads : gmap string nat;
  _pending_writes : gmap string nat;
  _on_tag_data : bool;
  _request_counter : nat;
  futures : list future_state;
  effects : list effect
}.

(** [NFCBridgeManager()] *)
Definition init : NFCBridgeManager := {|
  _phone := None;
  _pending_reads := ∅;
  _pending_writes := ∅;
  _on_tag_data := false;
  _request_counter := 0;
  futures := [];
  effects := []
|}.

Definition with_phone (p : option nat) (st : NFCBridgeManager) :=
  {| _phone := p; _pending_reads := _pending_reads st;
     _pending_writes := _pending_writes st; _on_tag_data := _on_tag_data st;
     _request_counter := _request_counter st; futures := futures st;
     effects := effects st |}.

Definition with_reads (t : gmap string nat) (st : NFCBridgeManager) :=
  {| _phone := _phone st; _pending_reads := t;
     _pending_writes := _pending_writes st; _on_tag_data := _on_tag_data st;
     _request_counter := _request_counter st; futures := futures st;
     effects := effects st |}.

Definition with_writes (t : gmap string nat) (st : NFCBridgeManager) :=
  {| _phone := _phone st; _pending_reads := _pending_reads st;
     _pending_writes := t; _on_tag_data := _on_tag_data st;
     _request_counter := _request_counter st; futures := futures st;
     effects := effects st |}.

Definition with_counter (n : nat) (st : NFCBridgeManager) :=
  {| _phone := _phone st; _pending_reads := _pending_reads st;
     _pending_writes := _pending_writes st; _on_tag_data := _on_tag_data st;
     _request_counter := n; futures := futures st;
     effects := effects st |}.

Definition with_futures (h : list future_state) (st : NFCBridgeManager) :=
  {| _phone := _phone st; _pending_reads := _pending_reads st;
     _pending_writes := _pending_writes st; _on_tag_data := _on_tag_data st;
     _request_counter := _request_counter st; futures := h;
     effects := effects st |}.

Definition emit (e : effect) (st : NFCBridgeManager) :=
  {| _phone := _phone st; _pending_reads := _pending_reads st;
     _pending_writes := _pending_writes st; _on_tag_data := _on_tag_data st;
     _request_counter := _request_counter st; futures := futures st;
     effects := effects st ++ [e] |}.

Definition is_connected (st : NFCBridgeManager) : bool :=
  match _phone st with Some _ => true | None => false end.

(** [fut.done()] for a handle. *)
Definition fut_done (h : list future_state) (f : nat) : bool :=
  match h !! f with
  | Some s => done s
  | None => true
  end.

(** [fut.cancel()]: no effect on a future that is done. *)
Definition fut_cancel (f : nat) (h : list future_state) : list future_state :=
  if fut_done h f then h else <[f := FCancelled]> h.

(** [fut.set_result(data)] *)
Definition fut_set_result (f : nat) (data : message) (h : list future_state)
  : result (list future_state) :=
  if fut_done h f then Raise InvalidStateError
  else Ok (<[f := FResult data]> h).

(** [for fut in table.values(): if not fut.done(): fut.cancel()] *)
Definition cancel_pending (table : gmap string nat) (h : list future_state)
  : list future_state :=
  map_fold (fun _ f h => if fut_done h f then h else fut_cancel f h) h table.

(** [for fut in list(table.values()): if not fut.done():
    fut.set_exception(e)] *)
Definition fail_pending (e : exn) (table : gmap string nat)
  (h : list future_state) : list future_state :=
  map_fold (fun _ f h => if fut_done h f then h else <[f := FException e]> h)
           h table.

(** [await websocket.accept()], [await self._phone.close()] with its
    exceptions swallowed, then [self._phone = websocket]. *)
Definition connect (websocket : nat) (st : NFCBridgeManager)
  : NFCBridgeManager :=
  let st := emit (Accepted websocket) st in
  let st := match _phone st with
            | Some old => emit (Closed old) st
            | None => st
            end in
  with_phone (Some websocket) st.

Definition disconnect (st : NFCBridgeManager) : NFCBridgeManager :=
  let st := with_phone None st in
  let st := with_futures (cancel_pending (_pending_reads st) (futures st)) st in
  let st := with_futures (cancel_pending (_pending_writes st) (futures st)) st in
  let st := with_reads ∅ st in
  with_writes ∅ st.

(** [data.get(key, dflt)] *)
Definition get (data : message) (key dflt : string) : string :=
  default dflt (data !! key).

Definition handle_message (data : message) (st : NFCBridgeManager)
  : result NFCBridgeManager :=
  let action := get data "action" "" in
  if String.eqb action "TAG_DATA" then
    let request_id := get data "request_id" "" in
    match _pending_reads st !! request_id with
    | Some f =>
        let* h := fut_set_result f data (futures st) in
        Ok (with_reads (delete request_id (_pending_reads st))
                       (with_futures h st))
    | None =>
        if _on_tag_data st then Ok (emit (CalledBack data) st) else Ok st
    end
  else if String.eqb action "WRITE_RESULT" then
    let request_id := get data "request_id" "" in
    match _pending_writes st !! request_id with
    | Some f =>
        let* h := fut_set_result f data (futures st) in
        Ok (with_writes (delete request_id (_pending_writes st))
                        (with_futures h st))
    | None => Ok st
    end
  else if String.eqb action "TAG_DETECTED" then Ok st
  else if String.eqb action "STATUS" then Ok st
  else if String.eqb action "ERROR" then
    let e := Exception (get data "message" "NFC error") in
    let st := with_futures (fail_pending e (_pending_reads st) (futures st))
                           st in
    Ok (with_futures (fail_pending e (_pending_writes st) (futures st)) st)
  else Ok st.

(** [request_read] up to [await asyncio.wait_for(future, timeout)]: the
    request id and the future it waits on. *)
Definition request_read_send (st : NFCBridgeManager)
  : result (NFCBridgeManager * string * nat) :=
  match _phone st with
  | None => Raise ConnectionError
  | Some phone =>
      let st := with_counter (_request_counter st + 1) st in
      let request_id : string := pretty (_request_counter st) in
      let future := length (futures st) in
      let st := with_futures (futures st ++ [FPending]) st in
      let st := with_reads (<[request_id := future]> (_pending_reads st)) st in
      let st := emit (SentJson phone
                        (<["action" := "READ_TAG"]>
                           (<["request_id" := request_id]> ∅))) st in
      Ok (st, request_id, future)
  end.

(** What [asyncio.wait_for] finds when the waiting coroutine runs again:
    the future is done, or its timeout has fired. *)
Definition wait_for (timed_out : bool) (f : nat) (st : NFCBridgeManager)
  : option (NFCBridgeManager * result message) :=
  match futures st !! f with
  | Some (FResult data) => Some (st, Ok data)
  | Some (FException e) => Some (st, Raise e)
  | Some FCancelled => Some (st, Raise CancelledError)
  | Some FPending =>
      if timed_out
      then Some (with_futures (fut_cancel f (futures st)) st,
                 Raise TimeoutError)
      else None
  | None => None
  end.

(** [request_read] from the resumption on: only [asyncio.TimeoutError] is
    caught. *)
Definition request_read_resume (timed_out : bool) (request_id : string)
  (f : nat) (st : NFCBridgeManager)
  : option (NFCBridgeManager * result message) :=
  match wait_for timed_out f st with
  | Some (st, Raise TimeoutError) =>
      Some (with_reads (delete request_id (_pending_reads st)) st,
            Raise TimeoutError)
  | r => r
  end.

(** [request_write] up to its [await asyncio.wait_for]; [payload] stands
    for the keys, the blocks and the optional uid of the frame. *)
Definition request_write_send (payload : message) (st : NFCBridgeManager)
  : result (NFCBridgeManager * string * nat) :=
  match _phone st with
  | None => Raise ConnectionError
  | Some phone =>
      let st := with_counter (_request_counter st + 1) st in
      let request_id : string := pretty (_request_counter st) in
      let future := length (futures st) in
      let st := with_futures (futures st ++ [FPending]) st in
      let st := with_writes (<[request_id := future]> (_pending_writes st)) st in
      let st := emit (SentJson phone
                        (<["action" := "WRITE_TAG"]>
                           (<["request_id" := request_id]> payload))) st in
      Ok (st, request_id, future)
  end.

Definition request_write_resume (timed_out : bool) (request_id : string)
  (f : nat) (st : NFCBridgeManager)
  : option (NFCBridgeManager * result message) :=
  match wait_for timed_out f st with
  | Some (st, Raise TimeoutError) =>
      Some (with_writes (delete request_id (_pending_writes st)) st,
            Raise TimeoutError)
  | r => r
  end.

(** What the receive loop of [listen] gets from its websocket. *)
Inductive received :=
| Frame (data : message)       (* a text frame that parses as JSON *)
| Unparseable                  (* [json.loads] raises *)
| Disconnect.                  (* [WebSocketDisconnect], or the socket
                                  was closed under the loop *)

(** One turn of the loop of [listen]: the new state, and whether the loop
    goes on.  Both exception handlers call [disconnect]. *)
Definition listen_step (r : received) (st : NFCBridgeManager)
  : NFCBridgeManager * bool :=
  match r with
  | Frame data =>
      match handle_message data st with
      | Ok st' => (st', true)
      | Raise _ => (disconnect st, false)
      end
  | Unparseable => (disconnect st, false)
  | Disconnect => (disconnect st, false)
  end.

End Bridge.

(** ** library/catalog.py *)

(** The cache file and the remote tree are the two external stores of
    [load_index]; [json.dumps] and [json.loads] are taken to be inverse on
    lists of string-valued objects, so the cache file holds the list
    itself. *)
Module Catalog.

Record TagEntry := {
  material : string;
  subtype : string;
  color : string;
  uid : string;
  json_path : string;
  bin_path : string
}.


Definition id (e : TagEntry) : string :=
  (material e ++ "/" ++ subtype e ++ "/" ++ color e ++ "/" ++ uid e)%string.

(** A JSON object with string values. *)
Abbreviation dict := (gmap string string).


Record TagCatalog := {
  entries : list TagEntry;
  materials : list (string * list string);  (* in insertion order *)
  last_updated : string
}.

Record TagLibrary := {
  catalog : TagCatalog;
  _index_loaded : bool
}.

(** [TagLibrary()] *)
Definition init : TagLibrary :=
  {| catalog := {| entries := []; materials := []; last_updated := "" |};
     _index_loaded := false |}.

(** The order of [sorted] on strings. *)
Definition str_le (s1 s2 : string) : Prop := Is_true (String.leb s1 s2).

Definition sorted_strings (l : list string) : list string :=
  merge_sort str_le l.

Definition sorted_items {V} (l : list (string * V)) : list (string * V) :=
  merge_sort (fun a b => str_le (fst a) (fst b)) l.

(** [_build_material_index]: a set of subtypes per material, then both
    levels sorted. *)
Definition _build_material_index (es : list TagEntry)
  : list (string * list string) :=
  let materials : gmap string (gset string) :=
    foldl (fun m e =>
             let m := match m !! material e with
                      | None => <[material e := ∅]> m
                      | Some _ => m
                      end in
             <[material e := {[subtype e]} ∪ default ∅ (m !! material e)]> m)
          ∅ es in
  map (fun kv => (fst kv, sorted_strings (elements (snd kv))))
      (sorted_items (map_to_list materials)).






(** [s.split(sep)] for a one-character separator. *)
Fixpoint split (sep : ascii) (s : string) : list string :=
  match s with
  | EmptyString => [EmptyString]
  | String c rest =>
      if Ascii.eqb c sep then EmptyString :: split sep rest
      else match split sep rest with
           | h :: t => String c h :: t
           | [] => [String c EmptyString]
           end
  end.






(** [c.lower()] for a code point below U+0100: the letters A-Z, and the
    letters U+00C0-U+00DE without the multiplication sign. *)
Definition lower_char (c : ascii) : ascii :=
  let n := N_of_ascii c in
  if ((65 <=? n) && (n <=? 90)
      || (192 <=? n) && (n <=? 222) && negb (n =? 215))%N
  then ascii_of_N (n + 32) else c.

(** [s.lower()] *)
Fixpoint lower (s : string) : string :=
  match s with
  | EmptyString => EmptyString
  | String c rest => String (lower_char c) (lower rest)
  end.

(** [q in s] *)
Fixpoint contains (q s : string) : bool :=
  String.prefix q s
  || match s with
     | EmptyString => false
     | String _ rest => contains q rest
     end.

(** [if arg:] for an [Optional[str]]: neither [None] nor empty. *)
Definition given (arg : option string) : option string :=
  match arg with
  | Some EmptyString => None
  | _ => arg
  end.

Definition search (material_ subtype_ color_ query : option string)
  (lib : TagLibrary) : list TagEntry :=
  let results := entries (catalog lib) in
  let results :=
    match given material_ with
    | Some m =>
        List.filter (fun e => String.eqb (lower (material e)) (lower m))
                    results
    | None => results
    end in
  let results :=
    match given subtype_ with
    | Some s =>
        List.filter (fun e => String.eqb (lower (subtype e)) (lower s))
                    results
    | None => results
    end in
  let results :=
    match given color_ with
    | Some c =>
        let color_lower := lower c in
        List.filter (fun e => contains color_lower (lower (color e))) results
    | None => results
    end in
  let results :=
    match given query with
    | Some q =>
        let q := lower q in
        List.filter (fun e => contains q (lower (material e))
                              || contains q (lower (subtype e))
                              || contains q (lower (color e))
                              || contains q (lower (uid e)))
                    results
    | None => results
    end in
  results.

Definition get_colors (material_ subtype_ : string) (lib : TagLibrary)
  : list string :=
  let colors : gset string :=
    foldl (fun colors e =>
             if String.eqb (material e) material_
                && String.eqb (subtype e) subtype_
             then {[color e]} ∪ colors
             else colors)
          ∅ (entries (catalog lib)) in
  sorted_strings (elements colors).



End Catalog.

(** ** Auxiliary definitions used by the statements below *)

Definition pos_shl (p : positive) (k : Z) : positive :=
  match k with
  | Zpos k' => Pos.iter xO p k'
  | _ => p
  end.


Definition is_ascii_byte (b : byte) : bool := (Byte.to_N b <? 128)%N.

(** A text field is canonical when re-encoding its decoded text gives the
    same bytes: 7-bit text without white space at either end, followed by
    NUL bytes only. *)
Definition canonical_ascii (raw : bytes) : bool :=
  let c := until_nul raw in
  forallb is_ascii_byte c
  && match c with [] => true | b :: _ => negb (isspace (Byte.to_N b)) end
  && match rev c with [] => true | b :: _ => negb (isspace (Byte.to_N b)) end
  && forallb (Byte.eqb x00) (drop (length c) raw).

(** A 32-bit pattern that is not a binary32 NaN. *)
Definition not_nan_bits (n : Z) : bool :=
  negb (((n / 2 ^ 23) mod 256 =? 255) && negb (n mod 2 ^ 23 =? 0)).

(** The value [build_tag_blocks] stores for a spool width that
    [parse_tag_dump] read as the raw integer [w]. *)
Definition spool_reencode (w : Z) : result Z :=
  int_of_float (fmul (fdiv (float_of_int w) (float_of_int 100))
                     (float_of_int 100)).

(** 100.0 *)
Definition f100_lit : float := S754_finite false 7036874417766400 (-46).

(** [spool_reencode] with the division by 100.0 done on the mantissa
    (100.0 is 25 * 2 ^ 2), which is cheaper to evaluate. *)
Definition spool_fast (w : Z) : result Z :=
  match float_of_int w with
  | S754_finite false m1 e1 =>
      let a := Zpos m1 * 32 in
      let r := a mod 25 in
      let loc := if r =? 0 then loc_Exact else loc_Inexact (2 * r ?= 25) in
      match binary_round_aux 53 1024 false (a / 25) (e1 - 7) loc with
      | S754_finite sx mx ex =>
          int_of_float
            (binary_round_aux 53 1024 sx (Zpos (7036874417766400 * mx))
                              (ex + -46) loc_Exact)
      | x => int_of_float (fmul x f100_lit)
      end
  | x => int_of_float (fmul (fdiv x f100_lit) f100_lit)
  end.

Definition spool_fast_near (w : Z) : bool :=
  match spool_fast w with
  | Ok w' => (0 <=? w') && (w - 1 <=? w') && (w' <=? w)
  | Raise _ => false
  end.

(** [f] holds on the [2 ^ k] integers from [lo] on. *)
Fixpoint holds_on_range (f : Z -> bool) (k : nat) (lo : Z) : bool :=
  match k with
  | O => f lo
  | S k' => holds_on_range f k' lo
            && holds_on_range f k' (lo + 2 ^ Z.of_nat k')
  end.

Import BambuFormat.

(** *** The writes of [build_tag_blocks], one list per field *)

Inductive wop :=
| WSlice (k i j : nat) (v : bytes)   (* blocks[k][i:j] = v *)
| WBlock (k : nat) (v : bytes).      (* blocks[k] = v *)

Definition apply_wop (blocks : list bytes) (w : wop) : list bytes :=
  match w with
  | WSlice k i j v => set_slice blocks k i j v
  | WBlock k v => <[k := v]> blocks
  end.

Definition base_blocks (fd : FilamentData) : list bytes :=
  if negb (length (raw_blocks fd) =? 0)%nat
     && (length (raw_blocks fd) =? 64)%nat
  then raw_blocks fd
  else replicate 64 (replicate 16 x00).

Definition W_opt (k i j : nat) (v : bytes) : list wop :=
  if negb (length v =? 0)%nat
  then [WSlice k i j (ljust (j - i) x00 (take (j - i) v))]
  else [].

Definition W_ascii (k i j : nat) (s : str) : result (list wop) :=
  let* raw := encode_ascii s in
  Ok [WSlice k i j (ljust (j - i) x00 (take (j - i) raw))].

Definition W_u16 (k i : nat) (z : Z) : result (list wop) :=
  let* raw := pack_H z in Ok [WSlice k i (i + 2) raw].

Definition W_f32 (k i : nat) (x : float) : result (list wop) :=
  let* raw := pack_f x in Ok [WSlice k i (i + 4) raw].

Definition W_color (v : bytes) : list wop := [WSlice 5 0 4 (take 4 v)].

Definition W_spool (x : float) : result (list wop) :=
  let* w := int_of_float (fmul x (float_of_int 100)) in W_u16 10 4 w.

Definition W_secondary (v : bytes) : list wop :=
  if negb (length v =? 0)%nat then [WSlice 16 4 8 (take 4 v)] else [].

(** The sixteen blocks that hold a 256-byte signature. *)
Definition RSA_WRITTEN_BLOCKS : list nat :=
  [40; 41; 42; 44; 45; 46; 48; 49; 50; 52; 53; 54; 56; 57; 58; 60]%nat.

Definition sig_writes (sig : bytes) : list wop :=
  imap (fun n k => WBlock k (slice sig (16 * n) (16 * n + 16)))
       RSA_WRITTEN_BLOCKS.

Definition W_rsa (v : bytes) : list wop :=
  if negb (length v =? 0)%nat
  then sig_writes (ljust 256 x00 (take 256 v))
  else [].

Definition writes (fd : FilamentData) : result (list wop) :=
  let* w_variant := W_ascii 1 0 8 (material_variant_id fd) in
  let* w_material := W_ascii 1 8 16 (material_id fd) in
  let* w_type := W_ascii 2 0 16 (filament_type fd) in
  let* w_detailed := W_ascii 4 0 16 (detailed_filament_type fd) in
  let* w_weight := W_u16 5 4 (spool_weight_g fd) in
  let* w_diameter := W_f32 5 8 (filament_diameter_mm fd) in
  let* w_dry_temp := W_u16 6 0 (drying_temp_c fd) in
  let* w_dry_time := W_u16 6 2 (drying_time_h fd) in
  let* w_bed_type := W_u16 6 4 (bed_temp_type fd) in
  let* w_bed_temp := W_u16 6 6 (bed_temp_c fd) in
  let* w_max := W_u16 6 8 (max_hotend_temp_c fd) in
  let* w_min := W_u16 6 10 (min_hotend_temp_c fd) in
  let* w_nozzle := W_f32 8 12 (nozzle_diameter fd) in
  let* w_tray := W_ascii 9 0 16 (tray_uid fd) in
  let* w_width := W_spool (spool_width_mm fd) in
  let* w_date := W_ascii 12 0 16 (production_datetime fd) in
  let* w_short := W_ascii 13 0 16 (short_production_datetime fd) in
  let* w_length := W_u16 14 4 (filament_length_m fd) in
  let* w_format := W_u16 16 0 (color_format fd) in
  let* w_count := W_u16 16 2 (color_count fd) in
  Ok (W_opt 0 0 4 (uid fd) ++ W_opt 0 4 16 (manufacturer_data fd)
      ++ w_variant ++ w_material ++ w_type ++ w_detailed
      ++ W_color (color_rgba fd) ++ w_weight ++ w_diameter
      ++ w_dry_temp ++ w_dry_time ++ w_bed_type ++ w_bed_temp
      ++ w_max ++ w_min
      ++ W_opt 8 0 12 (xcam_info fd) ++ w_nozzle ++ w_tray ++ w_width
      ++ w_date ++ w_short ++ w_length ++ w_format ++ w_count
      ++ W_secondary (secondary_color_abgr fd)
      ++ W_rsa (rsa_signature fd)).

(** *** Images, regions and the frame of a write *)

(** Byte [i] of block [k], if any. *)
Definition byte_at (blocks : list bytes) (k i : nat) : option byte :=
  blk blocks k !! i.

(** The check at the head of [parse_tag_dump]. *)
Definition valid_image (b : list bytes) : bool :=
  (length b =? 64)%nat && forallb (fun x => (length x =? 16)%nat) b.

(** A set of byte positions (block, offset). *)
Definition region := nat -> nat -> bool.

Definition shaped (cur : list bytes) : Prop :=
  length cur = 64%nat /\ forall k, (k < 64)%nat -> length (blk cur k) = 16%nat.

Definition agrees (R : region) (cur b : list bytes) : Prop :=
  forall k i, R k i = false -> byte_at cur k i = byte_at b k i.

(** A write keeps the 64 x 16 shape and, outside [R], writes the bytes
    that [b] already has. *)
Definition wop_within (R : region) (b : list bytes) (w : wop) : Prop :=
  match w with
  | WSlice k i j v =>
      (k < 64)%nat /\ (i <= j <= 16)%nat /\ length v = (j - i)%nat /\
      forall t, (t < j - i)%nat ->
                R k (i + t)%nat = true \/ v !! t = byte_at b k (i + t)
  | WBlock k v =>
      (k < 64)%nat /\ length v = 16%nat /\
      forall t, (t < 16)%nat -> R k t = true \/ v !! t = byte_at b k t
  end.

(** *** What [parse_tag_dump] returns on a valid image *)

Definition u16_at (b : list bytes) (k i : nat) : Z :=
  le_to_Z (slice (blk b k) i (i + 2)).

Definition f32_at (b : list bytes) (k i : nat) : float :=
  unpack_f (slice (blk b k) i (i + 4)).

Definition parsed_record (b : list bytes) : FilamentData := {|
  raw_blocks := b;
  uid := slice (blk b 0) 0 4;
  manufacturer_data := slice (blk b 0) 4 16;
  material_variant_id := _read_string (blk b 1) 0 8;
  material_id := _read_string (blk b 1) 8 8;
  filament_type := _read_string (blk b 2) 0 16;
  detailed_filament_type := _read_string (blk b 4) 0 16;
  color_rgba := slice (blk b 5) 0 4;
  spool_weight_g := u16_at b 5 4;
  filament_diameter_mm := f32_at b 5 8;
  drying_temp_c := u16_at b 6 0;
  drying_time_h := u16_at b 6 2;
  bed_temp_type := u16_at b 6 4;
  bed_temp_c := u16_at b 6 6;
  max_hotend_temp_c := u16_at b 6 8;
  min_hotend_temp_c := u16_at b 6 10;
  xcam_info := slice (blk b 8) 0 12;
  nozzle_diameter := f32_at b 8 12;
  tray_uid := _read_string (blk b 9) 0 16;
  spool_width_mm := fdiv (float_of_int (u16_at b 10 4)) (float_of_int 100);
  production_datetime := _read_string (blk b 12) 0 16;
  short_production_datetime := _read_string (blk b 13) 0 16;
  filament_length_m := u16_at b 14 4;
  color_format := u16_at b 16 0;
  color_count := u16_at b 16 2;
  secondary_color_abgr :=
    if (u16_at b 16 0 =? 2) && (8 <=? length (blk b 16))%nat
    then slice (blk b 16) 4 8 else [];
  rsa_signature := take 256 (flat_map (blk b) RSA_DATA_BLOCKS)
|}.

(** The seven text fields are canonical and the two binary32 fields are
    not NaN patterns. *)
Definition canonical_image (b : list bytes) : bool :=
  canonical_ascii (slice (blk b 1) 0 8)
  && canonical_ascii (slice (blk b 1) 8 16)
  && canonical_ascii (slice (blk b 2) 0 16)
  && canonical_ascii (slice (blk b 4) 0 16)
  && canonical_ascii (slice (blk b 9) 0 16)
  && canonical_ascii (slice (blk b 12) 0 16)
  && canonical_ascii (slice (blk b 13) 0 16)
  && not_nan_bits (le_to_Z (slice (blk b 5) 8 12))
  && not_nan_bits (le_to_Z (slice (blk b 8) 12 16)).

(** *** Editing one field of a record *)

Inductive edit :=
| Set_uid (v : bytes)
| Set_manufacturer_data (v : bytes)
| Set_material_variant_id (v : str)
| Set_material_id (v : str)
| Set_filament_type (v : str)
| Set_detailed_filament_type (v : str)
| Set_color_rgba (v : bytes)
| Set_spool_weight_g (v : Z)
| Set_filament_diameter_mm (v : float)
| Set_drying_temp_c (v : Z)
| Set_drying_time_h (v : Z)
| Set_bed_temp_type (v : Z)
| Set_bed_temp_c (v : Z)
| Set_max_hotend_temp_c (v : Z)
| Set_min_hotend_temp_c (v : Z)
| Set_xcam_info (v : bytes)
| Set_nozzle_diameter (v : float)
| Set_tray_uid (v : str)
| Set_spool_width_mm (v : float)
| Set_production_datetime (v : str)
| Set_short_production_datetime (v : str)
| Set_filament_length_m (v : Z)
| Set_color_format (v : Z)
| Set_color_count (v : Z)
| Set_secondary_color_abgr (v : bytes)
| Set_rsa_signature (v : bytes).

(** [fd.<field> = v] for the field named by [e]. *)
Definition apply_edit (e : edit) (fd : FilamentData) : FilamentData := {|
  raw_blocks := raw_blocks fd;
  uid := match e with Set_uid v => v | _ => uid fd end;
  manufacturer_data :=
    match e with Set_manufacturer_data v => v | _ => manufacturer_data fd end;
  material_variant_id :=
    match e with
    | Set_material_variant_id v => v | _ => material_variant_id fd end;
  material_id := match e with Set_material_id v => v | _ => material_id fd end;
  filament_type :=
    match e with Set_filament_type v => v | _ => filament_type fd end;
  detailed_filament_type :=
    match e with
    | Set_detailed_filament_type v => v | _ => detailed_filament_type fd end;
  color_rgba := match e with Set_color_rgba v => v | _ => color_rgba fd end;
  spool_weight_g :=
    match e with Set_spool_weight_g v => v | _ => spool_weight_g fd end;
  filament_diameter_mm :=
    match e with
    | Set_filament_diameter_mm v => v | _ => filament_diameter_mm fd end;
  drying_temp_c :=
    match e with Set_drying_temp_c v => v | _ => drying_temp_c fd end;
  drying_time_h :=
    match e with Set_drying_time_h v => v | _ => drying_time_h fd end;
  bed_temp_type :=
    match e with Set_bed_temp_type v => v | _ => bed_temp_type fd end;
  bed_temp_c := match e with Set_bed_temp_c v => v | _ => bed_temp_c fd end;
  max_hotend_temp_c :=
    match e with Set_max_hotend_temp_c v => v | _ => max_hotend_temp_c fd end;
  min_hotend_temp_c :=
    match e with Set_min_hotend_temp_c v => v | _ => min_hotend_temp_c fd end;
  xcam_info := match e with Set_xcam_info v => v | _ => xcam_info fd end;
  nozzle_diameter :=
    match e with Set_nozzle_diameter v => v | _ => nozzle_diameter fd end;
  tray_uid := match e with Set_tray_uid v => v | _ => tray_uid fd end;
  spool_width_mm :=
    match e with Set_spool_width_mm v => v | _ => spool_width_mm fd end;
  production_datetime :=
    match e with
    | Set_production_datetime v => v | _ => production_datetime fd end;
  short_production_datetime :=
    match e with
    | Set_short_production_datetime v => v
    | _ => short_production_datetime fd end;
  filament_length_m :=
    match e with Set_filament_length_m v => v | _ => filament_length_m fd end;
  color_format :=
    match e with Set_color_format v => v | _ => color_format fd end;
  color_count := match e with Set_color_count v => v | _ => color_count fd end;
  secondary_color_abgr :=
    match e with
    | Set_secondary_color_abgr v => v | _ => secondary_color_abgr fd end;
  rsa_signature :=
    match e with Set_rsa_signature v => v | _ => rsa_signature fd end
|}.

(** Bytes [i .. j-1] of block [k0]. *)
Definition span (k0 i j : nat) : region :=
  fun k t => (k =? k0)%nat && (i <=? t)%nat && (t <? j)%nat.

Definition region_or (R1 R2 : region) : region :=
  fun k t => R1 k t || R2 k t.

(** The sixteen blocks that hold the signature. *)
Definition rsa_region : region :=
  fun k t => existsb (Nat.eqb k) RSA_WRITTEN_BLOCKS && (t <? 16)%nat.

Definition spool_width_region : region := span 10 4 6.

(** The byte range of the field an edit sets (the table of the data
    model). *)
Definition field_region (e : edit) : region :=
  match e with
  | Set_uid _ => span 0 0 4
  | Set_manufacturer_data _ => span 0 4 16
  | Set_material_variant_id _ => span 1 0 8
  | Set_material_id _ => span 1 8 16
  | Set_filament_type _ => span 2 0 16
  | Set_detailed_filament_type _ => span 4 0 16
  | Set_color_rgba _ => span 5 0 4
  | Set_spool_weight_g _ => span 5 4 6
  | Set_filament_diameter_mm _ => span 5 8 12
  | Set_drying_temp_c _ => span 6 0 2
  | Set_drying_time_h _ => span 6 2 4
  | Set_bed_temp_type _ => span 6 4 6
  | Set_bed_temp_c _ => span 6 6 8
  | Set_max_hotend_temp_c _ => span 6 8 10
  | Set_min_hotend_temp_c _ => span 6 10 12
  | Set_xcam_info _ => span 8 0 12
  | Set_nozzle_diameter _ => span 8 12 16
  | Set_tray_uid _ => span 9 0 16
  | Set_spool_width_mm _ => spool_width_region
  | Set_production_datetime _ => span 12 0 16
  | Set_short_production_datetime _ => span 13 0 16
  | Set_filament_length_m _ => span 14 4 6
  | Set_color_format _ => span 16 0 2
  | Set_color_count _ => span 16 2 4
  | Set_secondary_color_abgr _ => span 16 4 8
  | Set_rsa_signature _ => rsa_region
  end.

(** [build_tag_blocks] does not pad the two colour fields: a value shorter
    than four bytes shrinks the block.  An edit is sized when it avoids
    that. *)
Definition edit_sized (e : edit) : bool :=
  match e with
  | Set_color_rgba v => (4 <=? length v)%nat
  | Set_secondary_color_abgr v => (length v =? 0)%nat || (4 <=? length v)%nat
  | _ => true
  end.

(** [R] contains bytes [i .. j-1] of block [k]. *)
Definition covers (R : region) (k i j : nat) : bool :=
  forallb (fun t => R k t) (seq i (j - i)).

(** [R] contains the sixteen signature blocks. *)
Definition covers_rsa (R : region) : bool :=
  forallb (fun k => covers R k 0 16) RSA_WRITTEN_BLOCKS.

(** Every byte range of the data-model table. *)
Definition all_fields_region : region :=
  fun k t =>
    span 0 0 16 k t || span 1 0 16 k t || span 2 0 16 k t
    || span 4 0 16 k t || span 5 0 6 k t || span 5 8 12 k t
    || span 6 0 12 k t || span 8 0 16 k t || span 9 0 16 k t
    || span 10 4 6 k t || span 12 0 16 k t || span 13 0 16 k t
    || span 14 4 6 k t || span 16 0 8 k t || rsa_region k t.

(** The two colour fields have four bytes where [build_tag_blocks] needs
    them. *)
Definition record_sized (fd : FilamentData) : bool :=
  (4 <=? length (color_rgba fd))%nat
  && ((length (secondary_color_abgr fd) =? 0)%nat
      || (4 <=? length (secondary_color_abgr fd))%nat).

(** The block a write targets, and its effect on block [k] alone. *)
Definition wop_target (w : wop) : nat :=
  match w with
  | WSlice k _ _ _ => k
  | WBlock k _ => k
  end.

Definition wop_on (k : nat) (B : bytes) (w : wop) : bytes :=
  match w with
  | WSlice k' i j v => if (k' =? k)%nat then slice_assign B i j v else B
  | WBlock k' v => if (k' =? k)%nat then v else B
  end.

(** The blocks [build_tag_blocks] may write. *)
Definition WRITTEN_BLOCKS : list nat :=
  [0; 1; 2; 4; 5; 6; 8; 9; 10; 12; 13; 14; 16]%nat ++ RSA_WRITTEN_BLOCKS.

(** *** Concrete images and records *)

Definition zero_block : bytes := replicate 16 x00.

Definition zero_image : list bytes := replicate 64 zero_block.

(** The synthetic dump of tests/test_bambu_format.py ([make_test_blocks]). *)
Definition test_image : list bytes :=
  <[0%nat := [x7a; xd4; x3f; x1c; x88; x04; x00; x00; x00; x00; x00; x00; x00; x00; x00; x00]]> (
  <[1%nat := [x41; x35; x30; x2d; x4b; x30; x00; x00; x47; x46; x41; x30; x30; x00; x00; x00]]> (
  <[2%nat := [x50; x4c; x41; x00; x00; x00; x00; x00; x00; x00; x00; x00; x00; x00; x00; x00]]> (
  <[4%nat := [x50; x4c; x41; x20; x42; x61; x73; x69; x63; x00; x00; x00; x00; x00; x00; x00]]> (
  <[5%nat := [xff; xff; xff; xff; xe8; x03; x00; x00; x00; x00; xe0; x3f; x00; x00; x00; x00]]> (
  <[6%nat := [x37; x00; x08; x00; x01; x00; x3c; x00; xe6; x00; xbe; x00; x00; x00; x00; x00]]> (
  <[8%nat := [x00; x00; x00; x00; x00; x00; x00; x00; x00; x00; x00; x00; xcd; xcc; xcc; x3e]]> (
  <[9%nat := [x54; x52; x41; x59; x30; x30; x30; x31; x00; x00; x00; x00; x00; x00; x00; x00]]> (
  <[10%nat := [x00; x00; x00; x00; xe0; x15; x00; x00; x00; x00; x00; x00; x00; x00; x00; x00]]> (
  <[12%nat := [x32; x30; x32; x34; x5f; x30; x33; x5f; x31; x35; x5f; x31; x30; x5f; x33; x30]]> (
  <[14%nat := [x00; x00; x00; x00; x4a; x01; x00; x00; x00; x00; x00; x00; x00; x00; x00; x00]]> (
  zero_image))))))))))).

(** Block 2 holds the text PLA, a NUL, and a stray byte after it. *)
Definition image_text_after_nul : list bytes :=
  <[2%nat := [x50; x4c; x41; x00; x58; x00; x00; x00;
              x00; x00; x00; x00; x00; x00; x00; x00]]> zero_image.

(** Block 10 holds the raw spool width 29 (0.29 mm). *)
Definition image_width_29 : list bytes :=
  <[10%nat := [x00; x00; x00; x00; x1d; x00; x00; x00;
               x00; x00; x00; x00; x00; x00; x00; x00]]> zero_image.

(** A record built from scratch with a secondary colour and colour
    format 0. *)
Definition fd_secondary_format_0 : FilamentData :=
  apply_edit (Set_secondary_color_abgr [x01; x02; x03; x04])
             FilamentData_default.

(** The text PETG. *)
Definition str_PETG : str := [80; 69; 84; 71]%N.

(** The value of an upper-case hexadecimal digit. *)
Definition unhex_digit (c : ascii) : N :=
  let n := N_of_ascii c in
  if (n <? 58)%N then (n - 48)%N else (n - 55)%N.

(** *** Bridge and catalog scenarios *)

(** A manager whose reader, connection 1, is connected. *)
Definition bridge_connected : Bridge.NFCBridgeManager :=
  Bridge.with_phone (Some 1%nat) Bridge.init.

(** [{"action": "ERROR", "message": "no tag"}] *)
Definition error_frame : Bridge.message :=
  <["action" := "ERROR"%string]> (<["message" := "no tag"%string]> ∅).


(** ** Auxiliary definitions for the properties beyond the claims *)

(** *** Field writes seen from one block *)

(** A write of a field: a slice write on block [k] inside bytes
    [i .. j-1] that keeps the length of the block. *)
Definition wop_in (k i j : nat) (w : wop) : Prop :=
  match w with
  | WSlice k' i' j' v =>
      k' = k /\ (i <= i')%nat /\ (i' <= j')%nat /\ (j' <= j)%nat
      /\ length v = (j' - i')%nat
  | WBlock _ _ => False
  end.

(** *** Text fields after a build *)

(** The text before the first NUL. *)
Fixpoint before_nul (s : str) : str :=
  match s with
  | [] => []
  | c :: rest => if (c =? 0)%N then [] else c :: before_nul rest
  end.

(** What [parse_tag_dump] reads back from a text field of [n] bytes that
    [build_tag_blocks] filled from [s]. *)
Definition stored_text (n : nat) (s : str) : str :=
  Py.strip (before_nul (take n s)).

(** Text that fits a field of [n] bytes as it is. *)
Definition plain_text (n : nat) (s : str) : bool :=
  (length s <=? n)%nat
  && forallb (fun c => negb (c =? 0)%N) s
  && match s with [] => true | c :: _ => negb (Py.isspace c) end
  && match rev s with [] => true | c :: _ => negb (Py.isspace c) end.

(** *** Which records [build_tag_blocks] accepts *)

(** [s.encode("ascii")] succeeds. *)
Definition ascii_text (s : str) : bool := forallb (fun c => (c <? 128)%N) s.

(** The bytes of a 7-bit text. *)
Definition ascii_bytes (s : str) : bytes :=
  map (fun c => byte_of_Z (Z.of_N c)) s.

(** [struct.pack("<H", z)] succeeds. *)
Definition u16_ok (z : Z) : bool := (0 <=? z) && (z <=? 65535).

(** [struct.pack("<f", x)] succeeds: [x] is not a finite double beyond the
    binary32 range. *)
Definition packs_f32 (x : float) : bool :=
  match x, f32_round x with
  | S754_finite _ _ _, S754_infinity _ => false
  | _, _ => true
  end.

(** [int(x * 100)] is defined and fits sixteen bits. *)
Definition spool_ok (x : float) : bool :=
  match int_of_float (fmul x (float_of_int 100)) with
  | Ok w => u16_ok w
  | Raise _ => false
  end.

Definition encodable (fd : FilamentData) : bool :=
  ascii_text (material_variant_id fd)
  && ascii_text (material_id fd)
  && ascii_text (filament_type fd)
  && ascii_text (detailed_filament_type fd)
  && u16_ok (spool_weight_g fd)
  && packs_f32 (filament_diameter_mm fd)
  && u16_ok (drying_temp_c fd)
  && u16_ok (drying_time_h fd)
  && u16_ok (bed_temp_type fd)
  && u16_ok (bed_temp_c fd)
  && u16_ok (max_hotend_temp_c fd)
  && u16_ok (min_hotend_temp_c fd)
  && packs_f32 (nozzle_diameter fd)
  && ascii_text (tray_uid fd)
  && spool_ok (spool_width_mm fd)
  && ascii_text (production_datetime fd)
  && ascii_text (short_production_datetime fd)
  && u16_ok (filament_length_m fd)
  && u16_ok (color_format fd)
  && u16_ok (color_count fd).

(** The bytes of a text field before its first NUL are 7-bit. *)
Definition field_7bit (b : list bytes) (k i j : nat) : bool :=
  forallb is_ascii_byte (until_nul (slice (blk b k) i j)).

Definition text_7bit (b : list bytes) : bool :=
  field_7bit b 1 0 8 && field_7bit b 1 8 16 && field_7bit b 2 0 16
  && field_7bit b 4 0 16 && field_7bit b 9 0 16 && field_7bit b 12 0 16
  && field_7bit b 13 0 16.

(** The bytes that a parse and rebuild may change: the seven text fields,
    the two binary32 fields and the spool width. *)
Definition lossy_region : region :=
  fun k t =>
    span 1 0 16 k t || span 2 0 16 k t || span 4 0 16 k t
    || span 5 8 12 k t || span 8 12 16 k t || span 9 0 16 k t
    || span 10 4 6 k t || span 12 0 16 k t || span 13 0 16 k t.

(** Block 2 holds the text PLA followed by the byte E9. *)
Definition image_high_byte : list bytes :=
  <[2%nat := [x50; x4c; x41; xe9; x00; x00; x00; x00;
              x00; x00; x00; x00; x00; x00; x00; x00]]> zero_image.

(** *** Transport formats *)

(** Character [n] of the base64 alphabet decodes to [n], is not the pad
    and is a 7-bit character. *)
Definition b64_char_ok (n : N) : bool :=
  match PyText.b64_value (TagBuilder.b64_char n) with
  | Some v => (v =? n)%N
  | None => false
  end
  && negb (Ascii.eqb (TagBuilder.b64_char n) "=")
  && (N_of_ascii (TagBuilder.b64_char n) <? 128)%N.

(** A text that starts and ends with a character that is not white
    space. *)
Definition framed (s : string) : Prop :=
  exists c m d, s = String c (m ++ String d "")%string
                /\ PyText.isspace c = false /\ PyText.isspace d = false.

(** No character of [s] is a line boundary. *)
Fixpoint one_line (s : string) : bool :=
  match s with
  | EmptyString => true
  | String c rest => negb (PyText.is_linebreak c) && one_line rest
  end.

(** One line of a Proxmark3 dump, as [build_proxmark3_dump] writes it. *)
Definition proxmark3_hex (block : bytes) : string :=
  String.concat " " (map TagBuilder.hex_byte_upper block).

Definition proxmark3_text (i : nat) (block : bytes) : string :=
  ("Block " ++ TagBuilder.dec2 i ++ ": " ++ proxmark3_hex block)%string.

(** A hexadecimal digit. *)
Definition hexish (c : ascii) : bool :=
  match PyText.hex_value c with Some _ => true | None => false end.

(** The label of line [i] is one line without a colon. *)
Definition label_ok (i : nat) : bool :=
  one_line ("Block " ++ TagBuilder.dec2 i ++ ": ")%string
  && negb (PyText.contains_char ":" ("Block " ++ TagBuilder.dec2 i)%string).

(** An upper-case hexadecimal digit. *)
Definition upper_hexish (c : ascii) : bool :=
  let n := N_of_ascii c in
  ((48 <=? n) && (n <=? 57) || (65 <=? n) && (n <=? 70))%N.

(** *** Bridge sessions *)

(** The states of the manager: from [NFCBridgeManager()], any sequence of
    the atomic steps of its methods; a waiting coroutine may resume for
    any id and future.  No step sets [_on_tag_data]: the attribute is
    assigned in [__init__] only. *)
Inductive reachable : Bridge.NFCBridgeManager -> Prop :=
| Reach_init : reachable Bridge.init
| Reach_connect websocket st :
    reachable st -> reachable (Bridge.connect websocket st)
| Reach_disconnect st :
    reachable st -> reachable (Bridge.disconnect st)
| Reach_handle_message data st st' :
    reachable st -> Bridge.handle_message data st = Ok st' -> reachable st'
| Reach_read_send st st' rid f :
    reachable st -> Bridge.request_read_send st = Ok (st', rid, f) ->
    reachable st'
| Reach_read_resume timed_out rid f st st' r :
    reachable st ->
    Bridge.request_read_resume timed_out rid f st = Some (st', r) ->
    reachable st'
| Reach_write_send payload st st' rid f :
    reachable st ->
    Bridge.request_write_send payload st = Ok (st', rid, f) ->
    reachable st'
| Reach_write_resume timed_out rid f st st' r :
    reachable st ->
    Bridge.request_write_resume timed_out rid f st = Some (st', r) ->
    reachable st'.

(** Every id of the table is the decimal text of a counter value up to
    [c], and every future of the table is one of the first [n]. *)
Definition slots_bounded (t : gmap string nat) (c n : nat) : Prop :=
  forall rid f,
    t !! rid = Some f ->
    (exists k : nat, rid = pretty k /\ (k <= c)%nat) /\ (f < n)%nat.

Definition ids_bounded (st : Bridge.NFCBridgeManager) : Prop :=
  slots_bounded (Bridge._pending_reads st) (Bridge._request_counter st)
                (length (Bridge.futures st))
  /\ slots_bounded (Bridge._pending_writes st) (Bridge._request_counter st)
                   (length (Bridge.futures st))
  /\ Bridge._on_tag_data st = false.

(** A frame [{"action": action, "request_id": rid, ...}]. *)
Definition is_reply (action rid : string) (data : Bridge.message) : Prop :=
  data !! "action"%string = Some action
  /\ data !! "request_id"%string = Some rid.

(** The request [rid] waits on the future [f], in either table. *)
Definition waiting (st : Bridge.NFCBridgeManager) (rid : string) (f : nat)
  : Prop :=
  (Bridge._pending_reads st !! rid = Some f
   \/ Bridge._pending_writes st !! rid = Some f)
  /\ Bridge.futures st !! f = Some Bridge.FPending.

(** The table of the read requests or of the write requests, the frame
    that answers such a request, and the second half of the request. *)
Definition pending (write : bool) (st : Bridge.NFCBridgeManager)
  : gmap string nat :=
  if write then Bridge._pending_writes st else Bridge._pending_reads st.

Definition reply_action (write : bool) : string :=
  if write then "WRITE_RESULT"%string else "TAG_DATA"%string.

Definition request_resume (write : bool) :=
  if write then Bridge.request_write_resume else Bridge.request_read_resume.

(** The state in which a request waits once its frame is sent. *)
Definition sent (r : result (Bridge.NFCBridgeManager * string * nat))
  : Bridge.NFCBridgeManager :=
  match r with
  | Ok (st, _, _) => st
  | Raise _ => Bridge.init
  end.

(** *** Catalog queries *)

(** [q] occurs in [s]. *)
Definition occurs_in (q s : string) : Prop :=
  exists a b : string, s = (a ++ q ++ b)%string.
Section PyFacts.

Lemma byte_to_Z_range b : 0 <= byte_to_Z b < 256.
Proof.
  unfold byte_to_Z. pose proof (Byte.to_N_bounded b). lia.
Qed.

Lemma byte_of_to_Z b z : 0 <= z -> byte_of_Z (byte_to_Z b + 256 * z) = b.
Proof.
  intros Hz. unfold byte_of_Z.
  pose proof (byte_to_Z_range b) as Hb.
  replace ((byte_to_Z b + 256 * z) mod 256) with (byte_to_Z b).
  - unfold byte_to_Z. rewrite N2Z.id, Byte.of_to_N. reflexivity.
  - rewrite (Z.mul_comm 256 z), Z.mod_add by lia.
    symmetry. apply Z.mod_small. lia.
Qed.

Lemma le_to_Z_range bs : 0 <= le_to_Z bs < 256 ^ Z.of_nat (length bs).
Proof.
  induction bs as [|b bs IH]; simpl length; simpl le_to_Z.
  - simpl. lia.
  - pose proof (byte_to_Z_range b).
    rewrite Nat2Z.inj_succ, Z.pow_succ_r by lia. lia.
Qed.

Lemma Z_to_le_to_Z bs : Z_to_le (length bs) (le_to_Z bs) = bs.
Proof.
  induction bs as [|b bs IH]; simpl; [reflexivity|].
  pose proof (le_to_Z_range bs) as Hr.
  rewrite byte_of_to_Z by lia. f_equal.
  replace ((byte_to_Z b + 256 * le_to_Z bs) / 256) with (le_to_Z bs); [exact IH|].
  pose proof (byte_to_Z_range b).
  rewrite (Z.mul_comm 256), Z.div_add by lia.
  rewrite (Z.div_small (byte_to_Z b)) by lia. lia.
Qed.

Lemma length_Z_to_le n z : length (Z_to_le n z) = n.
Proof. revert z. induction n; intros; simpl; auto. Qed.

Lemma pack_H_le_to_Z bs : length bs = 2%nat -> pack_H (le_to_Z bs) = Ok bs.
Proof.
  intros Hl. unfold pack_H.
  pose proof (le_to_Z_range bs) as Hr. rewrite Hl in Hr.
  change (256 ^ Z.of_nat 2) with 65536 in Hr.
  destruct (0 <=? le_to_Z bs) eqn:E1; [|lia].
  destruct (le_to_Z bs <=? 65535) eqn:E2; [|lia].
  cbv [andb]. f_equal. rewrite <- Hl. apply Z_to_le_to_Z.
Qed.

Lemma pack_H_length v raw : pack_H v = Ok raw -> length raw = 2%nat.
Proof.
  unfold pack_H. destruct (_ && _); [|discriminate].
  intros [= <-]. reflexivity.
Qed.

Lemma pack_f_length x raw : pack_f x = Ok raw -> length raw = 4%nat.
Proof.
  unfold pack_f. destruct x; try (intros [= <-]; reflexivity).
  destruct (f32_round _); try discriminate; intros [= <-]; reflexivity.
Qed.

End PyFacts.

Section FloatFacts.

Lemma digits2_pos_size p : digits2_pos p = Pos.size p.
Proof. induction p; simpl; congruence. Qed.

Lemma digits2_bounds p :
  2 ^ (Zpos (digits2_pos p) - 1) <= Zpos p < 2 ^ Zpos (digits2_pos p).
Proof.
  rewrite digits2_pos_size.
  pose proof (Pos.size_gt p) as Hgt. pose proof (Pos.size_le p) as Hle.
  apply Pos2Z.pos_lt_pos in Hgt. apply Pos2Z.pos_le_pos in Hle.
  rewrite Pos2Z.inj_pow in Hgt, Hle. change (Z.pos 2) with 2 in *.
  split; [|exact Hgt].
  replace (Z.pos (Pos.size p)) with (Z.succ (Z.pos (Pos.size p) - 1)) in Hle by lia.
  rewrite Z.pow_succ_r in Hle by lia. lia.
Qed.

Lemma digits2_unique p d :
  2 ^ (d - 1) <= Zpos p < 2 ^ d -> Zpos (digits2_pos p) = d.
Proof.
  intros [Hlo Hhi]. pose proof (digits2_bounds p) as [Blo Bhi].
  assert (0 < d).
  { destruct (Z.lt_trichotomy 0 d) as [?|[<-|Hn]]; [assumption|simpl in Hhi; lia|].
    rewrite (Z.pow_neg_r 2 d) in Hhi by lia. lia. }
  destruct (Z.lt_trichotomy (Zpos (digits2_pos p)) d) as [Hlt|[Heq|Hgt]];
    [|exact Heq|].
  - assert (2 ^ Zpos (digits2_pos p) <= 2 ^ (d - 1))
      by (apply Z.pow_le_mono_r; lia). lia.
  - assert (2 ^ d <= 2 ^ (Zpos (digits2_pos p) - 1))
      by (apply Z.pow_le_mono_r; lia). lia.
Qed.

Lemma digits2_iter_xO p k :
  Zpos (digits2_pos (Pos.iter xO p k)) = Zpos (digits2_pos p) + Zpos k.
Proof.
  induction k as [|k IH] using Pos.peano_ind.
  - simpl. lia.
  - rewrite Pos.iter_succ. simpl digits2_pos. lia.
Qed.

Lemma digits2_pos_shl p k :
  0 <= k -> Zpos (digits2_pos (pos_shl p k)) = Zpos (digits2_pos p) + k.
Proof.
  destruct k as [|k|k]; simpl; intros Hk; [lia| |lia].
  apply digits2_iter_xO.
Qed.

Lemma iter_pos_iter {A} (f : A -> A) k x : @SpecFloat.iter_pos A f k x = Pos.iter f x k.
Proof.
  revert x. induction k as [k IH|k IH|]; intros x; simpl;
    rewrite ?IH, ?Pos.iter_swap; reflexivity.
Qed.

Lemma shr_iter_xO p k :
  @SpecFloat.iter_pos _ shr_1 k (Build_shr_record (Zpos (Pos.iter xO p k)) false false)
  = Build_shr_record (Zpos p) false false.
Proof.
  rewrite iter_pos_iter.
  induction k as [|k IH] using Pos.peano_ind.
  - reflexivity.
  - rewrite Pos.iter_succ_r, Pos.iter_succ. simpl shr_1. exact IH.
Qed.

Lemma shl_align_neg mx ex ex' :
  ex' < ex -> shl_align mx ex ex' = (pos_shl mx (ex - ex'), ex').
Proof.
  intros H. unfold shl_align, pos_shl.
  destruct (ex' - ex) as [|d|d] eqn:E; try lia.
  replace (ex - ex') with (Zpos d) by lia. reflexivity.
Qed.

Lemma shl_align_ge mx ex ex' :
  ex <= ex' -> shl_align mx ex ex' = (mx, ex).
Proof.
  intros H. unfold shl_align.
  destruct (ex' - ex) as [|d|d] eqn:E; try lia; reflexivity.
Qed.

(** A value that is already in canonical form is not changed by rounding. *)
Lemma binary_round_aux_canonical prec emax s p e :
  fexp prec emax (Zpos (digits2_pos p) + e) = e -> e <= emax - prec ->
  binary_round_aux prec emax s (Zpos p) e loc_Exact = S754_finite s p e.
Proof.
  intros Hc He. unfold binary_round_aux, shr_fexp.
  simpl Zdigits2. rewrite Hc, Z.sub_diag. simpl.
  rewrite Hc, Z.sub_diag. simpl.
  destruct (e <=? emax - prec) eqn:E; [reflexivity|lia].
Qed.

(** Trailing zero bits of the mantissa are shifted out exactly. *)
Lemma binary_round_aux_shifted prec emax s p e k :
  0 <= k ->
  fexp prec emax (Zpos (digits2_pos p) + e) = e -> e <= emax - prec ->
  binary_round_aux prec emax s (Zpos (pos_shl p k)) (e - k) loc_Exact
  = S754_finite s p e.
Proof.
  intros Hk Hc He. destruct k as [|k|k]; [| |lia].
  - simpl pos_shl. rewrite Z.sub_0_r. apply binary_round_aux_canonical; assumption.
  - unfold binary_round_aux, shr_fexp. simpl pos_shl. simpl Zdigits2.
    rewrite digits2_iter_xO.
    replace (Zpos (digits2_pos p) + Zpos k + (e - Zpos k))
      with (Zpos (digits2_pos p) + e) by lia.
    rewrite Hc.
    replace (e - (e - Zpos k)) with (Zpos k) by lia.
    simpl shr_record_of_loc. unfold shr at 1.
    rewrite shr_iter_xO.
    replace (e - Zpos k + Zpos k) with e by lia.
    simpl. rewrite Hc, Z.sub_diag. simpl.
    destruct (e <=? emax - prec) eqn:E; [reflexivity|lia].
Qed.

Lemma binary_round_exact prec emax s p e :
  let e' := fexp prec emax (Zpos (digits2_pos p) + e) in
  e' <= e -> e' <= emax - prec ->
  binary_round prec emax s p e = S754_finite s (pos_shl p (e - e')) e'.
Proof.
  intros e' Hle Hmax. unfold binary_round.
  assert (Hc : fexp prec emax (Zpos (digits2_pos p) + e) = e') by reflexivity.
  clearbody e'. rewrite Hc.
  destruct (Z.eq_dec e' e) as [->|Hne].
  - rewrite shl_align_ge, Z.sub_diag by lia. simpl pos_shl.
    apply binary_round_aux_canonical; assumption.
  - rewrite shl_align_neg by lia.
    apply binary_round_aux_canonical; [|lia].
    rewrite digits2_pos_shl by lia.
    replace (Zpos (digits2_pos p) + (e - e') + e')
      with (Zpos (digits2_pos p) + e) by lia.
    exact Hc.
Qed.

(** Rounding back to a narrower format in which the value is canonical. *)
Lemma binary_round_back prec emax s p e k :
  0 <= k ->
  fexp prec emax (Zpos (digits2_pos p) + e) = e -> e <= emax - prec ->
  binary_round prec emax s (pos_shl p k) (e - k) = S754_finite s p e.
Proof.
  intros Hk Hc He. unfold binary_round.
  rewrite digits2_pos_shl by lia.
  replace (Zpos (digits2_pos p) + k + (e - k))
    with (Zpos (digits2_pos p) + e) by lia.
  rewrite Hc, shl_align_ge by lia.
  apply binary_round_aux_shifted; assumption.
Qed.

End FloatFacts.

Section AsciiFacts.

Lemma until_nul_prefix raw :
  raw = until_nul raw ++ drop (length (until_nul raw)) raw.
Proof.
  induction raw as [|b raw IH]; simpl; [reflexivity|].
  destruct (Byte.eqb b x00); simpl; [reflexivity|].
  f_equal. exact IH.
Qed.

Lemma decode_ascii_plain c :
  forallb is_ascii_byte c = true ->
  decode_ascii_replace c = map Byte.to_N c.
Proof.
  induction c as [|b c IH]; simpl; [reflexivity|].
  intros [Hb Hc]%andb_prop. unfold is_ascii_byte in Hb.
  rewrite Hb, <- IH by exact Hc. reflexivity.
Qed.

Lemma encode_ascii_plain c :
  forallb is_ascii_byte c = true ->
  encode_ascii (map Byte.to_N c) = Ok c.
Proof.
  induction c as [|b c IH]; simpl; [reflexivity|].
  intros [Hb Hc]%andb_prop. unfold is_ascii_byte in Hb.
  rewrite Hb, Byte.of_to_N, IH by exact Hc. reflexivity.
Qed.

Lemma lstrip_id (s : str) :
  match s with [] => true | c :: _ => negb (isspace c) end = true ->
  lstrip s = s.
Proof.
  destruct s as [|c s]; simpl; [reflexivity|].
  intros H%negb_true_iff. rewrite H. reflexivity.
Qed.

Lemma strip_id (s : str) :
  match s with [] => true | c :: _ => negb (isspace c) end = true ->
  match rev s with [] => true | c :: _ => negb (isspace c) end = true ->
  strip s = s.
Proof.
  intros Hh Hl. unfold strip, rstrip.
  rewrite (lstrip_id s Hh), (lstrip_id (rev s) Hl). apply rev_involutive.
Qed.

Lemma all_nul_replicate (bs : bytes) :
  forallb (Byte.eqb x00) bs = true -> bs = replicate (length bs) x00.
Proof.
  induction bs as [|b bs IH]; simpl; [reflexivity|].
  intros [Hb Hc]%andb_prop. apply Byte.byte_dec_bl in Hb. subst b.
  f_equal. apply IH, Hc.
Qed.

(** Re-encoding a canonical field gives back its bytes. *)
Lemma ascii_field_roundtrip raw n :
  length raw = n -> canonical_ascii raw = true ->
  exists c, encode_ascii (strip (decode_ascii_replace (until_nul raw))) = Ok c
            /\ ljust n x00 (take n c) = raw.
Proof.
  intros Hn Hc. unfold canonical_ascii in Hc.
  apply andb_prop in Hc as [Hc Hz]. apply andb_prop in Hc as [Hc Hl].
  apply andb_prop in Hc as [Ha Hh].
  exists (until_nul raw). split.
  - rewrite (decode_ascii_plain _ Ha), strip_id.
    + apply encode_ascii_plain, Ha.
    + destruct (until_nul raw); simpl; [reflexivity|exact Hh].
    + rewrite <- map_rev. destruct (rev (until_nul raw)); simpl; [reflexivity|exact Hl].
  - pose proof (until_nul_prefix raw) as Hp.
    assert (Hlen : (length (until_nul raw) <= n)%nat).
    { rewrite <- Hn. rewrite Hp at 2. rewrite length_app. lia. }
    unfold ljust. rewrite take_ge by lia.
    rewrite Hp at 3. f_equal.
    rewrite (all_nul_replicate _ Hz). rewrite length_drop, Hn. reflexivity.
Qed.

Lemma encode_ascii_length s c : encode_ascii s = Ok c -> length c = length s.
Proof.
  revert c. induction s as [|a s IH]; simpl; intros c.
  - intros [= <-]. reflexivity.
  - destruct (a <? 128)%N; [|discriminate].
    destruct (Byte.of_N a); destruct (encode_ascii s); try discriminate.
    intros [= <-]. simpl. f_equal. apply IH. reflexivity.
Qed.

End AsciiFacts.
Section F32Bits.

Lemma bits_fields n :
  0 <= n < 2 ^ 32 ->
  let e := (n / 2 ^ 23) mod 256 in
  let m := n mod 2 ^ 23 in
  0 <= e < 256 /\ 0 <= m < 2 ^ 23 /\
  n = sign_bit (Z.testbit n 31) + e * 2 ^ 23 + m.
Proof.
  intros Hn e m.
  assert (He : 0 <= e < 256) by (apply Z.mod_pos_bound; lia).
  assert (Hm : 0 <= m < 2 ^ 23) by (apply Z.mod_pos_bound; lia).
  split; [exact He|]. split; [exact Hm|].
  assert (Hs : sign_bit (Z.testbit n 31) = (n / 2 ^ 31) * 2 ^ 31).
  { unfold sign_bit. destruct (Z.testbit n 31) eqn:T.
    - apply Z.testbit_true in T; [|lia].
      assert (n / 2 ^ 31 < 2) by (apply Z.div_lt_upper_bound; lia).
      assert (0 <= n / 2 ^ 31) by (apply Z.div_pos; lia).
      assert (n / 2 ^ 31 = 1).
      { destruct (Z.eq_dec (n / 2 ^ 31) 0) as [E0|]; [|lia].
        rewrite E0 in T. discriminate. }
      lia.
    - apply Z.testbit_false in T; [|lia].
      assert (n / 2 ^ 31 < 2) by (apply Z.div_lt_upper_bound; lia).
      assert (0 <= n / 2 ^ 31) by (apply Z.div_pos; lia).
      assert (n / 2 ^ 31 = 0).
      { destruct (Z.eq_dec (n / 2 ^ 31) 1) as [E0|]; [|lia].
        rewrite E0 in T. discriminate. }
      lia. }
  rewrite Hs. subst e m.
  pose proof (Z.div_mod n (2 ^ 23) ltac:(lia)) as D1.
  pose proof (Z.div_mod (n / 2 ^ 23) 256 ltac:(lia)) as D2.
  assert (D3 : n / 2 ^ 23 / 256 = n / 2 ^ 31).
  { rewrite Z.div_div by lia. reflexivity. }
  rewrite D3 in D2. lia.
Qed.

End F32Bits.
Section F32Roundtrip.

Lemma fexp64_small d e :
  1 <= d <= 24 -> -149 <= e <= 104 ->
  fexp 53 1024 (d + e) = d + e - 53.
Proof. intros. unfold fexp, emin. lia. Qed.

Lemma f64_round_small s p e :
  Zpos (digits2_pos p) <= 24 -> -149 <= e <= 104 ->
  f64_round s p e
  = S754_finite s (pos_shl p (53 - Zpos (digits2_pos p)))
                (e - (53 - Zpos (digits2_pos p))).
Proof.
  intros Hd He. unfold f64_round.
  assert (1 <= Zpos (digits2_pos p)) by lia.
  rewrite binary_round_exact; rewrite fexp64_small by lia; try lia.
  f_equal; [f_equal|]; lia.
Qed.

(** Packing the double read from a binary32 pattern gives the pattern
    back, unless the pattern is a NaN. *)
Lemma pack_f_of_bits n :
  0 <= n < 2 ^ 32 -> not_nan_bits n = true ->
  pack_f (f32_of_bits n) = Ok (Z_to_le 4 n).
Proof.
  intros Hn Hnan.
  destruct (bits_fields n Hn) as (He & Hm & Hdec).
  unfold not_nan_bits in Hnan. unfold f32_of_bits.
  set (s := Z.testbit n 31) in *.
  set (e := (n / 2 ^ 23) mod 256) in *.
  set (m := n mod 2 ^ 23) in *.
  destruct (e =? 0) eqn:E0.
  - apply Z.eqb_eq in E0.
    destruct m as [|p|p] eqn:Em; [| |lia].
    + unfold pack_f, f32_round, bits_of_f32. do 2 f_equal. lia.
    + assert (Hd : Zpos (digits2_pos p) <= 23).
      { pose proof (digits2_bounds p) as [Blo _].
        destruct (Z_le_gt_dec (Zpos (digits2_pos p)) 23) as [|Hgt]; [assumption|].
        assert (2 ^ 23 <= 2 ^ (Zpos (digits2_pos p) - 1))
          by (apply Z.pow_le_mono_r; lia). lia. }
      rewrite f64_round_small by lia.
      unfold pack_f, f32_round.
      rewrite binary_round_back; [| lia | unfold fexp, emin; lia | lia].
      unfold bits_of_f32.
      destruct (Zpos (digits2_pos p) =? 24) eqn:E24; [lia|].
      do 2 f_equal. lia.
  - apply Z.eqb_neq in E0.
    destruct (e =? 255) eqn:E255.
    + apply Z.eqb_eq in E255.
      destruct (m =? 0) eqn:Em0; [|discriminate].
      apply Z.eqb_eq in Em0.
      unfold pack_f, f32_round, bits_of_f32. do 2 f_equal. lia.
    + apply Z.eqb_neq in E255.
      destruct (m + 2 ^ 23) as [|p|p] eqn:EM; [lia| |lia].
      assert (Hd : Zpos (digits2_pos p) = 24).
      { apply digits2_unique. change (24 - 1) with 23. lia. }
      rewrite f64_round_small by lia. rewrite Hd.
      unfold pack_f, f32_round.
      rewrite binary_round_back;
        [| lia | rewrite Hd; unfold fexp, emin; lia | lia].
      unfold bits_of_f32. rewrite Hd. simpl (24 =? 24).
      cbv iota. do 2 f_equal. lia.
Qed.

Lemma pack_unpack_f bs :
  length bs = 4%nat -> not_nan_bits (le_to_Z bs) = true ->
  pack_f (unpack_f bs) = Ok bs.
Proof.
  intros Hl Hnan. unfold unpack_f.
  pose proof (le_to_Z_range bs) as Hr. rewrite Hl in Hr.
  change (256 ^ Z.of_nat 4) with (2 ^ 32) in Hr.
  rewrite pack_f_of_bits by assumption.
  f_equal. rewrite <- Hl. apply Z_to_le_to_Z.
Qed.

End F32Roundtrip.
Section SpoolFacts.

Lemma holds_on_range_spec f k lo w :
  holds_on_range f k lo = true ->
  lo <= w < lo + 2 ^ Z.of_nat k -> f w = true.
Proof.
  revert lo. induction k as [|k IH]; intros lo H Hw.
  - simpl in *. replace w with lo by lia. exact H.
  - cbn [holds_on_range] in H. apply andb_prop in H as [H1 H2].
    rewrite Nat2Z.inj_succ, Z.pow_succ_r in Hw by lia.
    destruct (Z_lt_ge_dec w (lo + 2 ^ Z.of_nat k)).
    + apply (IH lo); [exact H1|lia].
    + apply (IH (lo + 2 ^ Z.of_nat k)); [exact H2|lia].
Qed.


Lemma float_of_int_100 : float_of_int 100 = f100_lit.
Proof. vm_compute. reflexivity. Qed.

Lemma div_eucl_eq a b : Z.div_eucl a b = (a / b, a mod b).
Proof. unfold Z.div, Z.modulo. destruct (Z.div_eucl a b). reflexivity. Qed.

(** Division by 100.0 is a division of the mantissa by 25. *)
Lemma SFdiv_core_100 m1 e1 :
  Zpos (digits2_pos m1) = 53 -> -1067 <= e1 ->
  SFdiv_core_binary 53 1024 (Zpos m1) e1 (Zpos 7036874417766400) (-46)
  = (Zpos m1 * 32 / 25, e1 - 7,
     if (Zpos m1 * 32) mod 25 =? 0 then loc_Exact
     else loc_Inexact (2 * ((Zpos m1 * 32) mod 25) ?= 25)).
Proof.
  intros Hd He. unfold SFdiv_core_binary.
  cbn [Zdigits2]. rewrite Hd.
  change (Zpos (digits2_pos 7036874417766400)) with 53.
  assert (He' : Z.min (fexp 53 1024 (53 + e1 - (53 + -46))) (e1 - -46) = e1 - 7)
    by (unfold fexp, emin; lia).
  rewrite He'.
  replace (e1 - -46 - (e1 - 7)) with 53 by lia.
  cbv iota beta. rewrite Z.shiftl_mul_pow2 by lia.
  rewrite div_eucl_eq.
  change (Zpos 7036874417766400) with (25 * 2 ^ 48).
  replace (Zpos m1 * 2 ^ 53) with (Zpos m1 * 32 * 2 ^ 48)
    by (change (2 ^ 53) with (32 * 2 ^ 48); ring).
  rewrite Z.div_mul_cancel_r by lia.
  rewrite Z.mul_mod_distr_r by lia.
  set (r := (Zpos m1 * 32) mod 25).
  assert (Hr : 0 <= r < 25) by (apply Z.mod_pos_bound; lia).
  f_equal. unfold new_location.
  change (Z.even (25 * 2 ^ 48)) with true. cbv iota.
  unfold new_location_even.
  destruct (Z.eqb_spec r 0) as [->|Hne].
  - reflexivity.
  - destruct (Z.eqb_spec (r * 2 ^ 48) 0) as [H0|_]; [lia|].
    f_equal.
    destruct (Z.compare_spec (2 * (r * 2 ^ 48)) (25 * 2 ^ 48)),
             (Z.compare_spec (2 * r) 25); try reflexivity; lia.
Qed.

Lemma digits2_le_16 p : Zpos p <= 65535 -> Zpos (digits2_pos p) <= 16.
Proof.
  intros Hp. pose proof (digits2_bounds p) as [Blo _].
  destruct (Z_le_gt_dec (Zpos (digits2_pos p)) 16) as [|Hgt]; [assumption|].
  assert (2 ^ 16 <= 2 ^ (Zpos (digits2_pos p) - 1))
    by (apply Z.pow_le_mono_r; lia).
  lia.
Qed.

Lemma float_of_int_small p :
  Zpos p <= 65535 ->
  exists m1 e1,
    float_of_int (Zpos p) = S754_finite false m1 e1
    /\ Zpos (digits2_pos m1) = 53 /\ -1067 <= e1.
Proof.
  intros Hp. pose proof (digits2_le_16 p Hp) as Hd.
  assert (He : fexp 53 1024 (Zpos (digits2_pos p) + 0)
               = Zpos (digits2_pos p) - 53) by (unfold fexp, emin; lia).
  unfold float_of_int, binary_normalize.
  rewrite binary_round_exact; rewrite He; try lia.
  eexists _, _. split; [reflexivity|]. split; [|lia].
  rewrite digits2_pos_shl by lia. lia.
Qed.

Lemma spool_reencode_fast w :
  0 <= w <= 65535 -> spool_reencode w = spool_fast w.
Proof.
  intros Hw. unfold spool_reencode, spool_fast. rewrite float_of_int_100.
  destruct w as [|p|p]; [reflexivity| |lia].
  destruct (float_of_int_small p) as (m1 & e1 & -> & Hd & He); [lia|].
  cbv iota beta zeta.
  unfold fdiv, SFdiv, f100_lit at 1.
  rewrite (SFdiv_core_100 m1 e1 Hd He). cbn [xorb].
  destruct (binary_round_aux 53 1024 false _ _ _) as [s|s| |s mx ex];
    try reflexivity.
  unfold fmul, SFmul, f100_lit.
  rewrite xorb_false_r, Pos.mul_comm. reflexivity.
Qed.

Lemma spool_fast_all : holds_on_range spool_fast_near 16 0 = true.
Proof. vm_compute. reflexivity. Qed.


(** Every raw width re-encodes to itself or to one less. *)
Lemma spool_reencode_range w :
  0 <= w <= 65535 ->
  exists w', spool_reencode w = Ok w' /\ 0 <= w' <= 65535 /\ w - 1 <= w' <= w.
Proof.
  intros Hw. rewrite spool_reencode_fast by exact Hw.
  pose proof (holds_on_range_spec _ _ _ w spool_fast_all) as H.
  change (2 ^ Z.of_nat 16) with 65536 in H.
  specialize (H ltac:(lia)). unfold spool_fast_near in H.
  destruct (spool_fast w) as [w'|err]; [|discriminate].
  exists w'. split; [reflexivity|]. lia.
Qed.

End SpoolFacts.

Section WriteList.
Lemma length_slice {A} (l : list A) i j :
  length (slice l i j) = Nat.min (j - i) (length l - i).
Proof. unfold slice. rewrite length_take, length_drop. reflexivity. Qed.

Lemma sig_chunk_inside sig blocks offset k :
  (offset + 16 <= length sig)%nat ->
  write_sig_chunk sig (blocks, offset) k
  = (<[k := slice sig offset (offset + 16)]> blocks, (offset + 16)%nat).
Proof.
  intros H. unfold write_sig_chunk. rewrite length_slice.
  replace (Nat.min (offset + 16 - offset) (length sig - offset)) with 16%nat by lia.
  reflexivity.
Qed.

Lemma sig_chunk_outside sig blocks offset k :
  (length sig <= offset)%nat ->
  write_sig_chunk sig (blocks, offset) k = (blocks, (offset + 16)%nat).
Proof.
  intros H. unfold write_sig_chunk. rewrite length_slice.
  replace (Nat.min (offset + 16 - offset) (length sig - offset)) with 0%nat by lia.
  reflexivity.
Qed.

Lemma RSA_DATA_BLOCKS_eq :
  RSA_DATA_BLOCKS = RSA_WRITTEN_BLOCKS ++ [61; 62]%nat.
Proof. reflexivity. Qed.

Lemma sig_loop_writes sig blocks :
  length sig = 256%nat ->
  fst (fold_left (write_sig_chunk sig) RSA_DATA_BLOCKS (blocks, 0%nat))
  = fold_left apply_wop (sig_writes sig) blocks.
Proof.
  intros Hl. rewrite RSA_DATA_BLOCKS_eq. unfold RSA_WRITTEN_BLOCKS, sig_writes.
  cbn [fold_left app].
  rewrite !sig_chunk_inside by (rewrite Hl; lia).
  rewrite !sig_chunk_outside by (rewrite Hl; lia).
  reflexivity.
Qed.

Lemma length_ljust {A} n (fill : A) v :
  (length v <= n)%nat -> length (ljust n fill v) = n.
Proof. intros H. unfold ljust. rewrite length_app, length_replicate. lia. Qed.

Lemma length_ljust_take {A} n (fill : A) v :
  length (ljust n fill (take n v)) = n.
Proof. apply length_ljust. rewrite length_take. lia. Qed.

Lemma fold_W_opt k i j v blocks :
  fold_left apply_wop (W_opt k i j v) blocks
  = if negb (length v =? 0)%nat
    then set_slice blocks k i j (ljust (j - i) x00 (take (j - i) v))
    else blocks.
Proof. unfold W_opt. destruct (negb _); reflexivity. Qed.

Lemma fold_W_secondary v blocks :
  fold_left apply_wop (W_secondary v) blocks
  = if negb (length v =? 0)%nat
    then set_slice blocks 16 4 8 (take 4 v)
    else blocks.
Proof. unfold W_secondary. destruct (negb _); reflexivity. Qed.

Lemma fold_W_rsa v blocks :
  fold_left apply_wop (W_rsa v) blocks
  = if negb (length v =? 0)%nat
    then fst (fold_left (write_sig_chunk (ljust 256 x00 (take 256 v)))
                        RSA_DATA_BLOCKS (blocks, 0%nat))
    else blocks.
Proof.
  unfold W_rsa. destruct (negb _); [|reflexivity].
  rewrite sig_loop_writes by apply length_ljust_take. reflexivity.
Qed.

Lemma fold_WSlice k i j v blocks :
  fold_left apply_wop [WSlice k i j v] blocks = set_slice blocks k i j v.
Proof. reflexivity. Qed.

Ltac bind_step :=
  lazymatch goal with
  | |- Py.bind (set_ascii _ _ _ _ ?s) _ = _ =>
      unfold set_ascii at 1; destruct (encode_ascii s)
  | |- Py.bind (set_uint16 _ _ _ ?z) _ = _ =>
      unfold set_uint16 at 1, _write_uint16_le; destruct (pack_H z)
  | |- Py.bind (set_float _ _ _ ?x) _ = _ =>
      unfold set_float at 1, _write_float_le; destruct (pack_f x)
  | |- Py.bind (int_of_float ?x) _ = _ => destruct (int_of_float x)
  end; cbn [Py.bind]; [|reflexivity].

Lemma build_as_writes fd :
  build_tag_blocks fd
  = let* ws := writes fd in Ok (fold_left apply_wop ws (base_blocks fd)).
Proof.
  unfold build_tag_blocks, writes.
  fold (base_blocks fd).
  unfold W_spool, W_ascii, W_u16, W_f32.
  do 21 bind_step.
  f_equal.
  rewrite !fold_left_app.
  rewrite !fold_W_opt, fold_W_secondary, fold_W_rsa.
  unfold W_color.
  rewrite !fold_WSlice.
  reflexivity.
Qed.
End WriteList.
Section Frame.

Lemma lookup_slice_assign (B v : bytes) i j t :
  (i <= j <= length B)%nat -> length v = (j - i)%nat ->
  slice_assign B i j v !! t
  = if (t <? i)%nat then B !! t
    else if (t <? j)%nat then v !! (t - i)%nat else B !! t.
Proof.
  intros Hij Hv. unfold slice_assign.
  assert (Hti : length (take i B) = i) by (rewrite length_take; lia).
  destruct (t <? i)%nat eqn:E1.
  - apply Nat.ltb_lt in E1.
    rewrite lookup_app_l by lia. apply lookup_take_lt. lia.
  - apply Nat.ltb_ge in E1. rewrite lookup_app_r by lia. rewrite Hti.
    destruct (t <? j)%nat eqn:E2.
    + apply Nat.ltb_lt in E2. rewrite lookup_app_l by lia. reflexivity.
    + apply Nat.ltb_ge in E2. rewrite lookup_app_r by lia.
      rewrite lookup_drop. f_equal. lia.
Qed.

Lemma length_slice_assign (B v : bytes) i j :
  (i <= j <= length B)%nat -> length v = (j - i)%nat ->
  length (slice_assign B i j v) = length B.
Proof.
  intros Hij Hv. unfold slice_assign.
  rewrite !length_app, length_take, length_drop. lia.
Qed.

Lemma blk_insert_eq (cur : list bytes) k x :
  (k < length cur)%nat -> blk (<[k := x]> cur) k = x.
Proof. intros H. unfold blk. apply list_lookup_total_insert_eq. exact H. Qed.

Lemma blk_insert_ne (cur : list bytes) k k' x :
  k <> k' -> blk (<[k := x]> cur) k' = blk cur k'.
Proof. intros H. unfold blk. apply list_lookup_total_insert_ne. exact H. Qed.

Lemma apply_wop_inv R b cur w :
  shaped cur -> agrees R cur b -> wop_within R b w ->
  shaped (apply_wop cur w) /\ agrees R (apply_wop cur w) b.
Proof.
  intros [Hlen Hblk] Hag Hw. destruct w as [k i j v|k v]; simpl in *.
  - destruct Hw as (Hk & Hij & Hv & Hin).
    pose proof (Hblk k Hk) as HB.
    unfold set_slice. split; [split|].
    + rewrite length_insert. exact Hlen.
    + intros k' Hk'. destruct (Nat.eq_dec k k') as [<-|Hne].
      * rewrite blk_insert_eq by lia.
        rewrite length_slice_assign by lia. exact HB.
      * rewrite blk_insert_ne by exact Hne. apply Hblk, Hk'.
    + intros k' t HR. unfold byte_at.
      destruct (Nat.eq_dec k k') as [<-|Hne].
      * rewrite blk_insert_eq by lia.
        rewrite lookup_slice_assign by lia.
        destruct (t <? i)%nat eqn:E1; [apply (Hag k t HR)|].
        destruct (t <? j)%nat eqn:E2; [|apply (Hag k t HR)].
        apply Nat.ltb_ge in E1. apply Nat.ltb_lt in E2.
        destruct (Hin (t - i)%nat ltac:(lia)) as [Hr|Hb];
          replace (i + (t - i))%nat with t in * by lia.
        -- congruence.
        -- exact Hb.
      * rewrite blk_insert_ne by exact Hne. apply (Hag k' t HR).
  - destruct Hw as (Hk & Hv & Hin).
    split; [split|].
    + rewrite length_insert. exact Hlen.
    + intros k' Hk'. destruct (Nat.eq_dec k k') as [<-|Hne].
      * rewrite blk_insert_eq by lia. exact Hv.
      * rewrite blk_insert_ne by exact Hne. apply Hblk, Hk'.
    + intros k' t HR. unfold byte_at.
      destruct (Nat.eq_dec k k') as [<-|Hne].
      * rewrite blk_insert_eq by lia.
        destruct (Nat.lt_ge_cases t 16) as [Ht|Ht].
        -- destruct (Hin t Ht) as [Hr|Hb]; [congruence|exact Hb].
        -- rewrite lookup_ge_None_2 by lia.
           specialize (Hag k t HR). unfold byte_at in Hag. rewrite <- Hag.
           symmetry. apply lookup_ge_None_2. rewrite (Hblk k Hk). lia.
      * rewrite blk_insert_ne by exact Hne. apply (Hag k' t HR).
Qed.

Lemma fold_wop_inv R b ws cur :
  Forall (wop_within R b) ws -> shaped cur -> agrees R cur b ->
  shaped (fold_left apply_wop ws cur)
  /\ agrees R (fold_left apply_wop ws cur) b.
Proof.
  intros Hws. revert cur. induction Hws as [|w ws Hw _ IH]; intros cur Hs Ha.
  - simpl. split; assumption.
  - simpl. destruct (apply_wop_inv R b cur w Hs Ha Hw) as [Hs' Ha'].
    apply IH; assumption.
Qed.

Lemma wop_within_mono (R R' : region) b w :
  (forall k i, R k i = true -> R' k i = true) ->
  wop_within R b w -> wop_within R' b w.
Proof.
  intros Hsub. destruct w as [k i j v|k v]; simpl.
  - intros (Hk & Hij & Hv & Hin). repeat split; try assumption; try lia.
    intros t Ht. destruct (Hin t Ht) as [Hr|Hb]; [left; auto|right; exact Hb].
  - intros (Hk & Hv & Hin). repeat split; try assumption.
    intros t Ht. destruct (Hin t Ht) as [Hr|Hb]; [left; auto|right; exact Hb].
Qed.

Lemma valid_image_shaped b : valid_image b = true -> shaped b.
Proof.
  unfold valid_image. intros [Hl Hall]%andb_prop.
  apply Nat.eqb_eq in Hl. rewrite forallb_forall in Hall.
  split; [exact Hl|]. intros k Hk.
  unfold blk. destruct (lookup_lt_is_Some_2 b k ltac:(lia)) as [x Hx].
  rewrite (list_lookup_total_correct _ _ _ Hx).
  apply Nat.eqb_eq, Hall. apply list_elem_of_In. eapply list_elem_of_lookup_2, Hx.
Qed.

End Frame.
Section ParseFacts.

Lemma existsb_negb_forallb {A} (f : A -> bool) l :
  existsb (fun x => negb (f x)) l = negb (forallb f l).
Proof.
  induction l as [|x l IH]; simpl; [reflexivity|].
  rewrite IH. destruct (f x), (forallb f l); reflexivity.
Qed.

Lemma read_uint16_ok (B : bytes) i :
  length B = 16%nat -> (i + 2 <= 16)%nat ->
  _read_uint16_le B i = Ok (le_to_Z (slice B i (i + 2))).
Proof.
  intros HB Hi. unfold _read_uint16_le, unpack_from. rewrite HB.
  destruct (i + 2 <=? 16)%nat eqn:E; [reflexivity|].
  apply Nat.leb_gt in E. lia.
Qed.

Lemma read_float_ok (B : bytes) i :
  length B = 16%nat -> (i + 4 <= 16)%nat ->
  _read_float_le B i = Ok (unpack_f (slice B i (i + 4))).
Proof.
  intros HB Hi. unfold _read_float_le, unpack_from. rewrite HB.
  destruct (i + 4 <=? 16)%nat eqn:E; [reflexivity|].
  apply Nat.leb_gt in E. lia.
Qed.

(** [parse_tag_dump] accepts exactly the 64 x 16 images, and what it
    returns is [parsed_record]. *)
Lemma parse_tag_dump_eq b :
  parse_tag_dump b
  = if valid_image b then Ok (parsed_record b) else Raise ValueError.
Proof.
  unfold parse_tag_dump, valid_image.
  rewrite existsb_negb_forallb.
  destruct (length b =? 64)%nat eqn:Hl; [|reflexivity].
  destruct (forallb _ b) eqn:Hall; [|reflexivity].
  assert (Hs : shaped b).
  { apply valid_image_shaped. unfold valid_image. rewrite Hl, Hall. reflexivity. }
  destruct Hs as [_ Hblk].
  cbn [negb andb].
  rewrite !read_uint16_ok, !read_float_ok by (try apply Hblk; lia).
  reflexivity.
Qed.

Lemma parse_tag_dump_Ok b fd :
  parse_tag_dump b = Ok fd -> valid_image b = true /\ fd = parsed_record b.
Proof.
  rewrite parse_tag_dump_eq. destruct (valid_image b); [|discriminate].
  intros [= <-]. split; reflexivity.
Qed.

End ParseFacts.
Section Within.

Context (R : region) (b : list bytes) (Hb : shaped b).

Lemma covers_spec k i j t :
  covers R k i j = true -> (t < j - i)%nat -> R k (i + t)%nat = true.
Proof.
  unfold covers. rewrite forallb_forall. intros H Ht.
  apply H. apply in_seq. lia.
Qed.

Lemma lookup_slice (B : bytes) i j t :
  (t < j - i)%nat -> slice B i j !! t = B !! (i + t)%nat.
Proof.
  intros Ht. unfold slice. rewrite lookup_take_lt by lia. apply lookup_drop.
Qed.

Lemma length_slice_in (B : bytes) i j :
  (i <= j <= length B)%nat -> length (slice B i j) = (j - i)%nat.
Proof. intros H. rewrite length_slice. lia. Qed.

Lemma ljust_take_id (B : bytes) n :
  length B = n -> ljust n x00 (take n B) = B.
Proof.
  intros H. unfold ljust. rewrite take_ge by lia.
  rewrite H, Nat.sub_diag. apply app_nil_r.
Qed.

Lemma within_slice k i j v :
  (k < 64)%nat -> (i <= j <= 16)%nat -> length v = (j - i)%nat ->
  v = slice (blk b k) i j \/ covers R k i j = true ->
  wop_within R b (WSlice k i j v).
Proof.
  intros Hk Hij Hv Hor. simpl. repeat split; try assumption; try lia.
  intros t Ht. destruct Hor as [->|Hc].
  - right. unfold byte_at. apply lookup_slice, Ht.
  - left. eapply covers_spec; eassumption.
Qed.

Lemma length_blk k : (k < 64)%nat -> length (blk b k) = 16%nat.
Proof. apply Hb. Qed.

Lemma W_opt_within k i j val :
  (k < 64)%nat -> (i <= j <= 16)%nat ->
  val = slice (blk b k) i j \/ covers R k i j = true ->
  Forall (wop_within R b) (W_opt k i j val).
Proof.
  intros Hk Hij Hor. unfold W_opt.
  destruct (negb (length val =? 0)%nat); [|constructor].
  constructor; [|constructor].
  apply within_slice; try assumption; [apply length_ljust_take|].
  destruct Hor as [->|Hc]; [left|right; exact Hc].
  apply ljust_take_id, length_slice_in. rewrite length_blk by lia. lia.
Qed.

Lemma W_ascii_within k i j s ws :
  (k < 64)%nat -> (i <= j <= 16)%nat ->
  W_ascii k i j s = Ok ws ->
  (s = _read_string (blk b k) i (j - i)
   /\ canonical_ascii (slice (blk b k) i j) = true)
  \/ covers R k i j = true ->
  Forall (wop_within R b) ws.
Proof.
  intros Hk Hij HW Hor. unfold W_ascii in HW.
  destruct (encode_ascii s) as [raw|] eqn:E; [|discriminate].
  cbn [Py.bind] in HW. injection HW as <-.
  constructor; [|constructor].
  apply within_slice; try assumption; [apply length_ljust_take|].
  destruct Hor as [[-> Hc]|Hc]; [left|right; exact Hc].
  unfold _read_string in E.
  replace (i + (j - i))%nat with j in E by lia.
  destruct (ascii_field_roundtrip (slice (blk b k) i j) (j - i)) as (c & Hc1 & Hc2);
    [apply length_slice_in; rewrite length_blk by lia; lia|exact Hc|].
  rewrite Hc1 in E. injection E as <-. exact Hc2.
Qed.

Lemma W_u16_within k i z ws :
  (k < 64)%nat -> (i + 2 <= 16)%nat ->
  W_u16 k i z = Ok ws ->
  z = u16_at b k i \/ covers R k i (i + 2) = true ->
  Forall (wop_within R b) ws.
Proof.
  intros Hk Hi HW Hor. unfold W_u16 in HW.
  destruct (pack_H z) as [raw|] eqn:E; [|discriminate].
  cbn [Py.bind] in HW. injection HW as <-.
  constructor; [|constructor].
  apply within_slice; try assumption; try lia.
  - rewrite (pack_H_length _ _ E). lia.
  - destruct Hor as [->|Hc]; [left|right; exact Hc].
    unfold u16_at in E. rewrite pack_H_le_to_Z in E.
    + injection E as <-. reflexivity.
    + rewrite length_slice_in; [lia|]. rewrite length_blk by lia. lia.
Qed.

Lemma W_f32_within k i x ws :
  (k < 64)%nat -> (i + 4 <= 16)%nat ->
  W_f32 k i x = Ok ws ->
  (x = f32_at b k i
   /\ not_nan_bits (le_to_Z (slice (blk b k) i (i + 4))) = true)
  \/ covers R k i (i + 4) = true ->
  Forall (wop_within R b) ws.
Proof.
  intros Hk Hi HW Hor. unfold W_f32 in HW.
  destruct (pack_f x) as [raw|] eqn:E; [|discriminate].
  cbn [Py.bind] in HW. injection HW as <-.
  constructor; [|constructor].
  apply within_slice; try assumption; try lia.
  - rewrite (pack_f_length _ _ E). lia.
  - destruct Hor as [[-> Hn]|Hc]; [left|right; exact Hc].
    unfold f32_at in E. rewrite pack_unpack_f in E.
    + injection E as <-. reflexivity.
    + rewrite length_slice_in; [lia|]. rewrite length_blk by lia. lia.
    + exact Hn.
Qed.

Lemma W_color_within val :
  val = slice (blk b 5) 0 4
  \/ (covers R 5 0 4 = true /\ (4 <= length val)%nat) ->
  Forall (wop_within R b) (W_color val).
Proof.
  intros Hor. unfold W_color. constructor; [|constructor].
  apply within_slice; try lia.
  - destruct Hor as [->|[_ Hl]].
    + rewrite length_take, length_slice_in; [lia|]. rewrite length_blk by lia. lia.
    + rewrite length_take. lia.
  - destruct Hor as [->|[Hc _]]; [left|right; exact Hc].
    apply take_ge. rewrite length_slice_in; [lia|]. rewrite length_blk by lia. lia.
Qed.

Lemma W_spool_within x ws :
  W_spool x = Ok ws -> covers R 10 4 6 = true ->
  Forall (wop_within R b) ws.
Proof.
  intros HW Hc. unfold W_spool in HW.
  destruct (int_of_float _) as [w|]; [|discriminate].
  cbn [Py.bind] in HW.
  eapply (W_u16_within 10 4 w); try eassumption; try lia.
  right. exact Hc.
Qed.

Lemma W_secondary_within val :
  val = secondary_color_abgr (parsed_record b)
  \/ (covers R 16 4 8 = true
      /\ (length val = 0 \/ 4 <= length val)%nat) ->
  Forall (wop_within R b) (W_secondary val).
Proof.
  intros Hor. unfold W_secondary.
  destruct (length val =? 0)%nat eqn:E0; [constructor|].
  apply Nat.eqb_neq in E0. cbn [negb].
  constructor; [|constructor].
  assert (Hs : length (slice (blk b 16) 4 8) = 4%nat).
  { rewrite length_slice_in; [lia|]. rewrite length_blk by lia. lia. }
  apply within_slice; try lia.
  - destruct Hor as [->|[_ Hl]].
    + cbn [secondary_color_abgr parsed_record] in *.
      destruct (_ && _); [|simpl in E0; lia].
      rewrite length_take. lia.
    + rewrite length_take. lia.
  - destruct Hor as [->|[Hc _]]; [left|right; exact Hc].
    cbn [secondary_color_abgr parsed_record] in *.
    destruct (_ && _); [|simpl in E0; lia].
    apply take_ge. lia.
Qed.

End Within.

Section Signature.

Lemma slice_flat_map_chunk (f : nat -> bytes) ks n k :
  (forall k', In k' ks -> length (f k') = 16%nat) ->
  ks !! n = Some k ->
  slice (flat_map f ks) (16 * n) (16 * n + 16) = f k.
Proof.
  revert n. induction ks as [|a ks IH]; intros n Hlen Hn; [discriminate|].
  cbn [flat_map]. unfold slice.
  replace (16 * n + 16 - 16 * n)%nat with 16%nat by lia.
  destruct n as [|n].
  - injection Hn as <-. rewrite Nat.mul_0_r, drop_0.
    apply take_app_length'. symmetry. apply Hlen. left. reflexivity.
  - cbn [lookup list_lookup] in Hn.
    rewrite drop_app_ge by (rewrite Hlen by (left; reflexivity); lia).
    rewrite Hlen by (left; reflexivity).
    replace (16 * S n - 16)%nat with (16 * n)%nat by lia.
    specialize (IH n (fun k' Hk' => Hlen k' (or_intror Hk')) Hn).
    unfold slice in IH.
    replace (16 * n + 16 - 16 * n)%nat with 16%nat in IH by lia.
    exact IH.
Qed.

Lemma length_flat_map_blocks (f : nat -> bytes) ks :
  (forall k', In k' ks -> length (f k') = 16%nat) ->
  length (flat_map f ks) = (16 * length ks)%nat.
Proof.
  induction ks as [|a ks IH]; intros Hlen; [reflexivity|].
  cbn [flat_map length]. rewrite length_app, Hlen by (left; reflexivity).
  rewrite IH by (intros; apply Hlen; right; assumption). lia.
Qed.

Lemma slice_take {A} (l : list A) m i j :
  (j <= m)%nat -> slice (take m l) i j = slice l i j.
Proof.
  intros H. unfold slice. apply list_eq. intros t.
  destruct (Nat.lt_ge_cases t (j - i)) as [Ht|Ht].
  - rewrite !lookup_take_lt, !lookup_drop by lia.
    apply lookup_take_lt. lia.
  - rewrite !lookup_take_ge by lia. reflexivity.
Qed.

Context (R : region) (b : list bytes) (Hb : shaped b).

Lemma rsa_blocks_lt k : In k RSA_DATA_BLOCKS -> (k < 64)%nat.
Proof.
  intros H. apply list_elem_of_In in H. revert k H. apply Forall_forall.
  rewrite RSA_DATA_BLOCKS_eq. unfold RSA_WRITTEN_BLOCKS.
  repeat (constructor; [lia|]). constructor.
Qed.

(** The signature read by [parse_tag_dump] has 256 bytes, and chunk [n]
    of it is the [n]-th written block. *)
Lemma parsed_sig_length :
  length (rsa_signature (parsed_record b)) = 256%nat.
Proof.
  cbn [rsa_signature parsed_record]. rewrite length_take.
  rewrite length_flat_map_blocks.
  - reflexivity.
  - intros k Hk. apply Hb, rsa_blocks_lt, Hk.
Qed.

Lemma parsed_sig_chunk n k :
  RSA_WRITTEN_BLOCKS !! n = Some k ->
  slice (rsa_signature (parsed_record b)) (16 * n) (16 * n + 16) = blk b k.
Proof.
  intros Hn. cbn [rsa_signature parsed_record].
  assert (n < 16)%nat by (apply lookup_lt_Some in Hn; exact Hn).
  rewrite slice_take by lia.
  apply slice_flat_map_chunk.
  - intros k' Hk'. apply Hb, rsa_blocks_lt, Hk'.
  - rewrite RSA_DATA_BLOCKS_eq. apply lookup_app_l_Some, Hn.
Qed.

Lemma sig_writes_within sig :
  length sig = 256%nat ->
  sig = rsa_signature (parsed_record b) \/ covers_rsa R = true ->
  Forall (wop_within R b) (sig_writes sig).
Proof.
  intros Hl Hor. unfold sig_writes. apply Forall_forall.
  intros w Hw. apply elem_of_lookup_imap in Hw.
  destruct Hw as (n & k & -> & Hn).
  assert (Hn16 : (n < 16)%nat) by (apply lookup_lt_Some in Hn; exact Hn).
  assert (Hk : In k RSA_DATA_BLOCKS).
  { rewrite RSA_DATA_BLOCKS_eq. apply in_or_app. left.
    apply list_elem_of_In. eapply list_elem_of_lookup_2, Hn. }
  unfold wop_within. split; [apply rsa_blocks_lt, Hk|]. split.
  - rewrite length_slice, Hl. lia.
  - intros t Ht. destruct Hor as [->|Hc].
    + right. rewrite (parsed_sig_chunk n k Hn). reflexivity.
    + left. unfold covers_rsa in Hc. rewrite forallb_forall in Hc.
      assert (Hin : In k RSA_WRITTEN_BLOCKS).
      { apply list_elem_of_In. eapply list_elem_of_lookup_2, Hn. }
      specialize (Hc k Hin).
      apply (covers_spec R k 0 16 t Hc). lia.
Qed.

Lemma W_rsa_within val :
  val = rsa_signature (parsed_record b) \/ covers_rsa R = true ->
  Forall (wop_within R b) (W_rsa val).
Proof.
  intros Hor. unfold W_rsa.
  destruct (negb (length val =? 0)%nat); [|constructor].
  apply sig_writes_within; [apply length_ljust_take|].
  destruct Hor as [->|Hc]; [left|right; exact Hc].
  apply ljust_take_id, parsed_sig_length.
Qed.

End Signature.
Section EditFrame.

Lemma base_blocks_valid fd :
  valid_image (raw_blocks fd) = true -> base_blocks fd = raw_blocks fd.
Proof.
  unfold valid_image, base_blocks. intros [Hl _]%andb_prop.
  rewrite Hl. apply Nat.eqb_eq in Hl. rewrite Hl. reflexivity.
Qed.

Ltac region_true := vm_compute; reflexivity.

Ltac within_field b Hb Hcol Hsec :=
  lazymatch goal with
  | H : W_ascii ?k ?i ?j ?s = Ok ?w |- Forall (wop_within ?R _) ?w =>
      apply (W_ascii_within R b Hb k i j s w); [lia|lia|exact H|];
      first [left; split; [reflexivity|assumption] | right; region_true]
  | H : W_u16 ?k ?i ?z = Ok ?w |- Forall (wop_within ?R _) ?w =>
      apply (W_u16_within R b Hb k i z w); [lia|lia|exact H|];
      first [left; reflexivity | right; region_true]
  | H : W_f32 ?k ?i ?x = Ok ?w |- Forall (wop_within ?R _) ?w =>
      apply (W_f32_within R b Hb k i x w); [lia|lia|exact H|];
      first [left; split; [reflexivity|assumption] | right; region_true]
  | H : W_spool ?x = Ok ?w |- Forall (wop_within ?R _) ?w =>
      apply (W_spool_within R b Hb x w H); region_true
  | |- Forall (wop_within ?R _) (W_opt ?k ?i ?j ?v) =>
      apply (W_opt_within R b Hb k i j v); [lia|lia|];
      first [left; reflexivity | right; region_true]
  | |- Forall (wop_within ?R _) (W_color ?v) =>
      apply (W_color_within R b Hb v);
      first [left; reflexivity
            | right; split; [region_true|apply Nat.leb_le, Hcol]]
  | |- Forall (wop_within ?R _) (W_secondary ?v) =>
      apply (W_secondary_within R b Hb v);
      first [left; reflexivity
            | right; split; [region_true|];
              apply orb_prop in Hsec as [Hsec|Hsec];
              [left; apply Nat.eqb_eq, Hsec|right; apply Nat.leb_le, Hsec]]
  | |- Forall (wop_within ?R _) (W_rsa ?v) =>
      apply (W_rsa_within R b Hb v);
      first [left; reflexivity | right; region_true]
  end.

Ltac open_writes H :=
  unfold writes in H;
  do 20 (match type of H with
        | Py.bind ?r _ = Ok _ =>
            let E := fresh "E" in
            destruct r eqn:E; [cbn [Py.bind] in H|discriminate H]
        end).

(** Every write of a record that differs from [parse_tag_dump b] in one
    field either rewrites what [b] has, or falls in the edited field or
    in the spool-width bytes. *)
Lemma writes_within b e ws :
  valid_image b = true -> canonical_image b = true ->
  edit_sized e = true ->
  writes (apply_edit e (parsed_record b)) = Ok ws ->
  Forall (wop_within (region_or (field_region e) spool_width_region) b) ws.
Proof.
  intros Hv Hc Hsz HW.
  pose proof (valid_image_shaped b Hv) as Hb.
  unfold canonical_image in Hc.
  do 8 (apply andb_prop in Hc as [Hc ?]).
  open_writes HW.
  match type of HW with Ok ?l = Ok _ => assert (Hws : ws = l) by congruence end.
  clear HW; subst ws.
  rewrite !Forall_app.
  destruct e; cbn [edit_sized] in Hsz;
    repeat split;
    within_field b Hb Hsz Hsz.
Qed.


Lemma W_ascii_parsed b k i j :
  shaped b -> (k < 64)%nat -> (i <= j <= 16)%nat ->
  canonical_ascii (slice (blk b k) i j) = true ->
  exists ws, W_ascii k i j (_read_string (blk b k) i (j - i)) = Ok ws.
Proof.
  intros Hb Hk Hij Hc. unfold W_ascii, _read_string.
  replace (i + (j - i))%nat with j by lia.
  destruct (ascii_field_roundtrip (slice (blk b k) i j) (j - i)) as (c & Hc1 & _);
    [apply length_slice_in; rewrite (proj2 Hb) by lia; lia|exact Hc|].
  rewrite Hc1. eexists. reflexivity.
Qed.

Lemma W_u16_parsed b k i :
  shaped b -> (k < 64)%nat -> (i + 2 <= 16)%nat ->
  exists ws, W_u16 k i (u16_at b k i) = Ok ws.
Proof.
  intros Hb Hk Hi. unfold W_u16, u16_at.
  rewrite pack_H_le_to_Z; [eexists; reflexivity|].
  rewrite length_slice_in; [lia|]. rewrite (proj2 Hb) by lia. lia.
Qed.

Lemma W_f32_parsed b k i :
  shaped b -> (k < 64)%nat -> (i + 4 <= 16)%nat ->
  not_nan_bits (le_to_Z (slice (blk b k) i (i + 4))) = true ->
  exists ws, W_f32 k i (f32_at b k i) = Ok ws.
Proof.
  intros Hb Hk Hi Hn. unfold W_f32, f32_at.
  rewrite pack_unpack_f; [eexists; reflexivity| |exact Hn].
  rewrite length_slice_in; [lia|]. rewrite (proj2 Hb) by lia. lia.
Qed.

Lemma u16_at_range b k i :
  shaped b -> (k < 64)%nat -> (i + 2 <= 16)%nat -> 0 <= u16_at b k i <= 65535.
Proof.
  intros Hb Hk Hi. unfold u16_at.
  pose proof (le_to_Z_range (slice (blk b k) i (i + 2))) as Hr.
  rewrite length_slice_in in Hr by (rewrite (proj2 Hb) by lia; lia).
  replace (i + 2 - i)%nat with 2%nat in Hr by lia.
  change (256 ^ Z.of_nat 2) with 65536 in Hr. lia.
Qed.

Lemma W_spool_parsed b :
  shaped b ->
  exists ws,
    W_spool (fdiv (float_of_int (u16_at b 10 4)) (float_of_int 100)) = Ok ws.
Proof.
  intros Hb. unfold W_spool.
  destruct (spool_reencode_range (u16_at b 10 4)) as (w' & Hw & Hr & _);
    [apply u16_at_range; [exact Hb|lia|lia]|].
  unfold spool_reencode in Hw. rewrite Hw. cbn [Py.bind].
  unfold W_u16, pack_H.
  destruct (0 <=? w') eqn:E1; [|lia].
  destruct (w' <=? 65535) eqn:E2; [|lia].
  eexists. reflexivity.
Qed.

(** On a canonical image the unedited record always builds. *)
Lemma writes_parsed_ok b :
  valid_image b = true -> canonical_image b = true ->
  exists ws, writes (parsed_record b) = Ok ws.
Proof.
  intros Hv Hc.
  pose proof (valid_image_shaped b Hv) as Hb.
  unfold canonical_image in Hc.
  do 8 (apply andb_prop in Hc as [Hc ?]).
  unfold writes. cbn [parsed_record material_variant_id material_id
    filament_type detailed_filament_type spool_weight_g filament_diameter_mm
    drying_temp_c drying_time_h bed_temp_type bed_temp_c max_hotend_temp_c
    min_hotend_temp_c nozzle_diameter tray_uid spool_width_mm
    production_datetime short_production_datetime filament_length_m
    color_format color_count].
  repeat lazymatch goal with
  | |- exists ws, Py.bind (W_ascii ?k ?i ?j _) _ = Ok ws =>
      let E := fresh "E" in
      destruct (W_ascii_parsed b k i j Hb) as [? E];
        [lia|lia|assumption|];
      cbn [Nat.sub] in E; rewrite E; cbn [Py.bind]
  | |- exists ws, Py.bind (W_u16 ?k ?i _) _ = Ok ws =>
      let E := fresh "E" in
      destruct (W_u16_parsed b k i Hb) as [? E]; [lia|lia|];
      rewrite E; cbn [Py.bind]
  | |- exists ws, Py.bind (W_f32 ?k ?i _) _ = Ok ws =>
      let E := fresh "E" in
      destruct (W_f32_parsed b k i Hb) as [? E]; [lia|lia|assumption|];
      rewrite E; cbn [Py.bind]
  | |- exists ws, Py.bind (W_spool _) _ = Ok ws =>
      let E := fresh "E" in
      destruct (W_spool_parsed b Hb) as [? E];
      rewrite E; cbn [Py.bind]
  end.
  eexists. reflexivity.
Qed.

(** *** The frame of a rebuild *)

Lemma build_edit_frame b e out :
  valid_image b = true -> canonical_image b = true ->
  edit_sized e = true ->
  build_tag_blocks (apply_edit e (parsed_record b)) = Ok out ->
  shaped out
  /\ agrees (region_or (field_region e) spool_width_region) out b.
Proof.
  intros Hv Hc Hsz Hbuild.
  rewrite build_as_writes in Hbuild.
  destruct (writes _) as [ws|] eqn:HW; [|discriminate].
  cbn [Py.bind] in Hbuild. injection Hbuild as <-.
  rewrite base_blocks_valid by exact Hv.
  cbn [raw_blocks apply_edit parsed_record].
  apply fold_wop_inv.
  - apply writes_within; assumption.
  - apply valid_image_shaped, Hv.
  - intros k i _. reflexivity.
Qed.

Lemma build_parsed_frame b :
  valid_image b = true -> canonical_image b = true ->
  exists out, build_tag_blocks (parsed_record b) = Ok out
              /\ shaped out /\ agrees spool_width_region out b.
Proof.
  intros Hv Hc.
  destruct (writes_parsed_ok b Hv Hc) as [ws HW].
  exists (fold_left apply_wop ws b).
  assert (Hbuild : build_tag_blocks (parsed_record b)
                   = Ok (fold_left apply_wop ws b)).
  { rewrite build_as_writes, HW. cbn [Py.bind].
    rewrite base_blocks_valid by exact Hv. reflexivity. }
  split; [exact Hbuild|].
  pose (e := Set_spool_width_mm (spool_width_mm (parsed_record b))).
  destruct (build_edit_frame b e _ Hv Hc eq_refl Hbuild) as [Hs Ha].
  split; [exact Hs|].
  intros k i HR. apply Ha. unfold region_or, e. cbn [field_region].
  rewrite HR. reflexivity.
Qed.


(** Whatever the record holds, a build writes inside the field ranges
    only. *)
Lemma writes_in_fields fd ws :
  shaped (base_blocks fd) -> record_sized fd = true ->
  writes fd = Ok ws ->
  Forall (wop_within all_fields_region (base_blocks fd)) ws.
Proof.
  intros Hb Hsz HW. unfold record_sized in Hsz.
  apply andb_prop in Hsz as [Hcol Hsec].
  open_writes HW.
  match type of HW with Ok ?l = Ok _ => assert (Hws : ws = l) by congruence end.
  clear HW; subst ws.
  rewrite !Forall_app.
  repeat split; within_field (base_blocks fd) Hb Hcol Hsec.
Qed.

Lemma build_frame fd out :
  shaped (base_blocks fd) -> record_sized fd = true ->
  build_tag_blocks fd = Ok out ->
  shaped out /\ agrees all_fields_region out (base_blocks fd).
Proof.
  intros Hb Hsz Hbuild.
  rewrite build_as_writes in Hbuild.
  destruct (writes fd) as [ws|] eqn:HW; [|discriminate].
  cbn [Py.bind] in Hbuild. injection Hbuild as <-.
  apply fold_wop_inv.
  - apply writes_in_fields; assumption.
  - exact Hb.
  - intros k i _. reflexivity.
Qed.

End EditFrame.
Section Targets.

Lemma length_apply_wop cur w : length (apply_wop cur w) = length cur.
Proof. destruct w; simpl; unfold set_slice; apply length_insert. Qed.

Lemma length_fold_wop ws cur :
  length (fold_left apply_wop ws cur) = length cur.
Proof.
  revert cur. induction ws as [|w ws IH]; intros cur; simpl; [reflexivity|].
  rewrite IH. apply length_apply_wop.
Qed.

(** A build seen from one block. *)
Lemma blk_fold_wop k ws cur :
  (k < length cur)%nat ->
  blk (fold_left apply_wop ws cur) k = fold_left (wop_on k) ws (blk cur k).
Proof.
  revert cur. induction ws as [|w ws IH]; intros cur Hk; simpl; [reflexivity|].
  rewrite IH by (rewrite length_apply_wop; exact Hk). f_equal.
  destruct w as [k' i j v|k' v]; simpl; unfold set_slice;
    destruct (Nat.eqb_spec k' k) as [->|Hne];
    rewrite ?blk_insert_eq, ?blk_insert_ne by assumption; reflexivity.
Qed.

Lemma fold_wop_on_other k ws B :
  Forall (fun w => wop_target w <> k) ws -> fold_left (wop_on k) ws B = B.
Proof.
  intros H. revert B. induction H as [|w ws Hw _ IH]; intros B; simpl;
    [reflexivity|].
  rewrite IH. destruct w as [k' i j v|k' v]; simpl in *;
    destruct (Nat.eqb_spec k' k); congruence.
Qed.

Lemma W_ascii_target k i j s ws :
  W_ascii k i j s = Ok ws -> Forall (fun w => wop_target w = k) ws.
Proof.
  unfold W_ascii. destruct (encode_ascii s); [|discriminate].
  intros [= <-]. repeat constructor.
Qed.

Lemma W_u16_target k i z ws :
  W_u16 k i z = Ok ws -> Forall (fun w => wop_target w = k) ws.
Proof.
  unfold W_u16. destruct (pack_H z); [|discriminate].
  intros [= <-]. repeat constructor.
Qed.

Lemma W_f32_target k i x ws :
  W_f32 k i x = Ok ws -> Forall (fun w => wop_target w = k) ws.
Proof.
  unfold W_f32. destruct (pack_f x); [|discriminate].
  intros [= <-]. repeat constructor.
Qed.

Lemma W_spool_target x ws :
  W_spool x = Ok ws -> Forall (fun w => wop_target w = 10%nat) ws.
Proof.
  unfold W_spool. destruct (int_of_float _); [|discriminate].
  apply W_u16_target.
Qed.

Lemma W_opt_target k i j v : Forall (fun w => wop_target w = k) (W_opt k i j v).
Proof. unfold W_opt. destruct (negb _); repeat constructor. Qed.

Lemma W_color_target v : Forall (fun w => wop_target w = 5%nat) (W_color v).
Proof. repeat constructor. Qed.

Lemma W_secondary_target v :
  Forall (fun w => wop_target w = 16%nat) (W_secondary v).
Proof. unfold W_secondary. destruct (negb _); repeat constructor. Qed.

Lemma sig_writes_target sig :
  Forall (fun w => In (wop_target w) RSA_WRITTEN_BLOCKS) (sig_writes sig).
Proof.
  unfold sig_writes, RSA_WRITTEN_BLOCKS. cbn [imap].
  repeat (constructor; [cbn [wop_target In]; tauto|]). constructor.
Qed.

Lemma W_rsa_target v :
  Forall (fun w => In (wop_target w) RSA_WRITTEN_BLOCKS) (W_rsa v).
Proof.
  unfold W_rsa. destruct (negb _); [apply sig_writes_target|constructor].
Qed.

Lemma Forall_target_in k ws :
  In k WRITTEN_BLOCKS -> Forall (fun w => wop_target w = k) ws ->
  Forall (fun w => In (wop_target w) WRITTEN_BLOCKS) ws.
Proof.
  intros Hk H. eapply Forall_impl; [exact H|]. intros w ->. exact Hk.
Qed.

Ltac target_field :=
  lazymatch goal with
  | H : W_ascii ?k _ _ _ = Ok ?w |- Forall _ ?w =>
      apply (Forall_target_in k); [vm_compute; tauto|exact (W_ascii_target _ _ _ _ _ H)]
  | H : W_u16 ?k _ _ = Ok ?w |- Forall _ ?w =>
      apply (Forall_target_in k); [vm_compute; tauto|exact (W_u16_target _ _ _ _ H)]
  | H : W_f32 ?k _ _ = Ok ?w |- Forall _ ?w =>
      apply (Forall_target_in k); [vm_compute; tauto|exact (W_f32_target _ _ _ _ H)]
  | H : W_spool _ = Ok ?w |- Forall _ ?w =>
      apply (Forall_target_in 10%nat); [vm_compute; tauto|exact (W_spool_target _ _ H)]
  | |- Forall _ (W_opt ?k _ _ _) =>
      apply (Forall_target_in k); [vm_compute; tauto|apply W_opt_target]
  | |- Forall _ (W_color _) =>
      apply (Forall_target_in 5%nat); [vm_compute; tauto|apply W_color_target]
  | |- Forall _ (W_secondary _) =>
      apply (Forall_target_in 16%nat); [vm_compute; tauto|apply W_secondary_target]
  | |- Forall _ (W_rsa _) =>
      eapply Forall_impl; [apply W_rsa_target|];
      intros ? ?; unfold WRITTEN_BLOCKS; apply in_or_app; right; assumption
  end.

Ltac open_writes H :=
  unfold writes in H;
  do 20 (match type of H with
        | Py.bind ?r _ = Ok _ =>
            let E := fresh "E" in
            destruct r eqn:E; [cbn [Py.bind] in H|discriminate H]
        end);
  match type of H with
  | Ok ?l = Ok ?ws => assert (ws = l) by congruence; clear H; subst ws
  end.

(** Every write of a build targets one of the 29 field blocks. *)
Lemma writes_targets fd ws :
  writes fd = Ok ws ->
  Forall (fun w => In (wop_target w) WRITTEN_BLOCKS) ws.
Proof.
  intros HW. open_writes HW.
  rewrite !Forall_app. repeat split; target_field.
Qed.

Lemma base_blocks_length fd : length (base_blocks fd) = 64%nat.
Proof.
  unfold base_blocks. destruct (negb _); [|apply length_replicate].
  cbn [andb]. destruct (length (raw_blocks fd) =? 64)%nat eqn:E;
    [apply Nat.eqb_eq, E|apply length_replicate].
Qed.

(** Blocks outside [WRITTEN_BLOCKS] (the sector trailers, the reserved
    sectors, blocks 17, 18, 61 and 62) come out as they went in. *)
Lemma build_unwritten_block fd out k :
  build_tag_blocks fd = Ok out -> ~ In k WRITTEN_BLOCKS ->
  blk out k = blk (base_blocks fd) k.
Proof.
  intros Hbuild Hk. rewrite build_as_writes in Hbuild.
  destruct (writes fd) as [ws|] eqn:HW; [|discriminate].
  cbn [Py.bind] in Hbuild. injection Hbuild as <-.
  destruct (Nat.lt_ge_cases k 64) as [Hlt|Hge].
  - rewrite blk_fold_wop by (rewrite base_blocks_length; exact Hlt).
    apply fold_wop_on_other.
    eapply Forall_impl; [apply (writes_targets fd ws HW)|].
    intros w Hin Heq. apply Hk. rewrite <- Heq. exact Hin.
  - unfold blk. rewrite !list_lookup_total_alt.
    rewrite !lookup_ge_None_2; [reflexivity| |];
      rewrite ?length_fold_wop, base_blocks_length; exact Hge.
Qed.

End Targets.
Section Blocks.

Lemma Forall_target_ne k k' ws :
  k <> k' -> Forall (fun w => wop_target w = k) ws ->
  Forall (fun w => wop_target w <> k') ws.
Proof.
  intros Hne H. eapply Forall_impl; [exact H|]. intros w ->. exact Hne.
Qed.

Lemma W_rsa_target_ne k v :
  ~ In k RSA_WRITTEN_BLOCKS ->
  Forall (fun w => wop_target w <> k) (W_rsa v).
Proof.
  intros Hk. eapply Forall_impl; [apply W_rsa_target|].
  intros w Hin Heq. apply Hk. rewrite <- Heq. exact Hin.
Qed.

Ltac open_writes H :=
  unfold writes in H;
  do 20 (match type of H with
        | Py.bind ?r _ = Ok _ =>
            let E := fresh "E" in
            destruct r eqn:E; [cbn [Py.bind] in H|discriminate H]
        end);
  match type of H with
  | Ok ?l = Ok ?ws => assert (ws = l) by congruence; clear H; subst ws
  end.

(** Rewrites away the writes that target another block than [k];
    [tac] proves the disequalities. *)
Ltac drop_other k tac :=
  repeat match goal with
  | E : W_ascii ?k0 _ _ _ = Ok ?a |- context [fold_left (wop_on k) ?a _] =>
      rewrite (fold_wop_on_other k a)
        by (apply (Forall_target_ne k0); [tac|exact (W_ascii_target _ _ _ _ _ E)])
  | E : W_u16 ?k0 _ _ = Ok ?a |- context [fold_left (wop_on k) ?a _] =>
      rewrite (fold_wop_on_other k a)
        by (apply (Forall_target_ne k0); [tac|exact (W_u16_target _ _ _ _ E)])
  | E : W_f32 ?k0 _ _ = Ok ?a |- context [fold_left (wop_on k) ?a _] =>
      rewrite (fold_wop_on_other k a)
        by (apply (Forall_target_ne k0); [tac|exact (W_f32_target _ _ _ _ E)])
  | E : W_spool _ = Ok ?a |- context [fold_left (wop_on k) ?a _] =>
      rewrite (fold_wop_on_other k a)
        by (apply (Forall_target_ne 10%nat); [tac|exact (W_spool_target _ _ E)])
  | |- context [fold_left (wop_on k) (W_opt ?k0 ?i ?j ?v) _] =>
      rewrite (fold_wop_on_other k (W_opt k0 i j v))
        by (apply (Forall_target_ne k0); [tac|apply W_opt_target])
  | |- context [fold_left (wop_on k) (W_color ?v) _] =>
      rewrite (fold_wop_on_other k (W_color v))
        by (apply (Forall_target_ne 5%nat); [tac|apply W_color_target])
  | |- context [fold_left (wop_on k) (W_secondary ?v) _] =>
      rewrite (fold_wop_on_other k (W_secondary v))
        by (apply (Forall_target_ne 16%nat); [tac|apply W_secondary_target])
  end.

(** Block 16 after a build: colour format, colour count, then the
    secondary colour if the record has one. *)
Lemma build_block_16 fd out :
  build_tag_blocks fd = Ok out ->
  exists cf cc,
    pack_H (color_format fd) = Ok cf /\ pack_H (color_count fd) = Ok cc /\
    blk out 16
    = fold_left (wop_on 16) (W_secondary (secondary_color_abgr fd))
        (slice_assign (slice_assign (blk (base_blocks fd) 16) 0 2 cf) 2 4 cc).
Proof.
  intros Hbuild. rewrite build_as_writes in Hbuild.
  destruct (writes fd) as [ws|] eqn:HW; [|discriminate].
  cbn [Py.bind] in Hbuild. injection Hbuild as <-.
  rewrite blk_fold_wop by (rewrite base_blocks_length; lia).
  open_writes HW.
  rewrite !fold_left_app.
  rewrite (fold_wop_on_other 16 (W_rsa _))
    by (apply W_rsa_target_ne; vm_compute; intuition discriminate).
  match goal with
  | E1 : W_u16 16 0 _ = Ok ?a1, E2 : W_u16 16 2 _ = Ok ?a2 |- _ =>
      unfold W_u16 in E1, E2;
      destruct (pack_H (color_format fd)) as [cf|] eqn:Hcf; [|discriminate E1];
      destruct (pack_H (color_count fd)) as [cc|] eqn:Hcc; [|discriminate E2];
      cbn [Py.bind] in E1, E2;
      assert (a1 = [WSlice 16 0 (0 + 2) cf]) by congruence;
      assert (a2 = [WSlice 16 2 (2 + 2) cc]) by congruence;
      clear E1 E2; subst a1 a2
  end.
  exists cf, cc. split; [reflexivity|]. split; [reflexivity|].
  drop_other 16%nat ltac:(lia).
  reflexivity.
Qed.

(** A signature block after a build: only the signature loop writes it. *)
Lemma build_block_high fd out k :
  build_tag_blocks fd = Ok out -> (40 <= k < 64)%nat ->
  blk out k
  = fold_left (wop_on k) (W_rsa (rsa_signature fd)) (blk (base_blocks fd) k).
Proof.
  intros Hbuild Hk. rewrite build_as_writes in Hbuild.
  destruct (writes fd) as [ws|] eqn:HW; [|discriminate].
  cbn [Py.bind] in Hbuild. injection Hbuild as <-.
  rewrite blk_fold_wop by (rewrite base_blocks_length; lia).
  open_writes HW.
  rewrite !fold_left_app.
  drop_other k ltac:(lia).
  reflexivity.
Qed.

Lemma fold_sig_writes_chunk sig B n k :
  RSA_WRITTEN_BLOCKS !! n = Some k ->
  fold_left (wop_on k) (sig_writes sig) B
  = slice sig (16 * n) (16 * n + 16).
Proof.
  intros Hn. unfold sig_writes, RSA_WRITTEN_BLOCKS in *. cbn [imap].
  do 16 (destruct n as [|n];
         [injection Hn as <-; reflexivity|cbn [lookup list_lookup] in Hn]).
  discriminate Hn.
Qed.

End Blocks.

Section SliceFacts.

Lemma slice_of_slice_assign_after (B v : bytes) i j a c :
  (i <= j <= length B)%nat -> length v = (j - i)%nat -> (j <= a)%nat ->
  slice (slice_assign B i j v) a c = slice B a c.
Proof.
  intros Hij Hv Ha. unfold slice. apply list_eq. intros t.
  destruct (Nat.lt_ge_cases t (c - a)) as [Ht|Ht].
  - rewrite !lookup_take_lt, !lookup_drop by lia.
    rewrite lookup_slice_assign by assumption.
    destruct (a + t <? i)%nat eqn:E1; [apply Nat.ltb_lt in E1; lia|].
    destruct (a + t <? j)%nat eqn:E2; [apply Nat.ltb_lt in E2; lia|].
    reflexivity.
  - rewrite !lookup_take_ge by lia. reflexivity.
Qed.

Lemma slice_of_slice_assign_same (B v : bytes) i j :
  (i <= j <= length B)%nat -> length v = (j - i)%nat ->
  slice (slice_assign B i j v) i j = v.
Proof.
  intros Hij Hv. unfold slice, slice_assign.
  rewrite drop_app_length' by (rewrite length_take; lia).
  apply take_app_length'. symmetry. exact Hv.
Qed.

End SliceFacts.


Import SHA256 Kdf.

Section KdfFacts.

Lemma length_be_bytes n x : length (be_bytes n x) = n.
Proof. unfold be_bytes. rewrite length_rev. apply length_Z_to_le. Qed.

Lemma length_sha256 msg : length (sha256 msg) = 32%nat.
Proof.
  unfold sha256, state_bytes. rewrite !length_app, !length_be_bytes. reflexivity.
Qed.

Lemma length_hmac key msg : length (hmac key msg) = 32%nat.
Proof. unfold hmac. apply length_sha256. Qed.

Lemma expand_loop_reaches fuel prk info L t acc n :
  (L <= length acc + 32 * fuel)%nat ->
  (L <= length (expand_loop fuel prk info L t acc n))%nat.
Proof.
  revert t acc n. induction fuel as [|fuel IH]; intros t acc n H.
  - simpl. lia.
  - cbn [expand_loop]. destruct (length acc <? L)%nat eqn:E.
    + apply IH. rewrite length_app, length_hmac. lia.
    + apply Nat.ltb_ge in E. exact E.
Qed.

Lemma length_HKDF_expand prk info L :
  length (_HKDF_expand prk info L) = L.
Proof.
  unfold _HKDF_expand. rewrite length_take.
  pose proof (expand_loop_reaches L prk info L [] [] 1) as H.
  cbn [length] in H. specialize (H ltac:(lia)). lia.
Qed.

(** FIPS 180-4, appendix B.1: the digest of the three bytes abc. *)
Example sha256_abc :
  sha256 [x61; x62; x63]
  = [xba; x78; x16; xbf; x8f; x01; xcf; xea; x41; x41; x40; xde; x5d; xae;
     x22; x23; xb0; x03; x61; xa3; x96; x17; x7a; x9c; xb4; x10; xff; x61;
     xf2; x00; x15; xad].
Proof. vm_compute. reflexivity. Qed.

(** The first sector key of the UID 7A D4 3F 1C. *)
Example derive_keys_7AD43F1C_key0 :
  (let* keys := derive_keys [x7a; xd4; x3f; x1c] in Ok (keys !! 0%nat))
  = Ok (Some [x7c; x62; x47; xa1; xf5; x19]).
Proof. vm_compute. reflexivity. Qed.

End KdfFacts.


Import TagBuilder.

Section HexFacts.

Lemma unhex_hex_byte b :
  match hex_byte_upper b with
  | String h (String l EmptyString) =>
      Byte.of_N (unhex_digit h * 16 + unhex_digit l) = Some b
  | _ => False
  end.
Proof. destruct b; vm_compute; reflexivity. Qed.

Lemma hex_byte_upper_inj b1 b2 :
  hex_byte_upper b1 = hex_byte_upper b2 -> b1 = b2.
Proof.
  intros H. pose proof (unhex_hex_byte b1) as H1.
  pose proof (unhex_hex_byte b2) as H2. rewrite H in H1.
  destruct (hex_byte_upper b2) as [|h [|l [|]]]; try contradiction.
  congruence.
Qed.

Lemma hex_byte_shape b :
  exists h l, hex_byte_upper b = String h (String l EmptyString).
Proof. unfold hex_byte_upper. eauto. Qed.

Lemma hex_upper_cons b data :
  hex_upper (b :: data)
  = (hex_byte_upper b ++ hex_upper data)%string.
Proof.
  unfold hex_upper. cbn [map String.concat].
  destruct (map hex_byte_upper data) as [|x xs] eqn:E; [|reflexivity].
  destruct (hex_byte_shape b) as (h & l & ->). reflexivity.
Qed.

Lemma hex_upper_inj d1 d2 : hex_upper d1 = hex_upper d2 -> d1 = d2.
Proof.
  revert d2. induction d1 as [|b1 d1 IH]; intros [|b2 d2] H.
  - reflexivity.
  - rewrite hex_upper_cons in H.
    destruct (hex_byte_shape b2) as (h & l & E). rewrite E in H. discriminate.
  - rewrite hex_upper_cons in H.
    destruct (hex_byte_shape b1) as (h & l & E). rewrite E in H. discriminate.
  - rewrite !hex_upper_cons in H.
    destruct (hex_byte_shape b1) as (h1 & l1 & E1).
    destruct (hex_byte_shape b2) as (h2 & l2 & E2).
    rewrite E1, E2 in H. simpl in H. injection H as Hh Hl Hrest.
    f_equal.
    + apply hex_byte_upper_inj. congruence.
    + apply IH, Hrest.
Qed.

Lemma map_hex_upper_inj l1 l2 :
  map hex_upper l1 = map hex_upper l2 -> l1 = l2.
Proof.
  revert l2. induction l1 as [|x l1 IH]; intros [|y l2] H; try discriminate.
  - reflexivity.
  - simpl in H. injection H as Hx Hl. f_equal; [apply hex_upper_inj, Hx|apply IH, Hl].
Qed.

End HexFacts.


Section BridgeFacts.

Import Bridge.

Lemma connect_keeps_pending websocket st :
  _pending_reads (connect websocket st) = _pending_reads st
  /\ _pending_writes (connect websocket st) = _pending_writes st
  /\ futures (connect websocket st) = futures st
  /\ _phone (connect websocket st) = Some websocket.
Proof. unfold connect. destruct (_phone _); repeat split. Qed.

Lemma disconnect_clears st :
  _pending_reads (disconnect st) = ∅
  /\ _pending_writes (disconnect st) = ∅
  /\ _phone (disconnect st) = None.
Proof. repeat split. Qed.

Lemma handle_error_keeps_slots data st :
  get data "action" "" = "ERROR"%string ->
  exists st', handle_message data st = Ok st'
              /\ _pending_reads st' = _pending_reads st
              /\ _pending_writes st' = _pending_writes st.
Proof.
  intros H. unfold handle_message. rewrite H. cbn [String.eqb Ascii.eqb Bool.eqb].
  eexists. repeat split.
Qed.

Lemma handle_tag_data_removes_slot data st rid f :
  get data "action" "" = "TAG_DATA"%string ->
  get data "request_id" "" = rid ->
  _pending_reads st !! rid = Some f ->
  futures st !! f = Some FPending ->
  exists st', handle_message data st = Ok st'
              /\ _pending_reads st' !! rid = None
              /\ futures st' !! f = Some (FResult data).
Proof.
  intros Ha Hr Hs Hf. unfold handle_message. rewrite Ha, Hr.
  cbn [String.eqb Ascii.eqb Bool.eqb]. rewrite Hs.
  unfold fut_set_result, fut_done. rewrite Hf. cbn [done Py.bind].
  eexists. split; [reflexivity|]. cbn. split.
  - apply lookup_delete_eq.
  - apply list_lookup_insert_eq. apply lookup_lt_Some in Hf. exact Hf.
Qed.

Lemma timeout_removes_slot st rid f :
  futures st !! f = Some FPending ->
  exists st', request_read_resume true rid f st = Some (st', Raise TimeoutError)
              /\ _pending_reads st' !! rid = None
              /\ futures st' !! f = Some FCancelled.
Proof.
  intros Hf. unfold request_read_resume, wait_for. rewrite Hf.
  eexists. split; [reflexivity|]. cbn. split.
  - apply lookup_delete_eq.
  - unfold fut_cancel, fut_done. rewrite Hf. cbn [done].
    apply list_lookup_insert_eq. apply lookup_lt_Some in Hf. exact Hf.
Qed.

End BridgeFacts.


Section CatalogFacts.

Import Catalog.





End CatalogFacts.


(** ** Field codec: the claims *)

(** C10.  The signature field is the first 256 bytes of the
    288-byte region: [parse_tag_dump] returns the concatenation of the
    sixteen blocks 40-42, 44-46, 48-50, 52-54, 56-58 and 60, whatever
    blocks 61 and 62 hold; [build_tag_blocks] with a 256-byte signature
    writes chunk [n] of it to the [n]-th of those blocks and leaves blocks
    61 and 62 as they are in the image it started from. *)
Theorem rsa_region_bounds :
  (forall b fd,
      parse_tag_dump b = Ok fd ->
      length (rsa_signature fd) = 256%nat
      /\ rsa_signature fd = flat_map (blk b) RSA_WRITTEN_BLOCKS)
  /\ (forall fd out,
         length (rsa_signature fd) = 256%nat ->
         build_tag_blocks fd = Ok out ->
         (forall n k, RSA_WRITTEN_BLOCKS !! n = Some k ->
                      blk out k
                      = slice (rsa_signature fd) (16 * n) (16 * n + 16))
         /\ blk out 61 = blk (base_blocks fd) 61
         /\ blk out 62 = blk (base_blocks fd) 62).
Proof.
  split.
  - intros b fd Hp. apply parse_tag_dump_Ok in Hp as [Hv ->].
    pose proof (valid_image_shaped b Hv) as Hb.
    split; [apply parsed_sig_length, Hb|].
    cbn [rsa_signature parsed_record].
    rewrite RSA_DATA_BLOCKS_eq, flat_map_app.
    apply take_app_length'. rewrite length_flat_map_blocks; [reflexivity|].
    intros k Hk. apply Hb, rsa_blocks_lt.
    rewrite RSA_DATA_BLOCKS_eq. apply in_or_app. left. exact Hk.
  - intros fd out Hl Hbuild. split; [|split].
    + intros n k Hn.
      assert (Hk : (40 <= k < 64)%nat).
      { apply list_elem_of_lookup_2 in Hn. revert k Hn.
        apply Forall_forall. unfold RSA_WRITTEN_BLOCKS.
        repeat (constructor; [lia|]). constructor. }
      rewrite (build_block_high fd out k Hbuild Hk).
      unfold W_rsa. rewrite Hl. cbn [Nat.eqb negb].
      rewrite ljust_take_id by exact Hl.
      apply fold_sig_writes_chunk, Hn.
    + apply (build_unwritten_block fd out 61 Hbuild).
      vm_compute. intuition discriminate.
    + apply (build_unwritten_block fd out 62 Hbuild).
      vm_compute. intuition discriminate.
Qed.

(** The claim on the dump of the test suite. *)
Lemma rsa_region_bounds_witness :
  (length (rsa_signature (parsed_record test_image)) = 256%nat
   /\ rsa_signature (parsed_record test_image)
      = flat_map (blk test_image) RSA_WRITTEN_BLOCKS)
  /\ exists out,
       build_tag_blocks (parsed_record test_image) = Ok out
       /\ (forall n k, RSA_WRITTEN_BLOCKS !! n = Some k ->
                       blk out k
                       = slice (rsa_signature (parsed_record test_image))
                               (16 * n) (16 * n + 16))
       /\ blk out 61 = blk test_image 61
       /\ blk out 62 = blk test_image 62.
Proof.
  split.
  - apply (proj1 rsa_region_bounds test_image). vm_compute. reflexivity.
  - eexists. split; [vm_compute; reflexivity|].
    apply (proj2 rsa_region_bounds (parsed_record test_image));
      vm_compute; reflexivity.
Defined.

(** C4, as stated, fails: a record with colour format 0 and a secondary
    colour gets the colour written over bytes 4-7 of block 16. *)
Lemma secondary_colour_counterexample :
  color_format fd_secondary_format_0 = 0
  /\ slice (blk (base_blocks fd_secondary_format_0) 16) 4 8
     = [x00; x00; x00; x00]
  /\ (let* out := build_tag_blocks fd_secondary_format_0 in
      Ok (slice (blk out 16) 4 8)) = Ok [x01; x02; x03; x04].
Proof. vm_compute. repeat split. Qed.

(** C4, amended.  [build_tag_blocks] writes the first four bytes of
    the secondary colour over bytes 4-7 of block 16 whenever the record's
    secondary-colour field is not empty, whatever its colour format, and
    leaves those bytes as in the starting image when the field is empty;
    [parse_tag_dump] fills the field exactly when the colour format is 2. *)
Theorem secondary_colour_written_when_present :
  (forall fd out,
      build_tag_blocks fd = Ok out ->
      length (blk (base_blocks fd) 16) = 16%nat ->
      (secondary_color_abgr fd = [] ->
       slice (blk out 16) 4 8 = slice (blk (base_blocks fd) 16) 4 8)
      /\ ((4 <= length (secondary_color_abgr fd))%nat ->
          slice (blk out 16) 4 8 = take 4 (secondary_color_abgr fd)))
  /\ (forall b fd,
         parse_tag_dump b = Ok fd ->
         secondary_color_abgr fd <> [] <-> color_format fd = 2).
Proof.
  split.
  - intros fd out Hbuild HB.
    destruct (build_block_16 fd out Hbuild) as (cf & cc & Hcf & Hcc & Hout).
    apply pack_H_length in Hcf, Hcc.
    set (B := blk (base_blocks fd) 16) in *.
    assert (H1 : length (slice_assign B 0 2 cf) = 16%nat)
      by (rewrite length_slice_assign; lia).
    assert (H2 : length (slice_assign (slice_assign B 0 2 cf) 2 4 cc) = 16%nat)
      by (rewrite length_slice_assign; lia).
    split.
    + intros He. rewrite Hout, He. cbn [W_secondary length Nat.eqb negb fold_left].
      rewrite !slice_of_slice_assign_after by lia. reflexivity.
    + intros Hl. rewrite Hout. unfold W_secondary.
      destruct (length (secondary_color_abgr fd) =? 0)%nat eqn:E0;
        [apply Nat.eqb_eq in E0; lia|].
      cbn [negb fold_left wop_on Nat.eqb].
      apply slice_of_slice_assign_same; [lia|].
      rewrite length_take. lia.
  - intros b fd Hp. apply parse_tag_dump_Ok in Hp as [Hv ->].
    pose proof (valid_image_shaped b Hv) as [_ Hblk].
    cbn [secondary_color_abgr color_format parsed_record].
    rewrite (Hblk 16%nat) by lia. cbn [Nat.leb andb].
    rewrite andb_true_r.
    destruct (u16_at b 16 0 =? 2) eqn:E.
    + apply Z.eqb_eq in E. split; [intros _; exact E|].
      intros _ Hnil. apply (f_equal length) in Hnil.
      rewrite length_slice_in in Hnil by (rewrite (Hblk 16%nat) by lia; lia).
      discriminate Hnil.
    + apply Z.eqb_neq in E. split; [intros Hn; contradiction Hn; reflexivity|].
      intros H2. contradiction.
Qed.

(** The amended claim on the record of the counterexample and on the dump
    of the test suite. *)
Lemma secondary_colour_witness :
  (exists out,
      build_tag_blocks fd_secondary_format_0 = Ok out
      /\ slice (blk out 16) 4 8
         = take 4 (secondary_color_abgr fd_secondary_format_0))
  /\ (secondary_color_abgr (parsed_record test_image) <> []
      <-> color_format (parsed_record test_image) = 2).
Proof.
  split.
  - eexists. split; [vm_compute; reflexivity|].
    apply (proj1 secondary_colour_written_when_present fd_secondary_format_0);
      [vm_compute; reflexivity|vm_compute; reflexivity|vm_compute; lia].
  - apply (proj2 secondary_colour_written_when_present test_image).
    vm_compute. reflexivity.
Defined.

(** C5 does not hold of the code.  An image whose spool-width bytes hold 29 is
    parsed to 0.29 mm and rebuilt with 28 in those bytes:
    [int(0.29 * 100)] truncates 28.999999999999996. *)
Theorem spool_width_29_rebuilt_as_28 :
  valid_image image_width_29 = true
  /\ u16_at image_width_29 10 4 = 29
  /\ (let* fd := parse_tag_dump image_width_29 in
      let* out := build_tag_blocks fd in
      Ok (u16_at out 10 4)) = Ok 28.
Proof. vm_compute. repeat split. Qed.

(** C2 does not hold of the code.  An image of 64 blocks of 16 bytes whose
    block 2, a data block, holds the text PLA, a NUL and then the byte
    0x58 is parsed to a record that carries the image as its raw blocks;
    the build of the unedited record writes 0x00 over that byte.
    [_read_string] drops what follows the first NUL and the build pads
    the whole field, although the docstring of [build_tag_blocks] has
    only modified fields overwritten when raw blocks are present. *)
Theorem unedited_rebuild_rewrites_text :
  valid_image image_text_after_nul = true
  /\ Mifare.is_sector_trailer 2 = false
  /\ byte_at image_text_after_nul 2 4 = Some x58
  /\ (let* fd := parse_tag_dump image_text_after_nul in
      Ok (raw_blocks fd)) = Ok image_text_after_nul
  /\ (let* fd := parse_tag_dump image_text_after_nul in
      let* out := build_tag_blocks fd in
      Ok (byte_at out 2 4)) = Ok (Some x00).
Proof. vm_compute. repeat split. Qed.

(** Where the round trip does hold.  For every 64 x 16 image whose seven
    text fields are canonical (7-bit text without white space at either
    end, then NUL bytes only) and whose two binary32 fields are not NaN
    patterns (the model of binary32 keeps no NaN payload),
    [parse_tag_dump] and then [build_tag_blocks] return an image of 64
    blocks that equals the original at every byte outside the sector
    trailers and outside the spool-width bytes (block 10, bytes 4-5). *)
Theorem roundtrip_canonical_image b :
  valid_image b = true -> canonical_image b = true ->
  exists fd out,
    parse_tag_dump b = Ok fd /\ build_tag_blocks fd = Ok out
    /\ length out = 64%nat
    /\ forall k i,
         Mifare.is_sector_trailer k = false ->
         spool_width_region k i = false ->
         byte_at out k i = byte_at b k i.
Proof.
  intros Hv Hc.
  destruct (build_parsed_frame b Hv Hc) as (out & Hbuild & [Hlen _] & Hag).
  exists (parsed_record b), out.
  split; [rewrite parse_tag_dump_eq, Hv; reflexivity|].
  split; [exact Hbuild|]. split; [exact Hlen|].
  intros k i _ HR. apply Hag, HR.
Qed.

(** The dump of the test suite is canonical. *)
Lemma roundtrip_canonical_image_witness :
  exists fd out,
    parse_tag_dump test_image = Ok fd /\ build_tag_blocks fd = Ok out
    /\ length out = 64%nat
    /\ forall k i,
         Mifare.is_sector_trailer k = false ->
         spool_width_region k i = false ->
         byte_at out k i = byte_at test_image k i.
Proof.
  apply (roundtrip_canonical_image test_image); vm_compute; reflexivity.
Defined.

(** C1 does not hold of the code.  The same image is parsed, the tray UID
    (block 9) of the record is set, and the record, which still carries
    the image as its raw blocks, is built: the build also writes 0x00
    over byte 4 of block 2, a byte outside the range of the edited field.
    [build_tag_blocks] encodes every text, integer, float and colour
    field on each build, edited or not, although its docstring has only
    modified fields overwritten when raw blocks are present. *)
Theorem edit_rewrites_unedited_field :
  valid_image image_text_after_nul = true
  /\ field_region (Set_tray_uid str_PETG) 2%nat 4%nat = false
  /\ byte_at image_text_after_nul 2 4 = Some x58
  /\ (let* fd := parse_tag_dump image_text_after_nul in
      Ok (raw_blocks (apply_edit (Set_tray_uid str_PETG) fd)))
     = Ok image_text_after_nul
  /\ (let* fd := parse_tag_dump image_text_after_nul in
      let* out := build_tag_blocks (apply_edit (Set_tray_uid str_PETG) fd) in
      Ok (byte_at out 2 4)) = Ok (Some x00).
Proof. vm_compute. repeat split. Qed.

(** Where clone preservation does hold.  Let [b] be a 64 x 16 image with
    canonical text fields and no NaN in its binary32 fields, [fd] its
    parse, and [e] an edit of one field that gives a colour field, if it
    sets one, its four bytes.  If the edited record builds, the rebuilt
    image equals [b] at every byte outside the range of the edited field
    and outside the spool-width bytes; when the edit is not of the
    signature, the eighteen signature blocks are identical.  And a build
    from any record with a 64 x 16 raw image and four-byte colour fields
    changes no byte outside the field ranges of the layout. *)
Theorem clone_preservation_canonical :
  (forall b fd e out,
      parse_tag_dump b = Ok fd -> canonical_image b = true ->
      edit_sized e = true ->
      build_tag_blocks (apply_edit e fd) = Ok out ->
      (forall k i,
          field_region e k i = false -> spool_width_region k i = false ->
          byte_at out k i = byte_at b k i)
      /\ ((forall v, e <> Set_rsa_signature v) ->
          forall k, In k RSA_DATA_BLOCKS -> blk out k = blk b k))
  /\ (forall fd out,
         valid_image (raw_blocks fd) = true -> record_sized fd = true ->
         build_tag_blocks fd = Ok out ->
         forall k i,
           all_fields_region k i = false ->
           byte_at out k i = byte_at (raw_blocks fd) k i).
Proof.
  split.
  - intros b fd e out Hp Hc Hsz Hbuild.
    apply parse_tag_dump_Ok in Hp as [Hv ->].
    destruct (build_edit_frame b e out Hv Hc Hsz Hbuild) as [Hs Hag].
    pose proof (valid_image_shaped b Hv) as Hb.
    split.
    + intros k i H1 H2. apply Hag. unfold region_or. rewrite H1, H2. reflexivity.
    + intros Hne k Hk.
      pose proof (rsa_blocks_lt k Hk) as Hk64.
      apply list_eq. intros i.
      destruct (Nat.lt_ge_cases i 16) as [Hi|Hi].
      * apply (Hag k i). unfold region_or.
        assert (Hsp : spool_width_region k i = false).
        { unfold spool_width_region, span.
          destruct (Nat.eqb_spec k 10) as [->|]; [|reflexivity].
          exfalso. revert Hk. vm_compute. intuition discriminate. }
        rewrite Hsp, orb_false_r.
        destruct e; try (exfalso; eapply Hne; reflexivity);
          cbn [field_region]; unfold spool_width_region, span;
          (match goal with
           | |- context [(k =? ?n)%nat] =>
               destruct (Nat.eqb_spec k n) as [->|]; [|reflexivity]
           end);
          exfalso; revert Hk; vm_compute; intuition discriminate.
      * rewrite !lookup_ge_None_2; [reflexivity| |].
        -- rewrite (proj2 Hb k Hk64). exact Hi.
        -- rewrite (proj2 Hs k Hk64). exact Hi.
  - intros fd out Hv Hsz Hbuild k i HR.
    pose proof (base_blocks_valid fd Hv) as Hbase.
    destruct (build_frame fd out) as [_ Hag];
      [rewrite Hbase; apply valid_image_shaped, Hv|exact Hsz|exact Hbuild|].
    rewrite <- Hbase. apply Hag, HR.
Qed.

(** The filament type of the test dump set to PETG. *)
Lemma clone_preservation_canonical_witness :
  (exists out,
      build_tag_blocks
        (apply_edit (Set_filament_type str_PETG) (parsed_record test_image))
      = Ok out
      /\ (forall k i,
             span 2 0 16 k i = false -> spool_width_region k i = false ->
             byte_at out k i = byte_at test_image k i)
      /\ forall k, In k RSA_DATA_BLOCKS -> blk out k = blk test_image k)
  /\ exists out,
       build_tag_blocks (parsed_record test_image) = Ok out
       /\ forall k i,
            all_fields_region k i = false ->
            byte_at out k i = byte_at test_image k i.
Proof.
  split.
  - eexists. split; [vm_compute; reflexivity|].
    destruct (proj1 clone_preservation_canonical test_image
                (parsed_record test_image) (Set_filament_type str_PETG) _
                ltac:(vm_compute; reflexivity) ltac:(vm_compute; reflexivity)
                ltac:(vm_compute; reflexivity) ltac:(vm_compute; reflexivity))
      as [H1 H2].
    split; [exact H1|]. apply H2. intros v. discriminate.
  - eexists. split; [vm_compute; reflexivity|].
    apply (proj2 clone_preservation_canonical (parsed_record test_image));
      vm_compute; reflexivity.
Defined.

(** ** Key derivation: the claim *)

(** C3.  For every UID, the empty one included, [derive_keys]
    returns, and returns sixteen keys of six bytes each: key [i] is bytes
    [6 i .. 6 i + 5] of the 96-byte HKDF-SHA256 output for the UID as
    input key material, the 16-byte master constant as salt and the
    7-byte context as info.  Equal UIDs give equal results. *)
Theorem derive_keys_shape :
  (forall uid,
      let okm := _HKDF_expand (_HKDF_extract MASTER_KEY uid) CONTEXT 96 in
      exists keys,
        derive_keys uid = Ok keys
        /\ length keys = 16%nat
        /\ Forall (fun k => length k = 6%nat) keys
        /\ length okm = 96%nat
        /\ forall i, (i < 16)%nat ->
                     keys !! i = Some (slice okm (6 * i) (6 * i + 6)))
  /\ (forall uid1 uid2, uid1 = uid2 -> derive_keys uid1 = derive_keys uid2).
Proof.
  split; [|intros uid1 uid2 ->; reflexivity].
  intros uid okm.
  assert (Hlen : length okm = 96%nat) by apply length_HKDF_expand.
  exists (map (fun i => slice okm (6 * i) (6 * i + 6)) (seq 0 16)).
  split; [reflexivity|]. split; [reflexivity|]. split; [|split; [exact Hlen|]].
  - apply Forall_forall. intros k Hk. apply list_elem_of_In, in_map_iff in Hk.
    destruct Hk as (i & <- & Hi). apply in_seq in Hi.
    rewrite length_slice, Hlen. lia.
  - intros i Hi. rewrite list_lookup_fmap, lookup_seq_lt by exact Hi.
    reflexivity.
Qed.

(** The claim at the empty UID and at the UID of scenario S1. *)
Lemma derive_keys_shape_witness :
  (exists keys, derive_keys [] = Ok keys /\ length keys = 16%nat)
  /\ derive_keys [x7a; xd4; x3f; x1c] = derive_keys [x7a; xd4; x3f; x1c].
Proof.
  split.
  - destruct (proj1 derive_keys_shape []) as (keys & H1 & H2 & _).
    exists keys. split; assumption.
  - apply (proj2 derive_keys_shape). reflexivity.
Defined.

(** ** Transport encoders: the claim *)

(** C8, as stated, fails: two records with the same raw blocks and
    different filament types have different hex dumps (characters 64-71
    are the first four bytes of block 2). *)
Lemma encoder_purity_counterexample :
  raw_blocks (parsed_record zero_image)
  = raw_blocks (apply_edit (Set_filament_type str_PETG)
                           (parsed_record zero_image))
  /\ (let* s := build_hex (parsed_record zero_image) in
      Ok (substring 64 8 s)) = Ok "00000000"%string
  /\ (let* s := build_hex (apply_edit (Set_filament_type str_PETG)
                                      (parsed_record zero_image)) in
      Ok (substring 64 8 s)) = Ok "50455447"%string.
Proof. vm_compute. repeat split. Qed.

(** C8, amended.  Every transport encoder takes the record and encodes
    the image that [build_tag_blocks] makes of it, raw blocks and field
    values together: two records with equal built images (or equal build
    failures) have equal output in all six encodings, and the per-block
    hex output in turn determines the built image. *)
Theorem encoders_factor_through_build fd1 fd2 :
  (build_tag_blocks fd1 = build_tag_blocks fd2 ->
   build_binary fd1 = build_binary fd2
   /\ build_hex fd1 = build_hex fd2
   /\ build_base64 fd1 = build_base64 fd2
   /\ build_base64_blocks fd1 = build_base64_blocks fd2
   /\ build_hex_blocks fd1 = build_hex_blocks fd2
   /\ build_proxmark3_dump fd1 = build_proxmark3_dump fd2)
  /\ (build_hex_blocks fd1 = build_hex_blocks fd2 ->
      build_tag_blocks fd1 = build_tag_blocks fd2).
Proof.
  split.
  - intros H.
    unfold build_hex, build_base64, build_binary, build_base64_blocks,
      build_hex_blocks, build_proxmark3_dump.
    rewrite H. repeat split.
  - unfold build_hex_blocks.
    destruct (build_tag_blocks fd1) as [o1|e1],
             (build_tag_blocks fd2) as [o2|e2];
      cbn [Py.bind]; intros H; try discriminate H.
    + injection H as H. f_equal. apply map_hex_upper_inj, H.
    + injection H as ->. reflexivity.
Qed.

(** Two records that differ in a field and build the same image: the test
    dump, and the test dump with its all-zero X-cam bytes set to the empty
    string. *)
Lemma encoders_factor_through_build_witness :
  xcam_info (parsed_record test_image)
  <> xcam_info (apply_edit (Set_xcam_info []) (parsed_record test_image))
  /\ build_proxmark3_dump (parsed_record test_image)
     = build_proxmark3_dump
         (apply_edit (Set_xcam_info []) (parsed_record test_image))
  /\ build_tag_blocks (parsed_record test_image)
     = build_tag_blocks (parsed_record test_image).
Proof.
  split; [vm_compute; discriminate|]. split.
  - apply (proj1 (encoders_factor_through_build _ _)).
    vm_compute. reflexivity.
  - apply (proj2 (encoders_factor_through_build _ _)). reflexivity.
Defined.

(** ** Bridge session: the claims *)

(** C6 does not hold of the code.  A read is pending on connection 1 when connection 2
    is accepted.  [connect] makes 2 the current connection and leaves the
    pending future untouched; the future is cancelled only when the
    listener of connection 1 ends with [disconnect], which also resets
    the current connection to none: the bridge does not own connection
    2 afterwards. *)
Theorem replacement_drops_new_connection :
  match Bridge.request_read_send bridge_connected with
  | Ok (st1, rid, f) =>
      let st2 := Bridge.connect 2 st1 in
      let st3 := fst (Bridge.listen_step Bridge.Disconnect st2) in
      (Bridge.futures st2 !! f = Some Bridge.FPending
       /\ Bridge._pending_reads st2 !! rid = Some f
       /\ Bridge._phone st2 = Some 2%nat)
      /\ (Bridge.futures st3 !! f = Some Bridge.FCancelled
          /\ Bridge._pending_reads st3 !! rid = None
          /\ Bridge._phone st3 = None)
  | Raise _ => False
  end.
Proof. vm_compute. repeat split. Qed.

(** C7 does not hold of the code.  A read is pending when the reader sends an ERROR
    frame: the request completes with the exception of the frame and its
    id is still in the pending table. *)
Theorem error_frame_leaves_slot :
  match Bridge.request_read_send bridge_connected with
  | Ok (st1, rid, f) =>
      match Bridge.handle_message error_frame st1 with
      | Ok st2 =>
          match Bridge.request_read_resume false rid f st2 with
          | Some (st3, outcome) =>
              outcome = Raise (Exception "no tag")
              /\ Bridge._pending_reads st3 !! rid = Some f
          | None => False
          end
      | Raise _ => False
      end
  | Raise _ => False
  end.
Proof. vm_compute. repeat split. Qed.

(** ** Library catalog: the claim *)



(** ** The field codec beyond the claims *)


Section ImageFacts.

Lemma shaped_valid_image out : shaped out -> valid_image out = true.
Proof.
  intros [Hl Hk]. unfold valid_image. rewrite Hl. cbn [Nat.eqb andb].
  apply forallb_forall. intros x Hx.
  apply list_elem_of_In, list_elem_of_lookup_1 in Hx as [k Hx].
  pose proof (lookup_lt_Some _ _ _ Hx) as Hlt.
  specialize (Hk k ltac:(lia)). unfold blk in Hk.
  rewrite (list_lookup_total_correct _ _ _ Hx) in Hk.
  apply Nat.eqb_eq, Hk.
Qed.

Lemma chunks_of_concat (l : list bytes) :
  Forall (fun x => length x = 16%nat) l ->
  map (fun i => slice (concat l) (i * 16) ((i + 1) * 16)) (seq 0 (length l))
  = l.
Proof.
  induction 1 as [|x l Hx Hl IH]; [reflexivity|].
  cbn [length seq map concat]. f_equal.
  - unfold slice. cbn. rewrite drop_0. apply take_app_length'. lia.
  - rewrite <- seq_shift, map_map. rewrite <- IH at 2.
    apply map_ext. intros i. unfold slice.
    rewrite drop_app_ge by lia. rewrite Hx.
    replace ((S i + 1) * 16 - S i * 16)%nat with ((i + 1) * 16 - i * 16)%nat
      by lia.
    replace (S i * 16 - 16)%nat with (i * 16)%nat by lia. reflexivity.
Qed.

Lemma length_concat_blocks (l : list bytes) :
  Forall (fun x => length x = 16%nat) l ->
  length (concat l) = (16 * length l)%nat.
Proof.
  induction 1 as [|x l Hx Hl IH]; [reflexivity|].
  cbn [concat length]. rewrite length_app, Hx, IH. lia.
Qed.

Lemma valid_image_Forall out :
  valid_image out = true ->
  length out = 64%nat /\ Forall (fun x => length x = 16%nat) out.
Proof.
  unfold valid_image. intros [Hl Hall]%andb_prop.
  apply Nat.eqb_eq in Hl. split; [exact Hl|].
  apply Forall_forall. intros x Hx. apply Nat.eqb_eq.
  rewrite forallb_forall in Hall. apply Hall, list_elem_of_In, Hx.
Qed.

End ImageFacts.

Section FieldFacts.

Lemma slice_of_slice_assign_before (B v : bytes) i j a c :
  (i <= j <= length B)%nat -> length v = (j - i)%nat -> (c <= i)%nat ->
  slice (slice_assign B i j v) a c = slice B a c.
Proof.
  intros Hij Hv Hc. unfold slice. apply list_eq. intros t.
  destruct (Nat.lt_ge_cases t (c - a)) as [Ht|Ht].
  - rewrite !lookup_take_lt, !lookup_drop by lia.
    rewrite lookup_slice_assign by assumption.
    destruct (a + t <? i)%nat eqn:E1; [reflexivity|].
    apply Nat.ltb_ge in E1. lia.
  - rewrite !lookup_take_ge by lia. reflexivity.
Qed.

Lemma fold_in_length k k0 i0 j0 a (B : bytes) :
  length B = 16%nat -> (j0 <= 16)%nat -> Forall (wop_in k0 i0 j0) a ->
  length (fold_left (wop_on k) a B) = 16%nat.
Proof.
  intros HB Hj H. revert B HB.
  induction H as [|w a Hw _ IH]; intros B HB; [exact HB|].
  cbn [fold_left]. apply IH.
  destruct w as [k' i' j' v|]; [|destruct Hw].
  destruct Hw as (-> & H1 & H2 & H3 & H4). cbn [wop_on].
  destruct (k0 =? k)%nat; [|exact HB].
  rewrite length_slice_assign by lia. exact HB.
Qed.

Lemma fold_in_avoid k i j k0 i0 j0 a (B : bytes) :
  length B = 16%nat -> (j0 <= 16)%nat -> Forall (wop_in k0 i0 j0) a ->
  k <> k0 \/ (j0 <= i)%nat \/ (j <= i0)%nat ->
  slice (fold_left (wop_on k) a B) i j = slice B i j.
Proof.
  intros HB Hj H Hor. revert B HB.
  induction H as [|w a Hw _ IH]; intros B HB; [reflexivity|].
  cbn [fold_left].
  destruct w as [k' i' j' v|]; [|destruct Hw].
  destruct Hw as (-> & H1 & H2 & H3 & H4). cbn [wop_on].
  destruct (Nat.eqb_spec k0 k) as [->|Hne]; [|apply IH, HB].
  rewrite IH by (rewrite length_slice_assign by lia; exact HB).
  destruct Hor as [Hk|[Hor|Hor]]; [congruence| |].
  - apply slice_of_slice_assign_after; lia.
  - apply slice_of_slice_assign_before; lia.
Qed.

Lemma fold_hit k i j v (B : bytes) :
  length B = 16%nat -> (i <= j <= 16)%nat -> length v = (j - i)%nat ->
  slice (fold_left (wop_on k) [WSlice k i j v] B) i j = v.
Proof.
  intros HB Hij Hv. cbn [fold_left wop_on]. rewrite Nat.eqb_refl.
  apply slice_of_slice_assign_same; lia.
Qed.

Lemma W_ascii_in k i j s a :
  (i <= j)%nat -> W_ascii k i j s = Ok a -> Forall (wop_in k i j) a.
Proof.
  intros Hij. unfold W_ascii. destruct (encode_ascii s); [|discriminate].
  intros [= <-]. repeat constructor; try lia.
  apply length_ljust_take.
Qed.

Lemma W_u16_in k i z a :
  W_u16 k i z = Ok a -> Forall (wop_in k i (i + 2)) a.
Proof.
  unfold W_u16. destruct (pack_H z) as [raw|] eqn:E; [|discriminate].
  intros [= <-]. repeat constructor; try lia.
  rewrite (pack_H_length _ _ E). lia.
Qed.

Lemma W_f32_in k i x a :
  W_f32 k i x = Ok a -> Forall (wop_in k i (i + 4)) a.
Proof.
  unfold W_f32. destruct (pack_f x) as [raw|] eqn:E; [|discriminate].
  intros [= <-]. repeat constructor; try lia.
  rewrite (pack_f_length _ _ E). lia.
Qed.

Lemma W_spool_in x a : W_spool x = Ok a -> Forall (wop_in 10 4 6) a.
Proof.
  unfold W_spool. destruct (int_of_float _); [|discriminate].
  apply W_u16_in.
Qed.

Lemma W_opt_in k i j v :
  (i <= j)%nat -> Forall (wop_in k i j) (W_opt k i j v).
Proof.
  intros Hij. unfold W_opt. destruct (negb _); repeat constructor; try lia.
  apply length_ljust_take.
Qed.

Lemma W_color_in v : (4 <= length v)%nat -> Forall (wop_in 5 0 4) (W_color v).
Proof.
  intros Hv. repeat constructor; try lia. rewrite length_take. lia.
Qed.

Lemma W_secondary_in v :
  (length v =? 0)%nat || (4 <=? length v)%nat = true ->
  Forall (wop_in 16 4 8) (W_secondary v).
Proof.
  intros Hv. unfold W_secondary.
  destruct (length v =? 0)%nat eqn:E; cbn [negb]; [constructor|].
  cbn [orb] in Hv. apply Nat.leb_le in Hv.
  repeat constructor; try lia. rewrite length_take. lia.
Qed.

End FieldFacts.

Section TextFacts.

Lemma encode_ascii_inv s raw :
  encode_ascii s = Ok raw ->
  s = map Byte.to_N raw /\ forallb is_ascii_byte raw = true.
Proof.
  revert raw. induction s as [|c s IH]; intros raw H.
  - injection H as <-. split; reflexivity.
  - cbn [encode_ascii] in H. destruct (c <? 128)%N eqn:Ec; [|discriminate].
    destruct (Byte.of_N c) as [b|] eqn:Eb.
    + destruct (encode_ascii s) as [bs|]; [|discriminate].
      injection H as <-. destruct (IH bs eq_refl) as [-> Hall].
      apply Byte.to_of_N in Eb. subst c. split; [reflexivity|].
      cbn [forallb]. unfold is_ascii_byte at 1. rewrite Ec. exact Hall.
    + destruct (encode_ascii s); discriminate.
Qed.

Lemma until_nul_app_nul raw m :
  until_nul (raw ++ replicate m x00) = until_nul raw.
Proof.
  induction raw as [|b raw IH]; cbn [app until_nul].
  - destruct m; reflexivity.
  - destruct (Byte.eqb b x00); [reflexivity|]. f_equal. exact IH.
Qed.

Lemma forallb_until_nul (p : byte -> bool) raw :
  forallb p raw = true -> forallb p (until_nul raw) = true.
Proof.
  induction raw as [|b raw IH]; [reflexivity|].
  cbn [forallb until_nul]. intros [Hb Hr]%andb_prop.
  destruct (Byte.eqb b x00); [reflexivity|].
  cbn [forallb]. rewrite Hb. apply IH, Hr.
Qed.

Lemma before_nul_map raw :
  before_nul (map Byte.to_N raw) = map Byte.to_N (until_nul raw).
Proof.
  induction raw as [|b raw IH]; [reflexivity|].
  cbn [map before_nul until_nul].
  destruct (Byte.eqb b x00) eqn:Eb.
  - apply Byte.byte_dec_bl in Eb. subst b. reflexivity.
  - destruct (N.eqb_spec (Byte.to_N b) 0) as [E|E].
    + exfalso. apply (f_equal Byte.of_N) in E.
      rewrite Byte.of_to_N in E. injection E as ->. discriminate Eb.
    + cbn [map]. f_equal. exact IH.
Qed.

Lemma forallb_take {A} (p : A -> bool) n l :
  forallb p l = true -> forallb p (take n l) = true.
Proof.
  revert n. induction l as [|x l IH]; intros [|n]; try reflexivity.
  cbn [forallb take]. intros [Hx Hl]%andb_prop. rewrite Hx. apply IH, Hl.
Qed.

(** Reading back a text field written from [s]. *)
Lemma read_written_text n s raw :
  encode_ascii s = Ok raw ->
  strip (decode_ascii_replace (until_nul (ljust n x00 (take n raw))))
  = stored_text n s.
Proof.
  intros H. apply encode_ascii_inv in H as [-> Hall].
  unfold stored_text, ljust. rewrite until_nul_app_nul.
  rewrite decode_ascii_plain
    by (apply forallb_until_nul, forallb_take, Hall).
  rewrite <- before_nul_map, firstn_map. reflexivity.
Qed.

Lemma before_nul_id s :
  forallb (fun c => negb (c =? 0)%N) s = true -> before_nul s = s.
Proof.
  induction s as [|c s IH]; [reflexivity|].
  cbn [forallb before_nul]. intros [Hc Hs]%andb_prop.
  destruct (c =? 0)%N; [discriminate|]. f_equal. apply IH, Hs.
Qed.

Lemma stored_text_plain n s : plain_text n s = true -> stored_text n s = s.
Proof.
  unfold plain_text, stored_text.
  intros [[[Hl Hz]%andb_prop Hh]%andb_prop Ht]%andb_prop.
  apply Nat.leb_le in Hl. rewrite take_ge by lia.
  rewrite before_nul_id by exact Hz. apply strip_id; assumption.
Qed.

End TextFacts.

Section BuiltFields.

Lemma le_to_Z_to_le_2 z : 0 <= z <= 65535 -> le_to_Z (Z_to_le 2 z) = z.
Proof.
  intros Hz. cbn [Z_to_le le_to_Z]. unfold byte_of_Z.
  assert (H1 : forall y, 0 <= y < 256 ->
             byte_to_Z match Byte.of_N (Z.to_N y) with
                       | Some b => b | None => x00 end = y).
  { intros y Hy. destruct (Byte.of_N (Z.to_N y)) as [b|] eqn:E.
    - apply Byte.to_of_N in E. unfold byte_to_Z. rewrite E. lia.
    - apply Byte.of_N_None_iff in E. lia. }
  rewrite !H1 by (apply Z.mod_pos_bound; lia).
  rewrite (Z.mod_small (z / 256)) by (Z.div_mod_to_equations; lia).
  Z.div_mod_to_equations. lia.
Qed.

Lemma pack_H_inv z raw :
  pack_H z = Ok raw -> 0 <= z <= 65535 /\ raw = Z_to_le 2 z.
Proof.
  unfold pack_H. destruct (0 <=? z) eqn:E1; [|discriminate].
  destruct (z <=? 65535) eqn:E2; [|discriminate]. cbn [andb].
  intros [= <-]. split; [lia|reflexivity].
Qed.

Lemma pack_H_roundtrip z raw : pack_H z = Ok raw -> le_to_Z raw = z.
Proof.
  intros H. apply pack_H_inv in H as [Hz ->]. apply le_to_Z_to_le_2, Hz.
Qed.

(** Opens a successful build: [out] becomes the fold of the writes, seen
    from each block, and every field's writes are in the context with
    their [wop_in] facts. *)
Ltac open_build fd Hsz Hbuild :=
  rewrite build_as_writes in Hbuild;
  let ws := fresh "ws" in
  let HW := fresh "HW" in
  destruct (writes _) as [ws|] eqn:HW; [|discriminate Hbuild];
  cbn [Py.bind] in Hbuild; injection Hbuild as <-;
  unfold writes in HW;
  do 20 (match type of HW with
         | Py.bind ?r _ = Ok _ =>
             let a := fresh "a" in
             let E := fresh "E" in
             destruct r as [a|] eqn:E; [cbn [Py.bind] in HW|discriminate HW]
         end);
  match type of HW with
  | Ok ?l = Ok ?w => assert (w = l) by congruence; clear HW; subst w
  end;
  unfold record_sized in Hsz;
  let Hcol := fresh "Hcol" in
  let Hsec := fresh "Hsec" in
  apply andb_prop in Hsz as [Hcol Hsec];
  apply Nat.leb_le in Hcol;
  pose proof (W_color_in _ Hcol);
  pose proof (W_secondary_in _ Hsec);
  repeat match goal with
         | E : W_ascii ?k ?i ?j _ = Ok ?a |- _ =>
             pose proof (W_ascii_in k i j _ a ltac:(lia) E);
             unfold W_ascii in E
         | E : W_u16 ?k ?i _ = Ok ?a |- _ =>
             pose proof (W_u16_in k i _ a E); unfold W_u16 in E
         | E : W_f32 ?k ?i _ = Ok ?a |- _ =>
             pose proof (W_f32_in k i _ a E); unfold W_f32 in E
         | E : W_spool _ = Ok ?a |- _ =>
             pose proof (W_spool_in _ a E); unfold W_spool in E
         end;
  pose proof (W_opt_in 0 0 4 (BambuFormat.uid fd) ltac:(lia));
  pose proof (W_opt_in 0 4 16 (manufacturer_data fd) ltac:(lia));
  pose proof (W_opt_in 8 0 12 (xcam_info fd) ltac:(lia)).

Ltac block_length HB :=
  repeat (eapply fold_in_length; [ | | eassumption]; [ | lia]);
  apply HB; lia.

(** Peels the writes that follow the one of bytes [i .. j-1]. *)
Ltac peel_writes HB :=
  repeat (etransitivity;
          [eapply fold_in_avoid; [ | | eassumption | ];
           [block_length HB | lia | lia] | ]).

Lemma built_int_fields fd out :
  shaped (base_blocks fd) -> record_sized fd = true ->
  build_tag_blocks fd = Ok out ->
  u16_at out 5 4 = spool_weight_g fd
  /\ u16_at out 6 0 = drying_temp_c fd
  /\ u16_at out 6 2 = drying_time_h fd
  /\ u16_at out 6 4 = bed_temp_type fd
  /\ u16_at out 6 6 = bed_temp_c fd
  /\ u16_at out 6 8 = max_hotend_temp_c fd
  /\ u16_at out 6 10 = min_hotend_temp_c fd
  /\ u16_at out 14 4 = filament_length_m fd
  /\ u16_at out 16 0 = color_format fd
  /\ u16_at out 16 2 = color_count fd
  /\ int_of_float (fmul (spool_width_mm fd) (float_of_int 100))
     = Ok (u16_at out 10 4).
Proof.
  intros Hb Hsz Hbuild. destruct Hb as [Hbl HB].
  open_build fd Hsz Hbuild.
  unfold u16_at.
  rewrite !blk_fold_wop by (rewrite base_blocks_length; lia).
  rewrite !fold_left_app.
  rewrite !(fold_wop_on_other _ (W_rsa _))
    by (apply W_rsa_target_ne; vm_compute; intuition discriminate).
  repeat match goal with
         | E : Py.bind (pack_H ?z) _ = Ok ?a |- _ =>
             let raw := fresh "raw" in
             let Hp := fresh "Hp" in
             destruct (pack_H z) as [raw|] eqn:Hp; [|discriminate E];
             cbn [Py.bind] in E;
             match type of E with
             | Ok ?l = Ok _ => assert (a = l) by congruence
             end; clear E; subst a
         end.
  match goal with
  | E : Py.bind (int_of_float ?x) _ = Ok ?a |- _ =>
      let w := fresh "w" in
      let Hw := fresh "Hw" in
      destruct (int_of_float x) as [w|] eqn:Hw; [|discriminate E];
      cbn [Py.bind] in E; unfold W_u16 in E;
      let raw := fresh "raw" in
      let Hp := fresh "Hp" in
      destruct (pack_H w) as [raw|] eqn:Hp; [|discriminate E];
      cbn [Py.bind] in E;
      match type of E with
      | Ok ?l = Ok _ => assert (a = l) by congruence
      end; clear E; subst a
  end.
  repeat match goal with |- _ /\ _ => split end;
    try (apply (f_equal Ok); symmetry);
    (etransitivity;
     [apply (f_equal le_to_Z); peel_writes HB; apply fold_hit;
      [block_length HB | lia | erewrite pack_H_length by eassumption; lia]
     |apply pack_H_roundtrip; assumption]).
Qed.


Ltac see_blocks :=
  rewrite !blk_fold_wop by (rewrite base_blocks_length; lia);
  rewrite !fold_left_app;
  rewrite !(fold_wop_on_other _ (W_rsa _))
    by (apply W_rsa_target_ne; vm_compute; intuition discriminate).

Lemma built_text_fields fd out :
  shaped (base_blocks fd) -> record_sized fd = true ->
  build_tag_blocks fd = Ok out ->
  _read_string (blk out 1) 0 8 = stored_text 8 (material_variant_id fd)
  /\ _read_string (blk out 1) 8 8 = stored_text 8 (material_id fd)
  /\ _read_string (blk out 2) 0 16 = stored_text 16 (filament_type fd)
  /\ _read_string (blk out 4) 0 16
     = stored_text 16 (detailed_filament_type fd)
  /\ _read_string (blk out 9) 0 16 = stored_text 16 (tray_uid fd)
  /\ _read_string (blk out 12) 0 16 = stored_text 16 (production_datetime fd)
  /\ _read_string (blk out 13) 0 16
     = stored_text 16 (short_production_datetime fd).
Proof.
  intros Hb Hsz Hbuild. destruct Hb as [Hbl HB].
  open_build fd Hsz Hbuild.
  unfold _read_string. see_blocks.
  repeat match goal with
         | E : Py.bind (encode_ascii ?s) _ = Ok ?a |- _ =>
             let raw := fresh "raw" in
             let Hp := fresh "Hp" in
             destruct (encode_ascii s) as [raw|] eqn:Hp; [|discriminate E];
             cbn [Py.bind] in E;
             match type of E with
             | Ok ?l = Ok _ => assert (a = l) by congruence
             end; clear E; subst a
         end.
  repeat match goal with |- _ /\ _ => split end;
    (etransitivity;
     [apply (f_equal (fun x => strip (decode_ascii_replace (until_nul x))));
      peel_writes HB; apply fold_hit;
      [block_length HB | lia | apply length_ljust_take]
     |apply read_written_text; assumption]).
Qed.

Lemma fold_W_opt_hit k i j v (B : bytes) :
  length B = 16%nat -> (i <= j <= 16)%nat ->
  slice (fold_left (wop_on k) (W_opt k i j v) B) i j
  = if negb (length v =? 0)%nat
    then ljust (j - i) x00 (take (j - i) v) else slice B i j.
Proof.
  intros HB Hij. unfold W_opt. destruct (negb _); [|reflexivity].
  apply fold_hit; [exact HB|exact Hij|apply length_ljust_take].
Qed.

Lemma built_byte_fields fd out :
  shaped (base_blocks fd) -> record_sized fd = true ->
  build_tag_blocks fd = Ok out ->
  slice (blk out 0) 0 4
  = (if negb (length (BambuFormat.uid fd) =? 0)%nat
     then ljust 4 x00 (take 4 (BambuFormat.uid fd))
     else slice (blk (base_blocks fd) 0) 0 4)
  /\ slice (blk out 0) 4 16
     = (if negb (length (manufacturer_data fd) =? 0)%nat
        then ljust 12 x00 (take 12 (manufacturer_data fd))
        else slice (blk (base_blocks fd) 0) 4 16)
  /\ slice (blk out 5) 0 4 = take 4 (color_rgba fd)
  /\ slice (blk out 8) 0 12
     = (if negb (length (xcam_info fd) =? 0)%nat
        then ljust 12 x00 (take 12 (xcam_info fd))
        else slice (blk (base_blocks fd) 8) 0 12)
  /\ pack_f (filament_diameter_mm fd) = Ok (slice (blk out 5) 8 12)
  /\ pack_f (nozzle_diameter fd) = Ok (slice (blk out 8) 12 16).
Proof.
  intros Hb Hsz Hbuild. destruct Hb as [Hbl HB].
  open_build fd Hsz Hbuild.
  see_blocks.
  repeat match goal with
         | E : Py.bind (pack_f ?s) _ = Ok ?a |- _ =>
             let raw := fresh "raw" in
             let Hp := fresh "Hp" in
             destruct (pack_f s) as [raw|] eqn:Hp; [|discriminate E];
             cbn [Py.bind] in E;
             match type of E with
             | Ok ?l = Ok _ => assert (a = l) by congruence
             end; clear E; subst a
         end.
  repeat match goal with |- _ /\ _ => split end.
  - peel_writes HB. apply (fold_W_opt_hit 0 0 4); [apply HB; lia|lia].
  - peel_writes HB.
    rewrite (fold_W_opt_hit 0 4 16) by (block_length HB || lia).
    destruct (negb _); [reflexivity|].
    peel_writes HB. reflexivity.
  - peel_writes HB. apply fold_hit;
      [block_length HB|lia|rewrite length_take; lia].
  - peel_writes HB.
    rewrite (fold_W_opt_hit 8 0 12) by (block_length HB || lia).
    destruct (negb _); [reflexivity|].
    peel_writes HB. reflexivity.
  - apply (f_equal Ok). symmetry. peel_writes HB.
    apply fold_hit;
      [block_length HB|lia|erewrite pack_f_length by eassumption; lia].
  - apply (f_equal Ok). symmetry. peel_writes HB.
    apply fold_hit;
      [block_length HB|lia|erewrite pack_f_length by eassumption; lia].
Qed.

End BuiltFields.

Section Encodable.

Lemma encode_ascii_eq s :
  encode_ascii s
  = if ascii_text s then Ok (ascii_bytes s) else Raise UnicodeEncodeError.
Proof.
  induction s as [|c s IH]; [reflexivity|].
  cbn [encode_ascii ascii_text ascii_bytes forallb map].
  destruct (c <? 128)%N eqn:Ec; [|reflexivity]. cbn [andb].
  apply N.ltb_lt in Ec.
  destruct (Byte.of_N c) as [b|] eqn:Eb.
  - rewrite IH. fold (ascii_text s).
    destruct (ascii_text s); [|reflexivity].
    f_equal. f_equal. unfold byte_of_Z.
    rewrite Z.mod_small by lia. rewrite N2Z.id, Eb. reflexivity.
  - apply Byte.of_N_None_iff in Eb. lia.
Qed.

Lemma W_ascii_eq k i j s :
  W_ascii k i j s
  = if ascii_text s
    then Ok [WSlice k i j (ljust (j - i) x00 (take (j - i) (ascii_bytes s)))]
    else Raise UnicodeEncodeError.
Proof.
  unfold W_ascii. rewrite encode_ascii_eq.
  destruct (ascii_text s); reflexivity.
Qed.

Lemma W_u16_eq k i z :
  W_u16 k i z
  = if u16_ok z then Ok [WSlice k i (i + 2) (Z_to_le 2 z)]
    else Raise StructError.
Proof.
  unfold W_u16, pack_H, u16_ok.
  destruct ((0 <=? z) && (z <=? 65535)); reflexivity.
Qed.

Lemma pack_f_eq x :
  pack_f x
  = if packs_f32 x then Ok (Z_to_le 4 (bits_of_f32 (f32_round x)))
    else Raise OverflowError.
Proof.
  unfold pack_f, packs_f32.
  destruct x; try reflexivity. destruct (f32_round _); reflexivity.
Qed.

Lemma W_f32_eq k i x :
  W_f32 k i x
  = if packs_f32 x
    then Ok [WSlice k i (i + 4) (Z_to_le 4 (bits_of_f32 (f32_round x)))]
    else Raise OverflowError.
Proof.
  unfold W_f32. rewrite pack_f_eq. destruct (packs_f32 x); reflexivity.
Qed.

Lemma W_spool_Ok x :
  spool_ok x = true -> exists a, W_spool x = Ok a.
Proof.
  unfold spool_ok, W_spool. destruct (int_of_float _) as [w|]; [|discriminate].
  intros Hw. cbn [Py.bind]. rewrite W_u16_eq, Hw. eexists. reflexivity.
Qed.

Lemma W_spool_Ok_inv x a : W_spool x = Ok a -> spool_ok x = true.
Proof.
  unfold spool_ok, W_spool. destruct (int_of_float _) as [w|]; [|discriminate].
  cbn [Py.bind]. rewrite W_u16_eq. destruct (u16_ok w); [reflexivity|discriminate].
Qed.

Lemma writes_Ok_encodable fd ws : writes fd = Ok ws -> encodable fd = true.
Proof.
  unfold writes. rewrite !W_ascii_eq, !W_u16_eq, !W_f32_eq.
  unfold encodable.
  repeat match goal with
         | |- context [if ?c then Ok _ else Raise _] =>
             destruct c; [cbn [Py.bind]|discriminate]
         end.
  destruct (W_spool _) as [a|] eqn:E; [|discriminate].
  rewrite (W_spool_Ok_inv _ _ E). cbn [Py.bind].
  repeat match goal with
         | |- context [if ?c then Ok _ else Raise _] =>
             destruct c; [cbn [Py.bind]|discriminate]
         end.
  reflexivity.
Qed.

Lemma encodable_writes_Ok fd :
  encodable fd = true -> exists ws, writes fd = Ok ws.
Proof.
  unfold encodable. intros H.
  repeat match type of H with
         | _ && _ = true =>
             let H' := fresh "H" in apply andb_prop in H as [H H']
         end.
  unfold writes. rewrite !W_ascii_eq, !W_u16_eq, !W_f32_eq.
  match goal with
  | Hs : spool_ok _ = true |- _ => destruct (W_spool_Ok _ Hs) as [a ->]
  end.
  repeat match goal with
         | Hc : ?c = true |- context [if ?c then _ else _] => rewrite Hc
         end.
  cbn [Py.bind]. eexists. reflexivity.
Qed.

Lemma build_Ok_iff fd :
  (exists out, build_tag_blocks fd = Ok out) <-> encodable fd = true.
Proof.
  rewrite build_as_writes. split.
  - intros [out H]. destruct (writes fd) as [ws|] eqn:E; [|discriminate].
    exact (writes_Ok_encodable fd ws E).
  - intros H. destruct (encodable_writes_Ok fd H) as [ws ->].
    eexists. reflexivity.
Qed.

End Encodable.

Section ParsedFacts.

Lemma In_lstrip x s : In x (lstrip s) -> In x s.
Proof.
  induction s as [|c s IH]; cbn [lstrip]; [tauto|].
  destruct (Py.isspace c); [right; apply IH; assumption|tauto].
Qed.

Lemma In_lstrip_keep x s :
  In x s -> Py.isspace x = false -> In x (lstrip s).
Proof.
  intros Hin Hx. induction s as [|c s IH]; [destruct Hin|].
  cbn [lstrip]. destruct (Py.isspace c) eqn:Ec; [|exact Hin].
  destruct Hin as [->|Hin]; [congruence|apply IH, Hin].
Qed.

Lemma In_strip x s : In x (Py.strip s) -> In x s.
Proof.
  unfold Py.strip, rstrip. intros H.
  apply in_rev, In_lstrip, in_rev, In_lstrip in H. exact H.
Qed.

Lemma In_strip_keep x s :
  In x s -> Py.isspace x = false -> In x (Py.strip s).
Proof.
  unfold Py.strip, rstrip. intros Hin Hx.
  apply in_rev. rewrite rev_involutive.
  apply In_lstrip_keep; [|exact Hx].
  apply in_rev. rewrite rev_involutive.
  apply In_lstrip_keep; assumption.
Qed.

Lemma ascii_text_read_string (B : bytes) i n :
  ascii_text (_read_string B i n)
  = forallb is_ascii_byte (until_nul (slice B i (i + n))).
Proof.
  unfold _read_string. set (raw := until_nul _).
  destruct (forallb is_ascii_byte raw) eqn:E.
  - apply forallb_forall. intros x Hx%In_strip.
    rewrite decode_ascii_plain in Hx by exact E.
    apply in_map_iff in Hx as (b & <- & Hb).
    rewrite forallb_forall in E. exact (E b Hb).
  - apply not_true_is_false. intros H.
    assert (Hex : exists b, In b raw /\ is_ascii_byte b = false).
    { clear H. induction raw as [|b raw IH]; [discriminate|].
      cbn [forallb] in E. destruct (is_ascii_byte b) eqn:Eb.
      - destruct (IH E) as (b' & Hin & Hb'). exists b'. split; [right|]; assumption.
      - exists b. split; [left; reflexivity|exact Eb]. }
    destruct Hex as (b & Hin & Hb).
    unfold ascii_text in H. rewrite forallb_forall in H.
    specialize (H 0xFFFD%N). discriminate H.
    apply In_strip_keep; [|reflexivity].
    unfold decode_ascii_replace. apply in_map_iff. exists b.
    split; [|exact Hin]. unfold is_ascii_byte in Hb. cbv zeta. rewrite Hb.
    reflexivity.
Qed.

Lemma packs_f32_of_bits n : 0 <= n < 2 ^ 32 -> packs_f32 (f32_of_bits n) = true.
Proof.
  intros Hn. destruct (not_nan_bits n) eqn:E.
  - pose proof (pack_f_of_bits n Hn E) as H. rewrite pack_f_eq in H.
    destruct (packs_f32 _); [reflexivity|discriminate].
  - unfold not_nan_bits in E. apply negb_false_iff, andb_prop in E as [E1 E2].
    unfold f32_of_bits. cbv zeta.
    apply Z.eqb_eq in E1. rewrite E1. cbn [Z.eqb].
    destruct (n mod 2 ^ 23 =? 0); [discriminate|]. reflexivity.
Qed.

Lemma packs_f32_at b k i :
  shaped b -> (k < 64)%nat -> (i + 4 <= 16)%nat ->
  packs_f32 (f32_at b k i) = true.
Proof.
  intros Hb Hk Hi. unfold f32_at, unpack_f. apply packs_f32_of_bits.
  pose proof (le_to_Z_range (slice (blk b k) i (i + 4))) as Hr.
  rewrite length_slice_in in Hr by (rewrite (proj2 Hb) by lia; lia).
  replace (i + 4 - i)%nat with 4%nat in Hr by lia.
  change (256 ^ Z.of_nat 4) with (2 ^ 32) in Hr. exact Hr.
Qed.

Lemma u16_ok_at b k i :
  shaped b -> (k < 64)%nat -> (i + 2 <= 16)%nat -> u16_ok (u16_at b k i) = true.
Proof.
  intros Hb Hk Hi. pose proof (u16_at_range b k i Hb Hk Hi).
  unfold u16_ok. apply andb_true_intro. split; apply Z.leb_le; lia.
Qed.

Lemma spool_ok_at b :
  shaped b ->
  spool_ok (fdiv (float_of_int (u16_at b 10 4)) (float_of_int 100)) = true.
Proof.
  intros Hb. unfold spool_ok.
  destruct (spool_reencode_range (u16_at b 10 4)) as (w' & Hw & Hr & _);
    [apply u16_at_range; [exact Hb|lia|lia]|].
  unfold spool_reencode in Hw. rewrite Hw.
  unfold u16_ok. apply andb_true_intro. split; apply Z.leb_le; lia.
Qed.

(** A parsed record is rejected by [build_tag_blocks] only for its text. *)
Lemma encodable_parsed b :
  shaped b -> encodable (parsed_record b) = text_7bit b.
Proof.
  intros Hb. unfold encodable, text_7bit, field_7bit.
  cbn [parsed_record material_variant_id material_id filament_type
       detailed_filament_type spool_weight_g filament_diameter_mm
       drying_temp_c drying_time_h bed_temp_type bed_temp_c
       max_hotend_temp_c min_hotend_temp_c nozzle_diameter tray_uid
       spool_width_mm production_datetime short_production_datetime
       filament_length_m color_format color_count].
  rewrite !ascii_text_read_string.
  rewrite !u16_ok_at, !packs_f32_at, spool_ok_at by (assumption || lia).
  rewrite !andb_true_r. reflexivity.
Qed.

Ltac region_true := vm_compute; reflexivity.

Ltac within_parsed b Hb :=
  lazymatch goal with
  | H : W_ascii ?k ?i ?j ?s = Ok ?w |- Forall (wop_within ?R _) ?w =>
      apply (W_ascii_within R b Hb k i j s w); [lia|lia|exact H|];
      right; region_true
  | H : W_u16 ?k ?i ?z = Ok ?w |- Forall (wop_within ?R _) ?w =>
      apply (W_u16_within R b Hb k i z w); [lia|lia|exact H|];
      left; reflexivity
  | H : W_f32 ?k ?i ?x = Ok ?w |- Forall (wop_within ?R _) ?w =>
      apply (W_f32_within R b Hb k i x w); [lia|lia|exact H|];
      right; region_true
  | H : W_spool ?x = Ok ?w |- Forall (wop_within ?R _) ?w =>
      apply (W_spool_within R b Hb x w H); region_true
  | |- Forall (wop_within ?R _) (W_opt ?k ?i ?j ?v) =>
      apply (W_opt_within R b Hb k i j v); [lia|lia|]; left; reflexivity
  | |- Forall (wop_within ?R _) (W_color ?v) =>
      apply (W_color_within R b Hb v); left; reflexivity
  | |- Forall (wop_within ?R _) (W_secondary ?v) =>
      apply (W_secondary_within R b Hb v); left; reflexivity
  | |- Forall (wop_within ?R _) (W_rsa ?v) =>
      apply (W_rsa_within R b Hb v); left; reflexivity
  end.

Lemma writes_parsed_within b ws :
  shaped b -> writes (parsed_record b) = Ok ws ->
  Forall (wop_within lossy_region b) ws.
Proof.
  intros Hb HW. unfold writes in HW.
  do 20 (match type of HW with
         | Py.bind ?r _ = Ok _ =>
             let E := fresh "E" in
             destruct r eqn:E; [cbn [Py.bind] in HW|discriminate HW]
         end).
  match type of HW with Ok ?l = Ok _ => assert (Hws : ws = l) by congruence end.
  clear HW; subst ws.
  rewrite !Forall_app.
  repeat split; within_parsed b Hb.
Qed.

Lemma rebuild_parsed_frame b out :
  valid_image b = true ->
  build_tag_blocks (parsed_record b) = Ok out ->
  shaped out /\ agrees lossy_region out b.
Proof.
  intros Hv Hbuild. pose proof (valid_image_shaped b Hv) as Hb.
  rewrite build_as_writes in Hbuild.
  destruct (writes _) as [ws|] eqn:HW; [|discriminate].
  cbn [Py.bind] in Hbuild. injection Hbuild as <-.
  assert (Hbase : base_blocks (parsed_record b) = b)
    by (apply base_blocks_valid; exact Hv).
  rewrite Hbase. apply fold_wop_inv.
  - apply writes_parsed_within; assumption.
  - exact Hb.
  - intros k i _. reflexivity.
Qed.

Lemma rebuild_parsed_raises b :
  shaped b -> text_7bit b = false ->
  build_tag_blocks (parsed_record b) = Raise UnicodeEncodeError.
Proof.
  intros Hb Ht. rewrite build_as_writes. unfold writes.
  cbn [parsed_record material_variant_id material_id filament_type
       detailed_filament_type spool_weight_g filament_diameter_mm
       drying_temp_c drying_time_h bed_temp_type bed_temp_c
       max_hotend_temp_c min_hotend_temp_c nozzle_diameter tray_uid
       spool_width_mm production_datetime short_production_datetime
       filament_length_m color_format color_count].
  rewrite !W_ascii_eq, !W_u16_eq, !W_f32_eq.
  rewrite !ascii_text_read_string.
  rewrite !u16_ok_at, !packs_f32_at by (assumption || lia).
  destruct (W_spool_Ok _ (spool_ok_at b Hb)) as [a ->].
  unfold text_7bit, field_7bit in Ht.
  change (0 + 8)%nat with 8%nat. change (8 + 8)%nat with 16%nat.
  change (0 + 16)%nat with 16%nat.
  repeat match goal with
         | |- context [if forallb is_ascii_byte ?r then Ok _ else Raise _] =>
             destruct (forallb is_ascii_byte r);
             [cbn [Py.bind]|reflexivity]
         end.
  discriminate Ht.
Qed.

End ParsedFacts.

Section ShortColour.

Ltac drop_other k tac :=
  repeat match goal with
  | E : W_ascii ?k0 _ _ _ = Ok ?a |- context [fold_left (wop_on k) ?a _] =>
      rewrite (fold_wop_on_other k a)
        by (apply (Forall_target_ne k0); [tac|exact (W_ascii_target _ _ _ _ _ E)])
  | E : W_u16 ?k0 _ _ = Ok ?a |- context [fold_left (wop_on k) ?a _] =>
      rewrite (fold_wop_on_other k a)
        by (apply (Forall_target_ne k0); [tac|exact (W_u16_target _ _ _ _ E)])
  | E : W_f32 ?k0 _ _ = Ok ?a |- context [fold_left (wop_on k) ?a _] =>
      rewrite (fold_wop_on_other k a)
        by (apply (Forall_target_ne k0); [tac|exact (W_f32_target _ _ _ _ E)])
  | E : W_spool _ = Ok ?a |- context [fold_left (wop_on k) ?a _] =>
      rewrite (fold_wop_on_other k a)
        by (apply (Forall_target_ne 10%nat); [tac|exact (W_spool_target _ _ E)])
  | |- context [fold_left (wop_on k) (W_opt ?k0 ?i ?j ?v) _] =>
      rewrite (fold_wop_on_other k (W_opt k0 i j v))
        by (apply (Forall_target_ne k0); [tac|apply W_opt_target])
  | |- context [fold_left (wop_on k) (W_color ?v) _] =>
      rewrite (fold_wop_on_other k (W_color v))
        by (apply (Forall_target_ne 5%nat); [tac|apply W_color_target])
  | |- context [fold_left (wop_on k) (W_secondary ?v) _] =>
      rewrite (fold_wop_on_other k (W_secondary v))
        by (apply (Forall_target_ne 16%nat); [tac|apply W_secondary_target])
  end.

Lemma length_slice_assign_gen (B v : bytes) i j :
  (i <= length B)%nat ->
  length (slice_assign B i j v) = (i + length v + (length B - j))%nat.
Proof.
  intros Hi. unfold slice_assign.
  rewrite !length_app, length_take, length_drop. lia.
Qed.

(** Block 5 after a build: the colour, the weight, the diameter. *)
Lemma build_block_5 fd out :
  build_tag_blocks fd = Ok out ->
  exists rw rd,
    length rw = 2%nat /\ length rd = 4%nat /\
    blk out 5
    = slice_assign
        (slice_assign
           (slice_assign (blk (base_blocks fd) 5) 0 4 (take 4 (color_rgba fd)))
           4 6 rw) 8 12 rd.
Proof.
  intros Hbuild. rewrite build_as_writes in Hbuild.
  destruct (writes fd) as [ws|] eqn:HW; [|discriminate].
  cbn [Py.bind] in Hbuild. injection Hbuild as <-.
  rewrite blk_fold_wop by (rewrite base_blocks_length; lia).
  unfold writes in HW.
  do 20 (match type of HW with
         | Py.bind ?r _ = Ok _ =>
             let E := fresh "E" in
             destruct r eqn:E; [cbn [Py.bind] in HW|discriminate HW]
         end).
  match type of HW with
  | Ok ?l = Ok ?w => assert (w = l) by congruence; clear HW; subst w
  end.
  rewrite !fold_left_app.
  rewrite (fold_wop_on_other 5 (W_rsa _))
    by (apply W_rsa_target_ne; vm_compute; intuition discriminate).
  match goal with
  | E1 : W_u16 5 4 ?z = Ok ?a1, E2 : W_f32 5 8 ?x = Ok ?a2 |- _ =>
      unfold W_u16 in E1; unfold W_f32 in E2;
      destruct (pack_H z) as [rw|] eqn:Hrw; [|discriminate E1];
      destruct (pack_f x) as [rd|] eqn:Hrd; [|discriminate E2];
      cbn [Py.bind] in E1, E2;
      assert (a1 = [WSlice 5 4 (4 + 2) rw]) by congruence;
      assert (a2 = [WSlice 5 8 (8 + 4) rd]) by congruence;
      clear E1 E2; subst a1 a2
  end.
  exists rw, rd.
  split; [exact (pack_H_length _ _ Hrw)|].
  split; [exact (pack_f_length _ _ Hrd)|].
  rewrite (fold_wop_on_other 5 (W_secondary _))
    by (apply (Forall_target_ne 16%nat); [lia|apply W_secondary_target]).
  rewrite (fold_wop_on_other 5 (W_opt 8 _ _ _))
    by (apply (Forall_target_ne 8%nat); [lia|apply W_opt_target]).
  rewrite (fold_wop_on_other 5 (W_opt 0 0 4 _))
    by (apply (Forall_target_ne 0%nat); [lia|apply W_opt_target]).
  rewrite (fold_wop_on_other 5 (W_opt 0 4 16 _))
    by (apply (Forall_target_ne 0%nat); [lia|apply W_opt_target]).
  drop_other 5%nat ltac:(lia).
  reflexivity.
Qed.

Lemma short_block_invalid (out : list bytes) k :
  (k < length out)%nat -> length (blk out k) <> 16%nat ->
  valid_image out = false.
Proof.
  intros Hk Hl. apply not_true_is_false. intros Hv.
  apply valid_image_Forall in Hv as [_ Hall].
  destruct (lookup_lt_is_Some_2 out k Hk) as [x Hx].
  unfold blk in Hl. rewrite (list_lookup_total_correct _ _ _ Hx) in Hl.
  apply Hl. rewrite Forall_forall in Hall. apply Hall.
  eapply list_elem_of_lookup_2, Hx.
Qed.

Lemma build_length fd out : build_tag_blocks fd = Ok out -> length out = 64%nat.
Proof.
  rewrite build_as_writes. destruct (writes fd) as [ws|]; [|discriminate].
  intros [= <-]. rewrite length_fold_wop. apply base_blocks_length.
Qed.

End ShortColour.

Section ParseShape.

Lemma length_lstrip_le s : (length (lstrip s) <= length s)%nat.
Proof.
  induction s as [|c s IH]; cbn [lstrip]; [lia|].
  destruct (Py.isspace c); cbn [length]; lia.
Qed.

Lemma length_strip_le s : (length (Py.strip s) <= length s)%nat.
Proof.
  unfold Py.strip, rstrip. rewrite length_rev.
  etransitivity; [apply length_lstrip_le|]. rewrite length_rev.
  apply length_lstrip_le.
Qed.

Lemma length_until_nul_le raw : (length (until_nul raw) <= length raw)%nat.
Proof.
  induction raw as [|b raw IH]; cbn [until_nul]; [lia|].
  destruct (Byte.eqb b x00); cbn [length]; lia.
Qed.

Lemma length_read_string (B : bytes) i n :
  (length (_read_string B i n) <= n)%nat.
Proof.
  unfold _read_string. etransitivity; [apply length_strip_le|].
  unfold decode_ascii_replace. rewrite length_map.
  etransitivity; [apply length_until_nul_le|].
  rewrite length_slice. lia.
Qed.

End ParseShape.

Section BuildShape.

Lemma build_parse_Ok fd out :
  valid_image (base_blocks fd) = true -> record_sized fd = true ->
  build_tag_blocks fd = Ok out ->
  valid_image out = true /\ parse_tag_dump out = Ok (parsed_record out).
Proof.
  intros Hv Hsz Hbuild.
  destruct (build_frame fd out (valid_image_shaped _ Hv) Hsz Hbuild)
    as [Hout _].
  pose proof (shaped_valid_image out Hout) as Hvo.
  split; [exact Hvo|]. rewrite parse_tag_dump_eq, Hvo. reflexivity.
Qed.

End BuildShape.


(** ** Transport formats: decoding what the encoders write *)

Import PyText TagParser.


Section TransportFacts.

Lemma bind_Ok {A} (r : result A) : (let* x := r in Ok x) = r.
Proof. destruct r; reflexivity. Qed.

Lemma fromhex_hex_byte b rest :
  fromhex (hex_byte_upper b ++ rest)
  = let* bs := fromhex rest in Ok (b :: bs).
Proof. destruct b; reflexivity. Qed.

Lemma fromhex_hex_upper data : fromhex (hex_upper data) = Ok data.
Proof.
  induction data as [|b data IH]; [reflexivity|].
  rewrite hex_upper_cons, fromhex_hex_byte, IH. reflexivity.
Qed.

Lemma traverse_map {A B} (f : A -> result B) (g : B -> A) xs :
  (forall x, f (g x) = Ok x) -> traverse f (map g xs) = Ok xs.
Proof.
  intros H. induction xs as [|x xs IH]; [reflexivity|].
  cbn. rewrite H. cbn. rewrite IH. reflexivity.
Qed.

End TransportFacts.


Section Base64Facts.

Lemma b64_char_ok_all n : (n < 64)%N -> b64_char_ok n = true.
Proof.
  intros Hn.
  assert (H : forallb b64_char_ok (map N.of_nat (seq 0 64)) = true)
    by (vm_compute; reflexivity).
  rewrite forallb_forall in H. apply H.
  apply in_map_iff. exists (N.to_nat n). split; [lia|].
  apply in_seq. lia.
Qed.

Lemma b64_char_spec n :
  (n < 64)%N ->
  b64_value (b64_char n) = Some n
  /\ Ascii.eqb (b64_char n) "=" = false
  /\ (N_of_ascii (b64_char n) <? 128)%N = true.
Proof.
  intros Hn. pose proof (b64_char_ok_all n Hn) as H.
  unfold b64_char_ok in H.
  apply andb_prop in H as [H H3]. apply andb_prop in H as [H1 H2].
  destruct (b64_value (b64_char n)) as [v|]; [|discriminate].
  apply N.eqb_eq in H1. subst v.
  repeat split; [|exact H3]. destruct (Ascii.eqb _ _); [discriminate|reflexivity].
Qed.

Lemma a2b_char n rest q l p :
  (n < 64)%N ->
  a2b_base64 (String (b64_char n) rest) q l p
  = match q with
    | 0%N => a2b_base64 rest 1%N n 0%N
    | 1%N => out_byte (l * 4 + n / 16) (a2b_base64 rest 2%N (n mod 16)%N 0%N)
    | 2%N => out_byte (l * 16 + n / 4) (a2b_base64 rest 3%N (n mod 4)%N 0%N)
    | _ => out_byte (l * 64 + n) (a2b_base64 rest 0%N 0%N 0%N)
    end.
Proof.
  intros Hn. destruct (b64_char_spec n Hn) as (Hv & He & _).
  cbn [a2b_base64]. rewrite He, Hv. reflexivity.
Qed.

Lemma byte_of_Z_to_N b : byte_of_Z (Z.of_N (Byte.to_N b)) = b.
Proof. destruct b; reflexivity. Qed.

Lemma byte_lt b : (Byte.to_N b < 256)%N.
Proof. destruct b; reflexivity. Qed.

Lemma out_byte_eq n b k :
  n = Byte.to_N b -> out_byte n k = let* bs := k in Ok (b :: bs).
Proof. intros ->. unfold out_byte. rewrite byte_of_Z_to_N. reflexivity. Qed.


Lemma b64_quad_Z (x y z : Z) :
  0 <= x < 256 -> 0 <= y < 256 -> 0 <= z < 256 ->
  let n := x * 65536 + y * 256 + z in
  n / 262144 * 4 + ((n / 4096) mod 64) / 16 = x
  /\ ((n / 4096) mod 64) mod 16 * 16 + ((n / 64) mod 64) / 4 = y
  /\ ((n / 64) mod 64) mod 4 * 64 + n mod 64 = z.
Proof.
  intros Hx Hy Hz n.
  assert (H1 : n / 262144 = x / 4).
  { symmetry. apply (Z.div_unique_pos _ _ _ ((x mod 4) * 65536 + y * 256 + z)).
    - subst n. pose proof (Z.mod_pos_bound x 4). lia.
    - subst n. pose proof (Z.div_mod x 4). lia. }
  assert (H2 : n / 4096 = x * 16 + y / 16).
  { symmetry. apply (Z.div_unique_pos _ _ _ ((y mod 16) * 256 + z)).
    - pose proof (Z.mod_pos_bound y 16). lia.
    - subst n. pose proof (Z.div_mod y 16). lia. }
  assert (H3 : n / 64 = x * 1024 + y * 4 + z / 64).
  { symmetry. apply (Z.div_unique_pos _ _ _ (z mod 64)).
    - pose proof (Z.mod_pos_bound z 64). lia.
    - subst n. pose proof (Z.div_mod z 64). lia. }
  assert (H4 : n mod 64 = z mod 64).
  { symmetry. apply (Z.mod_unique_pos _ _ (x * 1024 + y * 4 + z / 64)).
    - pose proof (Z.mod_pos_bound z 64). lia.
    - subst n. pose proof (Z.div_mod z 64). lia. }
  rewrite H1, H2, H3, H4. clearbody n. clear H1 H2 H3 H4.
  repeat split; Z.div_mod_to_equations; lia.
Qed.

Lemma b64_quad (a b c : byte) :
  let n := (Byte.to_N a * 65536 + Byte.to_N b * 256 + Byte.to_N c)%N in
  (n / 262144 * 4 + ((n / 4096) mod 64) / 16 = Byte.to_N a
   /\ ((n / 4096) mod 64) mod 16 * 16 + ((n / 64) mod 64) / 4 = Byte.to_N b
   /\ ((n / 64) mod 64) mod 4 * 64 + n mod 64 = Byte.to_N c)%N.
Proof.
  intros n.
  pose proof (byte_lt a) as Ha. pose proof (byte_lt b) as Hb.
  pose proof (byte_lt c) as Hc.
  destruct (b64_quad_Z (Z.of_N (Byte.to_N a)) (Z.of_N (Byte.to_N b))
                       (Z.of_N (Byte.to_N c))) as (H1 & H2 & H3); [lia..|].
  subst n.
  repeat split; apply N2Z.inj;
    repeat first [rewrite N2Z.inj_add | rewrite N2Z.inj_mul
                 | rewrite N2Z.inj_div | rewrite N2Z.inj_mod];
    assumption.
Qed.

Lemma to_N_x00 : Byte.to_N x00 = 0%N.
Proof. reflexivity. Qed.
Lemma b64encode_3 a b c rest :
  b64encode (a :: b :: c :: rest)
  = let n := (Byte.to_N a * 65536 + Byte.to_N b * 256 + Byte.to_N c)%N in
    String (b64_char (n / 262144))
      (String (b64_char ((n / 4096) mod 64))
         (String (b64_char ((n / 64) mod 64))
            (String (b64_char (n mod 64)) (b64encode rest)))).
Proof. reflexivity. Qed.

Lemma b64encode_2 a b :
  b64encode [a; b]
  = let n := (Byte.to_N a * 65536 + Byte.to_N b * 256 + Byte.to_N x00)%N in
    String (b64_char (n / 262144))
      (String (b64_char ((n / 4096) mod 64))
         (String (b64_char ((n / 64) mod 64)) "=")).
Proof. rewrite to_N_x00, N.add_0_r. reflexivity. Qed.

Lemma b64encode_1 a :
  b64encode [a]
  = let n := (Byte.to_N a * 65536 + Byte.to_N x00 * 256 + Byte.to_N x00)%N in
    String (b64_char (n / 262144))
      (String (b64_char ((n / 4096) mod 64)) "==").
Proof. rewrite to_N_x00, N.mul_0_l, !N.add_0_r. reflexivity. Qed.

Ltac b64_lt := first [apply N.mod_lt; discriminate
                     | apply N.Div0.div_lt_upper_bound;
                       repeat match goal with
                              | |- context [Byte.to_N ?b] =>
                                  pose proof (byte_lt b);
                                  generalize dependent (Byte.to_N b); intros
                              end; lia].

Lemma a2b_b64encode data :
  a2b_base64 (b64encode data) 0 0 0 = Ok data.
Proof.
  remember (length data) as len eqn:Hlen.
  revert data Hlen. induction len as [len IH] using lt_wf_ind.
  intros data Hlen.
  destruct data as [|a [|b [|c rest]]].
  - reflexivity.
  - rewrite b64encode_1. cbv zeta.
    destruct (b64_quad a x00 x00) as (H1 & _ & _).
    rewrite a2b_char by b64_lt. rewrite a2b_char by b64_lt.
    rewrite (out_byte_eq _ a) by exact H1. reflexivity.
  - rewrite b64encode_2. cbv zeta.
    destruct (b64_quad a b x00) as (H1 & H2 & _).
    rewrite a2b_char by b64_lt. rewrite a2b_char by b64_lt.
    rewrite a2b_char by b64_lt.
    rewrite (out_byte_eq _ a) by exact H1.
    rewrite (out_byte_eq _ b) by exact H2. reflexivity.
  - rewrite b64encode_3. cbv zeta.
    destruct (b64_quad a b c) as (H1 & H2 & H3).
    rewrite a2b_char by b64_lt. rewrite a2b_char by b64_lt.
    rewrite a2b_char by b64_lt. rewrite a2b_char by b64_lt.
    rewrite (IH (length rest)) by (subst len; cbn; lia || reflexivity).
    rewrite (out_byte_eq _ a) by exact H1.
    rewrite (out_byte_eq _ b) by exact H2.
    rewrite (out_byte_eq _ c) by exact H3. reflexivity.
Qed.

Lemma is_ascii_b64encode data : is_ascii (b64encode data) = true.
Proof.
  remember (length data) as len eqn:Hlen.
  revert data Hlen. induction len as [len IH] using lt_wf_ind.
  intros data Hlen.
  assert (Hc : forall n s, (n < 64)%N -> is_ascii s = true ->
                           is_ascii (String (b64_char n) s) = true).
  { intros n s Hn Hs. unfold is_ascii in *. cbn.
    destruct (b64_char_spec n Hn) as (_ & _ & ->). exact Hs. }
  destruct data as [|a [|b [|c rest]]].
  - reflexivity.
  - rewrite b64encode_1. cbv zeta. do 2 (apply Hc; [b64_lt|]). reflexivity.
  - rewrite b64encode_2. cbv zeta. do 3 (apply Hc; [b64_lt|]). reflexivity.
  - rewrite b64encode_3. cbv zeta. do 4 (apply Hc; [b64_lt|]).
    apply (IH (length rest)); [subst len; cbn; lia|reflexivity].
Qed.

Lemma b64decode_b64encode data : b64decode (b64encode data) = Ok data.
Proof.
  unfold b64decode. rewrite is_ascii_b64encode. apply a2b_b64encode.
Qed.

End Base64Facts.

Section BinaryFacts.

Lemma parse_from_binary_concat out :
  valid_image out = true ->
  parse_from_binary (concat out) = parse_tag_dump out.
Proof.
  intros Hv. destruct (valid_image_Forall out Hv) as [Hl Hall].
  unfold parse_from_binary.
  change Mifare.TOTAL_BYTES with 1024%nat.
  change Mifare.TOTAL_BLOCKS with 64%nat.
  change Mifare.BYTES_PER_BLOCK with 16%nat.
  rewrite length_concat_blocks, Hl by exact Hall.
  change (16 * 64 =? 1024)%nat with true. cbn [negb].
  pose proof (chunks_of_concat out Hall) as Hc. rewrite Hl in Hc.
  rewrite Hc. reflexivity.
Qed.

Lemma remove_space_hex_byte b rest :
  remove_char " " (hex_byte_upper b ++ rest)
  = (hex_byte_upper b ++ remove_char " " rest)%string.
Proof. destruct b; reflexivity. Qed.

Lemma remove_lf_hex_byte b rest :
  remove_char "010" (hex_byte_upper b ++ rest)
  = (hex_byte_upper b ++ remove_char "010" rest)%string.
Proof. destruct b; reflexivity. Qed.

Lemma remove_cr_hex_byte b rest :
  remove_char "013" (hex_byte_upper b ++ rest)
  = (hex_byte_upper b ++ remove_char "013" rest)%string.
Proof. destruct b; reflexivity. Qed.

Lemma hex_upper_clean data :
  remove_char "013" (remove_char "010" (remove_char " " (hex_upper data)))
  = hex_upper data.
Proof.
  induction data as [|b data IH]; [reflexivity|].
  rewrite hex_upper_cons, remove_space_hex_byte, remove_lf_hex_byte,
    remove_cr_hex_byte, IH. reflexivity.
Qed.

End BinaryFacts.

Section MifareFacts.

Lemma existsb_eqb_In b l : existsb (Nat.eqb b) l = true <-> In b l.
Proof.
  rewrite existsb_exists. split.
  - intros (x & Hx & ->%Nat.eqb_eq). exact Hx.
  - intros H. exists b. split; [exact H|apply Nat.eqb_refl].
Qed.

(** A property checked on every block number below 64. *)
Lemma below_64 (p : nat -> bool) :
  forallb p (seq 0 64) = true -> forall b, (b < 64)%nat -> p b = true.
Proof.
  intros H b Hb. rewrite forallb_forall in H. apply H, in_seq. lia.
Qed.

End MifareFacts.

Section StringFacts.

Local Open Scope string_scope.

Lemma sapp_cons x (a b : string) : String x a ++ b = String x (a ++ b).
Proof. reflexivity. Qed.

Lemma sapp_nil_l (b : string) : "" ++ b = b.
Proof. reflexivity. Qed.

Lemma sapp_assoc (a b c : string) : (a ++ b) ++ c = a ++ (b ++ c).
Proof.
  induction a as [|x a IH]; [reflexivity|].
  rewrite !sapp_cons. f_equal. exact IH.
Qed.

Lemma sapp_nil_r (a : string) : a ++ "" = a.
Proof.
  induction a as [|x a IH]; [reflexivity|].
  rewrite sapp_cons. f_equal. exact IH.
Qed.

Lemma slength_app (a b : string) :
  String.length (a ++ b) = (String.length a + String.length b)%nat.
Proof.
  induction a as [|x a IH]; [reflexivity|].
  rewrite sapp_cons. cbn [String.length Nat.add]. f_equal. exact IH.
Qed.

Lemma s2l_app (a b : string) :
  list_ascii_of_string (a ++ b)
  = (list_ascii_of_string a ++ list_ascii_of_string b)%list.
Proof.
  induction a as [|x a IH]; [reflexivity|].
  rewrite sapp_cons. cbn [list_ascii_of_string app]. f_equal. exact IH.
Qed.

Lemma l2s_app (a b : list ascii) :
  string_of_list_ascii (a ++ b)%list
  = string_of_list_ascii a ++ string_of_list_ascii b.
Proof.
  induction a as [|x a IH]; [reflexivity|].
  cbn [app string_of_list_ascii]. rewrite sapp_cons. f_equal. exact IH.
Qed.

Lemma rev_string_app (a b : string) :
  rev_string (a ++ b) = rev_string b ++ rev_string a.
Proof. unfold rev_string. rewrite s2l_app, rev_app_distr. apply l2s_app. Qed.

Lemma rev_string_involutive (a : string) : rev_string (rev_string a) = a.
Proof.
  unfold rev_string. rewrite list_ascii_of_string_of_list_ascii.
  rewrite rev_involutive. apply string_of_list_ascii_of_string.
Qed.

Lemma strip_framed s : framed s -> PyText.strip s = s.
Proof.
  intros (c & m & d & -> & Hc & Hd). unfold PyText.strip.
  cbn [PyText.lstrip]. rewrite Hc.
  rewrite <- (sapp_cons c m (String d "")).
  rewrite (rev_string_app _ (String d "")).
  change (rev_string (String d "")) with (String d "").
  rewrite sapp_cons, sapp_nil_l.
  cbn [PyText.lstrip]. rewrite Hd.
  rewrite <- (sapp_nil_l (rev_string (String c m))), <- sapp_cons.
  rewrite rev_string_app, rev_string_involutive.
  reflexivity.
Qed.

Lemma framed_app a b sep : framed a -> framed b -> framed (a ++ sep ++ b).
Proof.
  intros (c & m & d & -> & Hc & Hd) (c' & m' & d' & -> & Hc' & Hd').
  exists c, (m ++ String d "" ++ sep ++ String c' m'), d'.
  split; [|split; assumption].
  rewrite !sapp_cons. f_equal. rewrite !sapp_assoc.
  rewrite !sapp_cons, sapp_nil_l. f_equal. f_equal.
  rewrite !sapp_assoc, !sapp_cons. reflexivity.
Qed.

Lemma framed_concat sep l ls :
  Forall framed (l :: ls) -> framed (String.concat sep (l :: ls)).
Proof.
  revert l. induction ls as [|l' ls IH]; intros l H.
  - exact (Forall_inv H).
  - change (String.concat sep (l :: l' :: ls))
      with (l ++ sep ++ String.concat sep (l' :: ls)).
    apply framed_app; [exact (Forall_inv H)|].
    apply IH. exact (Forall_inv_tail H).
Qed.

Lemma one_line_app a b : one_line (a ++ b) = one_line a && one_line b.
Proof.
  induction a as [|x a IH]; [reflexivity|].
  rewrite sapp_cons. cbn [one_line]. rewrite IH. apply andb_assoc.
Qed.

Lemma splitlines_line l rest :
  one_line l = true -> l <> "" ->
  splitlines (l ++ String "010" rest) = l :: splitlines rest.
Proof.
  intros Hl Hne. induction l as [|c l IH]; [congruence|].
  cbn [one_line] in Hl. apply andb_prop in Hl as [Hc Hl].
  apply negb_true_iff in Hc.
  rewrite sapp_cons. cbn [splitlines]. rewrite Hc.
  destruct l as [|c' l].
  - rewrite sapp_nil_l. cbn [splitlines].
    change (is_linebreak "010") with true. cbv iota.
    destruct rest as [|d rest']; [reflexivity|].
    change (Ascii.eqb "010" "013") with false. cbn [andb].
    reflexivity.
  - rewrite IH by (exact Hl || discriminate). reflexivity.
Qed.

Lemma splitlines_last l :
  one_line l = true -> l <> "" -> splitlines l = [l].
Proof.
  intros Hl Hne. induction l as [|c l IH]; [congruence|].
  cbn [one_line] in Hl. apply andb_prop in Hl as [Hc Hl].
  apply negb_true_iff in Hc.
  cbn [splitlines]. rewrite Hc.
  destruct l as [|c' l]; [reflexivity|].
  rewrite IH by (exact Hl || discriminate). reflexivity.
Qed.

Lemma splitlines_concat l ls :
  Forall (fun l => one_line l = true /\ l <> "") (l :: ls) ->
  splitlines (String.concat (String "010" "") (l :: ls)) = l :: ls.
Proof.
  revert l. induction ls as [|l' ls IH]; intros l H.
  - apply splitlines_last; apply (Forall_inv H).
  - change (String.concat (String "010" "") (l :: l' :: ls))
      with (l ++ String "010" ("" ++ String.concat (String "010" "")
                                                    (l' :: ls))).
    rewrite sapp_nil_l.
    destruct (Forall_inv H) as [H1 H2].
    rewrite splitlines_line by assumption.
    f_equal. apply IH. exact (Forall_inv_tail H).
Qed.

Lemma contains_char_app c a b :
  contains_char c (a ++ b) = contains_char c a || contains_char c b.
Proof.
  induction a as [|x a IH]; [reflexivity|].
  rewrite sapp_cons. cbn [contains_char]. rewrite IH. apply orb_assoc.
Qed.

Lemma after_char_app c a b :
  contains_char c a = false -> after_char c (a ++ String c b) = b.
Proof.
  induction a as [|x a IH].
  - intros _. rewrite sapp_nil_l. cbn [after_char].
    rewrite Ascii.eqb_refl. reflexivity.
  - cbn [contains_char]. intros [Hx Ha]%orb_false_elim.
    rewrite sapp_cons. cbn [after_char]. rewrite Hx. exact (IH Ha).
Qed.

End StringFacts.

Section ProxmarkFacts.

Local Open Scope string_scope.

Ltac snorm :=
  repeat first [rewrite sapp_assoc | rewrite sapp_cons | rewrite sapp_nil_l].

Lemma hexish_plain c :
  hexish c = true ->
  PyText.isspace c = false /\ is_linebreak c = false
  /\ Ascii.eqb c " " = false.
Proof.
  destruct c as [[] [] [] [] [] [] [] []]; intros H;
    first [discriminate H | repeat split].
Qed.

Lemma hex_byte_digits b :
  exists h l, hex_byte_upper b = String h (String l "")
              /\ hexish h = true /\ hexish l = true.
Proof. destruct b; do 2 eexists; repeat split. Qed.

Lemma proxmark3_hex_cons b b' B :
  proxmark3_hex (b :: b' :: B)
  = hex_byte_upper b ++ String " " (proxmark3_hex (b' :: B)).
Proof. reflexivity. Qed.

Lemma proxmark3_hex_one b : proxmark3_hex [b] = hex_byte_upper b.
Proof. reflexivity. Qed.

Lemma remove_space_proxmark3_hex B :
  remove_char " " (proxmark3_hex B) = hex_upper B.
Proof.
  induction B as [|b [|b' B] IH]; [reflexivity| |].
  - rewrite proxmark3_hex_one.
    rewrite <- (sapp_nil_r (hex_byte_upper b)) at 1.
    rewrite remove_space_hex_byte, hex_upper_cons. reflexivity.
  - rewrite proxmark3_hex_cons, remove_space_hex_byte.
    cbn [remove_char]. change (Ascii.eqb " " " ") with true. cbv iota.
    rewrite IH, (hex_upper_cons b). reflexivity.
Qed.

Lemma length_hex_upper B : String.length (hex_upper B) = (2 * length B)%nat.
Proof.
  induction B as [|b B IH]; [reflexivity|].
  rewrite hex_upper_cons, slength_app, IH.
  destruct (hex_byte_digits b) as (h & l & -> & _). cbn [String.length length].
  lia.
Qed.

Lemma framed_proxmark3_hex b B : framed (proxmark3_hex (b :: B)).
Proof.
  revert b. induction B as [|b' B IH]; intros b;
    destruct (hex_byte_digits b) as (h & l & Hb & Hh & Hl);
    destruct (hexish_plain h Hh) as (Hh1 & _);
    destruct (hexish_plain l Hl) as (Hl1 & _).
  - rewrite proxmark3_hex_one, Hb. exists h, "", l. repeat split; assumption.
  - rewrite proxmark3_hex_cons, Hb.
    destruct (IH b') as (c & m & d & -> & Hc & Hd).
    exists h, (String l (String " " (String c m))), d.
    split; [|split; assumption].
    snorm. reflexivity.
Qed.

Lemma one_line_proxmark3_hex B : one_line (proxmark3_hex B) = true.
Proof.
  induction B as [|b [|b' B] IH]; [reflexivity| |];
    destruct (hex_byte_digits b) as (h & l & Hb & Hh & Hl);
    destruct (hexish_plain h Hh) as (_ & Hh1 & _);
    destruct (hexish_plain l Hl) as (_ & Hl1 & _).
  - rewrite proxmark3_hex_one, Hb. cbn [one_line]. rewrite Hh1, Hl1.
    reflexivity.
  - rewrite proxmark3_hex_cons, Hb, !sapp_cons, sapp_nil_l.
    cbn [one_line]. rewrite Hh1, Hl1, IH. reflexivity.
Qed.

Lemma label_ok_all i : (i < 64)%nat -> label_ok i = true.
Proof.
  apply below_64. vm_compute. reflexivity.
Qed.

Lemma strip_space_framed s : framed s -> PyText.strip (String " " s) = s.
Proof.
  intros H. rewrite <- (strip_framed s H) at 2. reflexivity.
Qed.

Lemma proxmark3_text_framed i b B : framed (proxmark3_text i (b :: B)).
Proof.
  destruct (framed_proxmark3_hex b B) as (c & m & d & E & Hc & Hd).
  unfold proxmark3_text. rewrite E.
  exists "B"%char, ("lock " ++ dec2 i ++ ": " ++ String c m), d.
  split; [|split; [reflexivity|exact Hd]].
  snorm. reflexivity.
Qed.

(** The loop body on a line that [build_proxmark3_dump] wrote. *)
Lemma proxmark3_line_text blocks i B :
  (i < 64)%nat -> length B = 16%nat ->
  proxmark3_line blocks (proxmark3_text i B) = Ok (blocks ++ [B])%list.
Proof.
  intros Hi HB. destruct B as [|b B]; [discriminate HB|].
  pose proof (label_ok_all i Hi) as Hlab. unfold label_ok in Hlab.
  apply andb_prop in Hlab as [_ Hcolon]. apply negb_true_iff in Hcolon.
  unfold proxmark3_line.
  rewrite (strip_framed _ (proxmark3_text_framed i b B)).
  assert (Hform : proxmark3_text i (b :: B)
                  = ("Block " ++ dec2 i)
                    ++ String ":" (String " " (proxmark3_hex (b :: B)))).
  { unfold proxmark3_text. snorm. reflexivity. }
  assert (Hlen : (String.length (proxmark3_text i (b :: B)) =? 0)%nat = false).
  { reflexivity. }
  rewrite Hlen.
  assert (Hst : startswith (proxmark3_text i (b :: B)) "#" = false)
    by reflexivity.
  assert (H1 : contains_char ":" (proxmark3_text i (b :: B)) = true).
  { rewrite Hform, contains_char_app. cbn [contains_char].
    rewrite Ascii.eqb_refl. apply orb_true_r. }
  assert (H2 : after_char ":" (proxmark3_text i (b :: B))
               = String " " (proxmark3_hex (b :: B))).
  { rewrite Hform. apply after_char_app, Hcolon. }
  rewrite Hst. cbn [orb]. rewrite H1, H2.
  rewrite (strip_space_framed _ (framed_proxmark3_hex b B)).
  rewrite remove_space_proxmark3_hex, length_hex_upper, HB.
  change (2 * 16 =? 32)%nat with true. cbv iota.
  rewrite fromhex_hex_upper. reflexivity.
Qed.

Lemma proxmark3_text_line i b B :
  (i < 64)%nat ->
  one_line (proxmark3_text i (b :: B)) = true
  /\ proxmark3_text i (b :: B) <> "".
Proof.
  intros Hi. split; [|discriminate].
  pose proof (label_ok_all i Hi) as Hlab. unfold label_ok in Hlab.
  apply andb_prop in Hlab as [Hone _].
  unfold proxmark3_text.
  rewrite <- !sapp_assoc. rewrite one_line_app.
  rewrite !sapp_assoc. rewrite Hone. apply one_line_proxmark3_hex.
Qed.

Lemma proxmark3_fold n blocks acc :
  (n + length blocks <= 64)%nat ->
  Forall (fun B => length B = 16%nat) blocks ->
  fold_left (fun acc line => let* bs := acc in proxmark3_line bs line)
            (imap (fun i B => proxmark3_text (n + i) B) blocks) (Ok acc)
  = Ok (acc ++ blocks)%list.
Proof.
  intros Hn H. revert n acc Hn.
  induction H as [|B blocks HB _ IH]; intros n acc Hn.
  - cbn. rewrite app_nil_r. reflexivity.
  - rewrite imap_cons. cbn [fold_left Py.bind length] in *.
    rewrite Nat.add_0_r.
    rewrite proxmark3_line_text by (exact HB || lia).
    rewrite (imap_ext _ (fun i B => proxmark3_text (S n + i) B))
      by (intros; cbn; f_equal; lia).
    rewrite IH by lia. rewrite <- app_assoc. reflexivity.
Qed.

Lemma build_proxmark3_eq fd :
  build_proxmark3_dump fd
  = let* blocks := build_tag_blocks fd in
    Ok (String.concat (String "010" "") (imap proxmark3_text blocks)).
Proof. reflexivity. Qed.

(** Parsing a dump of 64 blocks of 16 bytes. *)
Lemma parse_proxmark3_text out :
  valid_image out = true ->
  parse_proxmark3_dump
    (String.concat (String "010" "") (imap proxmark3_text out))
  = parse_tag_dump out.
Proof.
  intros Hv. destruct (valid_image_Forall out Hv) as [Hl Hall].
  destruct out as [|B0 out']; [discriminate Hl|].
  set (lines := imap proxmark3_text (B0 :: out')).
  assert (Hlines : Forall (fun l => framed l /\ one_line l = true /\ l <> "")
                          lines).
  { subst lines. apply Forall_forall. intros l Hin.
    apply list_elem_of_lookup_1 in Hin as [i Hi].
    rewrite list_lookup_imap in Hi.
    destruct ((B0 :: out') !! i) as [B|] eqn:EB; [|discriminate Hi].
    injection Hi as <-.
    pose proof (lookup_lt_Some _ _ _ EB) as Hlt. rewrite Hl in Hlt.
    assert (HB : length B = 16%nat).
    { rewrite Forall_forall in Hall. apply Hall.
      eapply list_elem_of_lookup_2, EB. }
    destruct B as [|b B]; [discriminate HB|].
    split; [apply proxmark3_text_framed|apply proxmark3_text_line, Hlt]. }
  assert (Hne : exists l ls, lines = l :: ls)
    by (subst lines; rewrite imap_cons; eauto).
  destruct Hne as (l & ls & El). rewrite El in Hlines |- *.
  unfold parse_proxmark3_dump.
  rewrite strip_framed
    by (apply framed_concat; eapply Forall_impl; [exact Hlines|];
        intros ? H; apply H).
  rewrite splitlines_concat
    by (eapply Forall_impl; [exact Hlines|]; intros ? H; apply H).
  rewrite <- El. subst lines.
  change (imap proxmark3_text (B0 :: out'))
    with (imap (fun i B => proxmark3_text (0 + i) B) (B0 :: out')).
  rewrite (proxmark3_fold 0 (B0 :: out') []) by (rewrite ?Hl; assumption || lia).
  cbn [Py.bind app]. rewrite Hl. reflexivity.
Qed.

End ProxmarkFacts.

Section ChunkFacts.

Lemma chunks_shift (data : bytes) n :
  map (fun i => slice data (S i * 16) ((S i + 1) * 16)) (seq 0 n)
  = map (fun i => slice (drop 16 data) (i * 16) ((i + 1) * 16)) (seq 0 n).
Proof.
  apply map_ext. intros i. unfold slice. rewrite drop_drop.
  replace ((S i + 1) * 16 - S i * 16)%nat with ((i + 1) * 16 - i * 16)%nat
    by lia.
  replace (16 + i * 16)%nat with (S i * 16)%nat by lia. reflexivity.
Qed.

Lemma concat_chunks n (data : bytes) :
  length data = (16 * n)%nat ->
  concat (map (fun i => slice data (i * 16) ((i + 1) * 16)) (seq 0 n)) = data.
Proof.
  revert data. induction n as [|n IH]; intros data Hl.
  - destruct data; [reflexivity|discriminate Hl].
  - cbn [seq map concat]. rewrite <- seq_shift, map_map, chunks_shift.
    rewrite IH by (rewrite length_drop; lia).
    unfold slice. cbn [Nat.mul Nat.add Nat.sub drop]. apply take_drop.
Qed.

Lemma chunks_valid (data : bytes) :
  length data = 1024%nat ->
  valid_image (map (fun i => slice data (i * 16) ((i + 1) * 16)) (seq 0 64))
  = true.
Proof.
  intros Hl. unfold valid_image. rewrite length_map, length_seq.
  cbn [Nat.eqb andb]. apply forallb_forall. intros x Hx.
  apply in_map_iff in Hx as (i & <- & Hi). apply in_seq in Hi.
  apply Nat.eqb_eq. rewrite length_slice, Hl. lia.
Qed.

Lemma parse_from_binary_eq data :
  parse_from_binary data
  = if (length data =? 1024)%nat
    then Ok (parsed_record
               (map (fun i => slice data (i * 16) ((i + 1) * 16)) (seq 0 64)))
    else Raise ValueError.
Proof.
  unfold parse_from_binary.
  change Mifare.TOTAL_BYTES with 1024%nat.
  change Mifare.TOTAL_BLOCKS with 64%nat.
  change Mifare.BYTES_PER_BLOCK with 16%nat.
  destruct (Nat.eqb_spec (length data) 1024) as [Hl|Hl]; cbn [negb];
    [|reflexivity].
  rewrite parse_tag_dump_eq, chunks_valid by exact Hl. reflexivity.
Qed.

End ChunkFacts.

Import KdfHex TagAuth.

Section KdfHexFacts.

Local Open Scope string_scope.

Lemma derive_keys_eq uid :
  derive_keys uid
  = Ok (map (fun i => slice (_HKDF_expand (_HKDF_extract MASTER_KEY uid)
                                          CONTEXT 96)
                            (6 * i) (6 * i + 6)) (seq 0 16)).
Proof. reflexivity. Qed.

Lemma derive_keys_Ok uid :
  exists keys, derive_keys uid = Ok keys
               /\ length keys = 16%nat
               /\ Forall (fun k => length k = 6%nat) keys.
Proof.
  rewrite derive_keys_eq. eexists. split; [reflexivity|].
  split; [reflexivity|].
  apply Forall_forall. intros k Hk. apply list_elem_of_In, in_map_iff in Hk.
  destruct Hk as (i & <- & Hi). apply in_seq in Hi.
  rewrite length_slice, length_HKDF_expand. lia.
Qed.

(** [fromhex] fails with ValueError only. *)
Lemma fromhex_Raise s e : fromhex s = Raise e -> e = ValueError.
Proof.
  remember (String.length s) as n eqn:Hn. revert s Hn.
  induction n as [n IH] using lt_wf_ind. intros s Hn.
  destruct s as [|c s]; [discriminate|].
  cbn [fromhex]. destruct (is_ascii_space c).
  - apply (IH (String.length s)); [subst n; cbn; lia|reflexivity].
  - destruct s as [|d s]; [intros [= <-]; reflexivity|].
    destruct (hex_value c); [|intros [= <-]; reflexivity].
    destruct (hex_value d); [|intros [= <-]; reflexivity].
    destruct (Byte.of_N _); [|intros [= <-]; reflexivity].
    destruct (fromhex s) as [bs|e'] eqn:E; [discriminate|].
    cbn [Py.bind]. intros [= <-].
    apply (IH (String.length s) ltac:(subst n; cbn; lia) s eq_refl E).
Qed.

(** An upper-case hexadecimal digit. *)
Lemma hex_upper_chars B :
  forallb upper_hexish (list_ascii_of_string (hex_upper B)) = true.
Proof.
  induction B as [|b B IH]; [reflexivity|].
  rewrite hex_upper_cons, s2l_app, forallb_app, IH, andb_true_r.
  destruct b; reflexivity.
Qed.

Lemma fromhex_hex_lower_byte b rest :
  fromhex (hex [b] ++ rest)
  = let* bs := fromhex rest in Ok (b :: bs).
Proof. destruct b; reflexivity. Qed.

Lemma hex_cons b data : hex (b :: data) = hex [b] ++ hex data.
Proof.
  unfold hex. cbn [map]. destruct data as [|b' data].
  - cbn [map String.concat]. rewrite sapp_nil_r. reflexivity.
  - cbn [String.concat map]. reflexivity.
Qed.

Lemma fromhex_hex data : fromhex (hex data) = Ok data.
Proof.
  induction data as [|b data IH]; [reflexivity|].
  rewrite hex_cons, fromhex_hex_lower_byte, IH. reflexivity.
Qed.

Lemma map_key_hex_imap keys n :
  map key_hex (imap (fun i k => {| sector := n + i; key := k;
                                   key_hex := hex_upper k |}) keys)
  = map hex_upper keys.
Proof.
  revert n. induction keys as [|k keys IH]; intros n; [reflexivity|].
  rewrite imap_cons. cbn [map key_hex]. f_equal.
  rewrite <- (IH (S n)). f_equal. apply imap_ext. intros i x _.
  cbn. f_equal. lia.
Qed.

End KdfHexFacts.

Section BridgeMore.

Import Bridge.

Lemma fut_done_lookup h f s : h !! f = Some s -> fut_done h f = done s.
Proof. intros H. unfold fut_done. rewrite H. reflexivity. Qed.

(** The two loops over the pending futures: every future of the table
    that is not done gets the value [v]. *)
Section Settle.

Context (v : future_state) (Hv : done v = true).
Context (F : string -> nat -> list future_state -> list future_state).
Context (HF : forall i x r,
            F i x r = if fut_done r x then r else <[x := v]> r).

Lemma settle_spec (t : gmap string nat) (h : list future_state) :
  let r := map_fold F h t in
  length r = length h
  /\ (forall g s, h !! g = Some s -> done s = true -> r !! g = Some s)
  /\ (forall g, h !! g = Some FPending ->
                r !! g = Some FPending \/ r !! g = Some v)
  /\ (forall rid g, t !! rid = Some g -> h !! g = Some FPending ->
                    r !! g = Some v)
  /\ (forall g, (forall rid, t !! rid <> Some g) -> r !! g = h !! g).
Proof.
  cbv zeta.
  apply (map_fold_weak_ind
           (fun r (t : gmap string nat) =>
              length r = length h
              /\ (forall g s, h !! g = Some s -> done s = true ->
                              r !! g = Some s)
              /\ (forall g, h !! g = Some FPending ->
                            r !! g = Some FPending \/ r !! g = Some v)
              /\ (forall rid g, t !! rid = Some g -> h !! g = Some FPending ->
                                r !! g = Some v)
              /\ (forall g, (forall rid, t !! rid <> Some g) ->
                            r !! g = h !! g))).
  - split; [reflexivity|]. split; [intros g s Hg _; exact Hg|].
    split; [intros g Hg; left; exact Hg|].
    split; [|reflexivity].
    intros rid g Hr. rewrite lookup_empty in Hr. discriminate Hr.
  - intros i x m r Hi (Hlen & Hdone & Hpend & Htab & Hout).
    rewrite HF.
    assert (Hcase : forall g,
               (if fut_done r x then r else <[x := v]> r) !! g
               = if decide (x = g)
                 then (if fut_done r x then r !! g
                       else if decide (g < length r)%nat then Some v else None)
                 else r !! g).
    { intros g. destruct (decide (x = g)) as [->|Hne].
      - destruct (fut_done r g) eqn:Ed; [reflexivity|].
        destruct (decide (g < length r)%nat) as [Hlt|Hge].
        + apply list_lookup_insert_eq, Hlt.
        + rewrite list_insert_ge by lia. apply lookup_ge_None_2. lia.
      - destruct (fut_done r x); [reflexivity|].
        apply list_lookup_insert_ne. exact Hne. }
    split; [|split; [|split; [|split]]].
    + destruct (fut_done r x); [exact Hlen|].
      rewrite length_insert. exact Hlen.
    + intros g s Hg Hs. rewrite Hcase. specialize (Hdone g s Hg Hs).
      destruct (decide (x = g)) as [->|_]; [|exact Hdone].
      rewrite (fut_done_lookup r g s Hdone), Hs. exact Hdone.
    + intros g Hg. rewrite Hcase.
      destruct (decide (x = g)) as [->|_]; [|exact (Hpend g Hg)].
      destruct (Hpend g Hg) as [Hp|Hp];
        rewrite (fut_done_lookup r g _ Hp).
      * cbn [done]. right.
        destruct (decide (g < length r)%nat) as [_|Hge]; [reflexivity|].
        apply lookup_lt_Some in Hp. lia.
      * rewrite Hv. right. exact Hp.
    + intros rid g Hr Hg. rewrite Hcase.
      destruct (decide (i = rid)) as [->|Hne].
      * rewrite lookup_insert_eq in Hr. injection Hr as ->.
        rewrite decide_True by reflexivity.
        destruct (Hpend g Hg) as [Hp|Hp];
          rewrite (fut_done_lookup r g _ Hp).
        -- cbn [done].
           destruct (decide (g < length r)%nat) as [_|Hge]; [reflexivity|].
           apply lookup_lt_Some in Hp. lia.
        -- rewrite Hv. exact Hp.
      * rewrite lookup_insert_ne in Hr by exact Hne.
        specialize (Htab rid g Hr Hg).
        destruct (decide (x = g)) as [->|_]; [|exact Htab].
        rewrite (fut_done_lookup r g _ Htab), Hv. exact Htab.
    + intros g Hno. rewrite Hcase.
      assert (Hxg : x <> g).
      { intros ->. apply (Hno i). apply lookup_insert_eq. }
      rewrite decide_False by exact Hxg. apply Hout.
      intros rid Hr. apply (Hno rid).
      destruct (decide (i = rid)) as [->|Hne]; [congruence|].
      rewrite lookup_insert_ne by exact Hne. exact Hr.
Qed.

End Settle.

Lemma cancel_pending_spec t h :
  let r := cancel_pending t h in
  length r = length h
  /\ (forall g s, h !! g = Some s -> done s = true -> r !! g = Some s)
  /\ (forall g, h !! g = Some FPending ->
                r !! g = Some FPending \/ r !! g = Some FCancelled)
  /\ (forall rid g, t !! rid = Some g -> h !! g = Some FPending ->
                    r !! g = Some FCancelled)
  /\ (forall g, (forall rid, t !! rid <> Some g) -> r !! g = h !! g).
Proof.
  apply (settle_spec FCancelled eq_refl).
  intros i x r. unfold fut_cancel. destruct (fut_done r x); reflexivity.
Qed.

Lemma fail_pending_spec e t h :
  let r := fail_pending e t h in
  length r = length h
  /\ (forall g s, h !! g = Some s -> done s = true -> r !! g = Some s)
  /\ (forall g, h !! g = Some FPending ->
                r !! g = Some FPending \/ r !! g = Some (FException e))
  /\ (forall rid g, t !! rid = Some g -> h !! g = Some FPending ->
                    r !! g = Some (FException e))
  /\ (forall g, (forall rid, t !! rid <> Some g) -> r !! g = h !! g).
Proof.
  apply (settle_spec (FException e) eq_refl). intros i x r. reflexivity.
Qed.

End BridgeMore.

Section BridgeInvariant.

Import Bridge.

Lemma slots_bounded_mono t c n c' n' :
  slots_bounded t c n -> (c <= c')%nat -> (n <= n')%nat ->
  slots_bounded t c' n'.
Proof.
  intros H Hc Hn rid f Hr. destruct (H rid f Hr) as [(k & -> & Hk) Hf].
  split; [exists k; split; [reflexivity|lia]|lia].
Qed.

Lemma slots_bounded_delete t c n rid :
  slots_bounded t c n -> slots_bounded (delete rid t) c n.
Proof.
  intros H r f Hr. apply lookup_delete_Some in Hr. apply (H r f), Hr.
Qed.

Lemma slots_bounded_empty c n : slots_bounded ∅ c n.
Proof. intros r f Hr. rewrite lookup_empty in Hr. discriminate Hr. Qed.

Lemma slots_bounded_insert t c n :
  slots_bounded t c n ->
  slots_bounded (<[pretty (c + 1)%nat := n]> t) (c + 1) (n + 1).
Proof.
  intros H r f Hr. apply lookup_insert_Some in Hr.
  destruct Hr as [[<- <-]|[_ Hr]].
  - split; [exists (c + 1)%nat; split; [reflexivity|lia]|lia].
  - apply (slots_bounded_mono t c n); [exact H|lia|lia|exact Hr].
Qed.

Lemma slots_bounded_fresh t c n :
  slots_bounded t c n -> t !! pretty (c + 1)%nat = None.
Proof.
  intros H. destruct (t !! pretty (c + 1)%nat) as [f|] eqn:E; [|reflexivity].
  destruct (H _ f E) as [(k & Hk & Hle) _].
  apply (inj pretty) in Hk. lia.
Qed.

Lemma wait_for_bounded timed_out f st st' r :
  wait_for timed_out f st = Some (st', r) ->
  _pending_reads st' = _pending_reads st
  /\ _pending_writes st' = _pending_writes st
  /\ _request_counter st' = _request_counter st
  /\ length (futures st') = length (futures st)
  /\ _on_tag_data st' = _on_tag_data st.
Proof.
  unfold wait_for. intros H.
  destruct (futures st !! f) as [[| | |]|]; try discriminate H;
    try (injection H as <- _; repeat split).
  destruct timed_out; [|discriminate H]. injection H as <- _.
  repeat split. cbn. unfold fut_cancel.
  destruct (fut_done _ _); [reflexivity|apply length_insert].
Qed.

Lemma ids_bounded_eq st st' :
  ids_bounded st ->
  _request_counter st' = _request_counter st ->
  length (futures st') = length (futures st) ->
  _on_tag_data st' = _on_tag_data st ->
  (forall r f, _pending_reads st' !! r = Some f ->
               _pending_reads st !! r = Some f) ->
  (forall r f, _pending_writes st' !! r = Some f ->
               _pending_writes st !! r = Some f) ->
  ids_bounded st'.
Proof.
  intros (Hr & Hw & Hc) Ec El Eo Sr Sw. unfold ids_bounded.
  rewrite Ec, El, Eo. split; [|split; [|exact Hc]].
  - intros r f H. apply (Hr r f), Sr, H.
  - intros r f H. apply (Hw r f), Sw, H.
Qed.

Lemma handle_message_bounded data st st' :
  handle_message data st = Ok st' -> ids_bounded st -> ids_bounded st'.
Proof.
  unfold handle_message. intros H Hb.
  destruct (String.eqb (get data "action" "") "TAG_DATA").
  { destruct (_pending_reads st !! get data "request_id" "") as [f|] eqn:Es.
    - unfold fut_set_result in H. destruct (fut_done _ _); [discriminate H|].
      cbn [Py.bind] in H. injection H as <-.
      apply (ids_bounded_eq st); try reflexivity; try exact Hb.
      + cbn. apply length_insert.
      + cbn. intros r g Hr. apply lookup_delete_Some in Hr. apply Hr.
      + cbn. tauto.
    - destruct Hb as (Hr & Hw & Hc). rewrite Hc in H. injection H as <-.
      exact (conj Hr (conj Hw Hc)). }
  destruct (String.eqb (get data "action" "") "WRITE_RESULT").
  { destruct (_pending_writes st !! get data "request_id" "") as [f|] eqn:Es.
    - unfold fut_set_result in H. destruct (fut_done _ _); [discriminate H|].
      cbn [Py.bind] in H. injection H as <-.
      apply (ids_bounded_eq st); try reflexivity; try exact Hb.
      + cbn. apply length_insert.
      + cbn. tauto.
      + cbn. intros r g Hr. apply lookup_delete_Some in Hr. apply Hr.
    - injection H as <-. exact Hb. }
  destruct (String.eqb (get data "action" "") "TAG_DETECTED");
    [injection H as <-; exact Hb|].
  destruct (String.eqb (get data "action" "") "STATUS");
    [injection H as <-; exact Hb|].
  destruct (String.eqb (get data "action" "") "ERROR");
    [|injection H as <-; exact Hb].
  injection H as <-.
  apply (ids_bounded_eq st); try reflexivity; try exact Hb; try (cbn; tauto).
  cbn.
  rewrite (proj1 (fail_pending_spec _ _ _)).
  apply (proj1 (fail_pending_spec _ _ _)).
Qed.

Lemma reachable_bounded st : reachable st -> ids_bounded st.
Proof.
  induction 1 as [|ws st _ IH|st _ IH|data st st' _ IH H
                  |st st' rid f _ IH H|t rid f st st' r _ IH H
                  |p st st' rid f _ IH H|t rid f st st' r _ IH H].
  - split; [|split]; [apply slots_bounded_empty..|reflexivity].
  - apply (ids_bounded_eq st); try exact IH;
      unfold connect; destruct (_phone _); cbn; tauto.
  - destruct IH as (_ & _ & Hc).
    split; [|split]; [apply slots_bounded_empty..|exact Hc].
  - exact (handle_message_bounded data st st' H IH).
  - unfold request_read_send in H. destruct (_phone st); [|discriminate H].
    injection H as <- _ _. destruct IH as (Hr & Hw & Hc).
    unfold ids_bounded. cbn. rewrite length_app. cbn [length].
    split; [|split; [|exact Hc]].
    + apply slots_bounded_insert, Hr.
    + apply (slots_bounded_mono _ _ _ _ _ Hw); lia.
  - unfold request_read_resume in H.
    destruct (wait_for t f st) as [[st1 r1]|] eqn:E; [|discriminate H].
    destruct (wait_for_bounded _ _ _ _ _ E) as (E1 & E2 & E3 & E4 & E5).
    assert (Hst1 : ids_bounded st1).
    { apply (ids_bounded_eq st); try assumption.
      - rewrite E1. tauto.
      - rewrite E2. tauto. }
    destruct r1 as [m|e]; [injection H as <- _; exact Hst1|].
    destruct e; try (injection H as <- _; exact Hst1).
    injection H as <- _.
    apply (ids_bounded_eq st1); try reflexivity; try exact Hst1.
    + cbn. intros r0 g Hr. apply lookup_delete_Some in Hr. apply Hr.
    + cbn. tauto.
  - unfold request_write_send in H. destruct (_phone st); [|discriminate H].
    injection H as <- _ _. destruct IH as (Hr & Hw & Hc).
    unfold ids_bounded. cbn. rewrite length_app. cbn [length].
    split; [|split; [|exact Hc]].
    + apply (slots_bounded_mono _ _ _ _ _ Hr); lia.
    + apply slots_bounded_insert, Hw.
  - unfold request_write_resume in H.
    destruct (wait_for t f st) as [[st1 r1]|] eqn:E; [|discriminate H].
    destruct (wait_for_bounded _ _ _ _ _ E) as (E1 & E2 & E3 & E4 & E5).
    assert (Hst1 : ids_bounded st1).
    { apply (ids_bounded_eq st); try assumption.
      - rewrite E1. tauto.
      - rewrite E2. tauto. }
    destruct r1 as [m|e]; [injection H as <- _; exact Hst1|].
    destruct e; try (injection H as <- _; exact Hst1).
    injection H as <- _.
    apply (ids_bounded_eq st1); try reflexivity; try exact Hst1.
    + cbn. tauto.
    + cbn. intros r0 g Hr. apply lookup_delete_Some in Hr. apply Hr.
Qed.

End BridgeInvariant.

Section BridgeSteps.

Import Bridge.

Lemma get_lookup (data : message) key dflt v :
  data !! key = Some v -> get data key dflt = v.
Proof. intros H. unfold get. rewrite H. reflexivity. Qed.

Lemma send_spec (t : gmap string nat) (h : list future_state) c :
  slots_bounded t c (length h) ->
  let rid : string := pretty (c + 1)%nat in
  t !! rid = None
  /\ h !! length h = None
  /\ (h ++ [FPending]) !! length h = Some FPending
  /\ (forall r g, t !! r = Some g -> <[rid := length h]> t !! r = Some g)
  /\ (forall g s, h !! g = Some s -> (h ++ [FPending]) !! g = Some s).
Proof.
  intros Hb rid. pose proof (slots_bounded_fresh _ _ _ Hb) as Hf.
  split; [exact Hf|]. split; [apply lookup_ge_None_2; lia|].
  split; [apply list_lookup_middle; reflexivity|]. split.
  - intros r g Hr. rewrite lookup_insert_ne; [exact Hr|].
    intros <-. unfold rid in Hr. congruence.
  - intros g s Hg. apply lookup_app_l_Some, Hg.
Qed.

(** The waiter of a settled future. *)
Lemma resume_result timed_out rid f st data :
  futures st !! f = Some (FResult data) ->
  request_read_resume timed_out rid f st = Some (st, Ok data)
  /\ request_write_resume timed_out rid f st = Some (st, Ok data).
Proof.
  intros Hf. unfold request_read_resume, request_write_resume, wait_for.
  rewrite Hf. split; reflexivity.
Qed.

Lemma resume_cancelled timed_out rid f st :
  futures st !! f = Some FCancelled ->
  request_read_resume timed_out rid f st = Some (st, Raise CancelledError)
  /\ request_write_resume timed_out rid f st = Some (st, Raise CancelledError).
Proof.
  intros Hf. unfold request_read_resume, request_write_resume, wait_for.
  rewrite Hf. split; reflexivity.
Qed.

Lemma resume_exception timed_out rid f st msg :
  futures st !! f = Some (FException (Exception msg)) ->
  request_read_resume timed_out rid f st
  = Some (st, Raise (Exception msg))
  /\ request_write_resume timed_out rid f st
     = Some (st, Raise (Exception msg)).
Proof.
  intros Hf. unfold request_read_resume, request_write_resume, wait_for.
  rewrite Hf. split; reflexivity.
Qed.

Lemma disconnect_futures st :
  futures (disconnect st)
  = cancel_pending (_pending_writes st)
      (cancel_pending (_pending_reads st) (futures st)).
Proof. reflexivity. Qed.

Lemma error_futures data st :
  get data "action" "" = "ERROR"%string ->
  exists st',
    handle_message data st = Ok st'
    /\ futures st'
       = fail_pending (Exception (get data "message" "NFC error"))
           (_pending_writes st)
           (fail_pending (Exception (get data "message" "NFC error"))
              (_pending_reads st) (futures st))
    /\ _pending_reads st' = _pending_reads st
    /\ _pending_writes st' = _pending_writes st
    /\ _phone st' = _phone st
    /\ effects st' = effects st.
Proof.
  intros H. unfold handle_message. rewrite H.
  cbn [String.eqb Ascii.eqb Bool.eqb]. eexists. repeat split.
Qed.

(** Two settling loops in a row. *)
Lemma settle_twice (v : future_state)
  (F : gmap string nat -> list future_state -> list future_state)
  tr tw h f :
  done v = true ->
  (forall t h,
      let r := F t h in
      (forall g s, h !! g = Some s -> done s = true -> r !! g = Some s)
      /\ (forall g, h !! g = Some FPending ->
                    r !! g = Some FPending \/ r !! g = Some v)
      /\ (forall rid g, t !! rid = Some g -> h !! g = Some FPending ->
                        r !! g = Some v)) ->
  (exists rid, tr !! rid = Some f \/ tw !! rid = Some f) ->
  h !! f = Some FPending ->
  F tw (F tr h) !! f = Some v
  /\ (forall g s, h !! g = Some s -> done s = true ->
                  F tw (F tr h) !! g = Some s).
Proof.
  intros Hv HF (rid & Hs) Hf.
  destruct (HF tr h) as (D1 & P1 & T1). destruct (HF tw (F tr h)) as (D2 & P2 & T2).
  split.
  - destruct Hs as [Hs|Hs].
    + apply (D2 f v); [|exact Hv]. apply (T1 rid f Hs Hf).
    + destruct (P1 f Hf) as [Hp|Hp].
      * apply (T2 rid f Hs Hp).
      * apply (D2 f v Hp Hv).
  - intros g s Hg Hd. apply D2; [|exact Hd]. apply D1; assumption.
Qed.

Lemma cancel_twice tr tw h f :
  (exists rid, tr !! rid = Some f \/ tw !! rid = Some f) ->
  h !! f = Some FPending ->
  cancel_pending tw (cancel_pending tr h) !! f = Some FCancelled
  /\ (forall g s, h !! g = Some s -> done s = true ->
                  cancel_pending tw (cancel_pending tr h) !! g = Some s).
Proof.
  apply (settle_twice FCancelled cancel_pending);
    [reflexivity|].
  intros t h0. pose proof (cancel_pending_spec t h0) as H. cbv zeta in *.
  tauto.
Qed.

Lemma fail_twice e tr tw h f :
  (exists rid, tr !! rid = Some f \/ tw !! rid = Some f) ->
  h !! f = Some FPending ->
  fail_pending e tw (fail_pending e tr h) !! f = Some (FException e)
  /\ (forall g s, h !! g = Some s -> done s = true ->
                  fail_pending e tw (fail_pending e tr h) !! g = Some s).
Proof.
  apply (settle_twice (FException e) (fail_pending e));
    [reflexivity|].
  intros t h0. pose proof (fail_pending_spec e t h0) as H. cbv zeta in *.
  tauto.
Qed.

Lemma handle_unsolicited data st :
  _on_tag_data st = false ->
  get data "action" "" <> "ERROR"%string ->
  (get data "action" "" = "TAG_DATA"%string ->
   _pending_reads st !! get data "request_id" "" = None) ->
  (get data "action" "" = "WRITE_RESULT"%string ->
   _pending_writes st !! get data "request_id" "" = None) ->
  handle_message data st = Ok st.
Proof.
  intros Hc He Hr Hw. unfold handle_message.
  destruct (String.eqb_spec (get data "action" "") "TAG_DATA") as [E|_].
  { rewrite (Hr E), Hc. reflexivity. }
  destruct (String.eqb_spec (get data "action" "") "WRITE_RESULT") as [E|_].
  { rewrite (Hw E). reflexivity. }
  destruct (String.eqb_spec (get data "action" "") "TAG_DETECTED") as [_|_];
    [reflexivity|].
  destruct (String.eqb_spec (get data "action" "") "STATUS") as [_|_];
    [reflexivity|].
  destruct (String.eqb_spec (get data "action" "") "ERROR") as [E|_];
    [contradiction|reflexivity].
Qed.

End BridgeSteps.

Section DumpFacts.

Import Catalog.









End DumpFacts.

Section SortFacts.

Import Catalog.

#[local] Instance str_le_total : Total str_le.
Proof. exact String.le_total. Qed.

#[local] Instance str_le_trans : Transitive str_le.
Proof. intros x y z. apply (transitivity (R := String.le)). Qed.

Lemma sorted_strings_spec l :
  NoDup l ->
  StronglySorted str_le (sorted_strings l)
  /\ NoDup (sorted_strings l)
  /\ forall s, s ∈ sorted_strings l <-> s ∈ l.
Proof.
  intros Hnd. unfold sorted_strings.
  pose proof (merge_sort_Permutation str_le l) as Hp.
  split; [|split].
  - apply StronglySorted_merge_sort; apply _.
  - rewrite Hp. exact Hnd.
  - intros s. rewrite Hp. reflexivity.
Qed.

Lemma sorted_items_spec {V} (l : list (string * V)) :
  StronglySorted str_le (map fst (sorted_items l))
  /\ sorted_items l ≡ₚ l.
Proof.
  unfold sorted_items. split; [|apply merge_sort_Permutation].
  apply Sorted_StronglySorted; [apply _|].
  assert (Htot : Total (fun a b : string * V => str_le (fst a) (fst b))).
  { intros a b. apply str_le_total. }
  pose proof (Sorted_merge_sort
                (fun a b : string * V => str_le (fst a) (fst b)) l) as Hs.
  induction Hs as [|a l' Hs IH Hd]; [constructor|].
  cbn [map]. constructor; [exact IH|].
  destruct Hd as [|b l'' Hab]; constructor. exact Hab.
Qed.

End SortFacts.

Section IndexFacts.

Import Catalog.

(** One turn of the loop of [_build_material_index]. *)
Lemma index_step (m : gmap string (gset string)) e :
  (let m' := match m !! material e with
             | None => <[material e := ∅]> m
             | Some _ => m
             end in
   <[material e := {[subtype e]} ∪ default ∅ (m' !! material e)]> m')
  = <[material e := {[subtype e]} ∪ default ∅ (m !! material e)]> m.
Proof.
  cbv zeta. destruct (m !! material e) as [X|] eqn:E.
  - rewrite E. reflexivity.
  - rewrite lookup_insert_eq, insert_insert_eq. reflexivity.
Qed.

Lemma index_fold es : forall (m : gmap string (gset string)) k,
  match foldl (fun m e =>
                 let m := match m !! material e with
                          | None => <[material e := ∅]> m
                          | Some _ => m
                          end in
                 <[material e := {[subtype e]}
                                 ∪ default ∅ (m !! material e)]> m) m es !! k
  with
  | Some X =>
      (is_Some (m !! k) \/ exists e, e ∈ es /\ material e = k)
      /\ forall s, s ∈ X <->
                   s ∈ default ∅ (m !! k)
                   \/ exists e, e ∈ es /\ material e = k /\ subtype e = s
  | None => m !! k = None /\ forall e, e ∈ es -> material e <> k
  end.
Proof.
  induction es as [|e es IH]; intros m k.
  - cbn [foldl]. destruct (m !! k) as [X|] eqn:E.
    + split; [left; eexists; reflexivity|]. intros s. cbn [from_option Datatypes.id].
      split; [tauto|]. intros [H|(e & He & _)]; [exact H|].
      apply elem_of_nil in He. destruct He.
    + split; [reflexivity|]. intros e He. apply elem_of_nil in He.
      destruct He.
  - cbn [foldl]. rewrite index_step.
    specialize (IH (<[material e := {[subtype e]}
                                    ∪ default ∅ (m !! material e)]> m) k).
    destruct (foldl _ _ es !! k) as [X|].
    + destruct IH as [Hex HS]. split.
      * destruct Hex as [Hm|(e' & He' & Hk)].
        -- destruct (decide (material e = k)) as [Ek|Nk].
           ++ right. exists e. split; [left|exact Ek].
           ++ rewrite lookup_insert_ne in Hm by exact Nk. left. exact Hm.
        -- right. exists e'. split; [right; exact He'|exact Hk].
      * intros s. rewrite HS. destruct (decide (material e = k)) as [Ek|Nk].
        -- subst k. rewrite lookup_insert_eq. cbn [from_option Datatypes.id].
           rewrite elem_of_union, elem_of_singleton. split.
           ++ intros [[->|H]|(e' & He' & Hk & Hs)].
              ** right. exists e. split; [left|split; reflexivity].
              ** left. exact H.
              ** right. exists e'. split; [right; exact He'|split; assumption].
           ++ intros [H|(e' & He' & Hk & Hs)]; [left; right; exact H|].
              apply elem_of_cons in He' as [->|He'].
              ** left. left. symmetry. exact Hs.
              ** right. exists e'. split; [exact He'|split; assumption].
        -- rewrite lookup_insert_ne by exact Nk. split.
           ++ intros [H|(e' & He' & Hk & Hs)]; [left; exact H|].
              right. exists e'. split; [right; exact He'|split; assumption].
           ++ intros [H|(e' & He' & Hk & Hs)]; [left; exact H|].
              apply elem_of_cons in He' as [->|He']; [contradiction|].
              right. exists e'. split; [exact He'|split; assumption].
    + destruct IH as [Hm Hno].
      destruct (decide (material e = k)) as [Ek|Nk].
      * subst k. rewrite lookup_insert_eq in Hm. discriminate Hm.
      * rewrite lookup_insert_ne in Hm by exact Nk. split; [exact Hm|].
        intros e' He'. apply elem_of_cons in He' as [->|He'];
          [exact Nk|apply Hno, He'].
Qed.

End IndexFacts.

Section QueryFacts.

Import Catalog.

Lemma colors_fold material_ subtype_ es : forall (X : gset string) c,
  c ∈ foldl (fun colors e =>
               if String.eqb (material e) material_
                  && String.eqb (subtype e) subtype_
               then {[color e]} ∪ colors
               else colors) X es
  <-> c ∈ X \/ exists e, e ∈ es /\ material e = material_
                         /\ subtype e = subtype_ /\ color e = c.
Proof.
  induction es as [|e es IH]; intros X c.
  - cbn [foldl]. split; [tauto|]. intros [H|(e & He & _)]; [exact H|].
    apply elem_of_nil in He. destruct He.
  - cbn [foldl]. rewrite IH.
    destruct (String.eqb_spec (material e) material_) as [Em|Nm];
      [destruct (String.eqb_spec (subtype e) subtype_) as [Es|Ns]|];
      cbn [andb].
    + rewrite elem_of_union, elem_of_singleton. split.
      * intros [[->|H]|(e' & He' & H)].
        -- right. exists e. split; [left|]. repeat split; assumption.
        -- left. exact H.
        -- right. exists e'. split; [right; exact He'|exact H].
      * intros [H|(e' & He' & H)]; [left; right; exact H|].
        apply elem_of_cons in He' as [->|He'].
        -- left. left. symmetry. apply H.
        -- right. exists e'. split; [exact He'|exact H].
    + split.
      * intros [H|(e' & He' & H)]; [left; exact H|].
        right. exists e'. split; [right; exact He'|exact H].
      * intros [H|(e' & He' & H)]; [left; exact H|].
        apply elem_of_cons in He' as [->|He']; [tauto|].
        right. exists e'. split; [exact He'|exact H].
    + split.
      * intros [H|(e' & He' & H)]; [left; exact H|].
        right. exists e'. split; [right; exact He'|exact H].
      * intros [H|(e' & He' & H)]; [left; exact H|].
        apply elem_of_cons in He' as [->|He']; [tauto|].
        right. exists e'. split; [exact He'|exact H].
Qed.

Lemma prefix_spec q s :
  String.prefix q s = true <-> exists b : string, s = (q ++ b)%string.
Proof.
  revert s. induction q as [|c q IH]; intros s.
  - split; [|intros _; destruct s; reflexivity]. intros _. exists s.
    rewrite sapp_nil_l. reflexivity.
  - destruct s as [|d s].
    + cbn [String.prefix]. split; [discriminate|]. intros [b Hb].
      rewrite sapp_cons in Hb. discriminate Hb.
    + cbn [String.prefix]. destruct (Ascii.ascii_dec c d) as [->|Hne].
      * rewrite IH. split; intros [b Hb]; exists b.
        -- rewrite sapp_cons, Hb. reflexivity.
        -- rewrite sapp_cons in Hb. injection Hb as ->. reflexivity.
      * split; [discriminate|]. intros [b Hb]. rewrite sapp_cons in Hb.
        injection Hb as -> _. contradiction.
Qed.

Lemma contains_unfold q s :
  contains q s
  = String.prefix q s
    || match s with
       | EmptyString => false
       | String _ rest => contains q rest
       end.
Proof. destruct s; reflexivity. Qed.

Lemma contains_spec q s : contains q s = true <-> occurs_in q s.
Proof.
  unfold occurs_in. split.
  - induction s as [|c s IH]; rewrite contains_unfold; intros H;
      apply orb_true_iff in H as [H|H].
    + apply prefix_spec in H as [b Hb]. exists ""%string, b.
      rewrite sapp_nil_l. exact Hb.
    + discriminate H.
    + apply prefix_spec in H as [b Hb]. exists ""%string, b.
      rewrite sapp_nil_l. exact Hb.
    + destruct (IH H) as (a & b & ->). exists (String c a), b.
      rewrite sapp_cons. reflexivity.
  - intros (a & b & ->). induction a as [|c a IH]; rewrite contains_unfold.
    + rewrite sapp_nil_l. apply orb_true_iff. left. apply prefix_spec.
      exists b. reflexivity.
    + rewrite sapp_cons. apply orb_true_iff. right. exact IH.
Qed.

Lemma lower_char_idem c : lower_char (lower_char c) = lower_char c.
Proof.
  destruct c as [[] [] [] [] [] [] [] []]; vm_compute; reflexivity.
Qed.

Lemma lower_lower s : lower (lower s) = lower s.
Proof.
  induction s as [|c s IH]; [reflexivity|].
  cbn [lower]. rewrite lower_char_idem, IH. reflexivity.
Qed.

Lemma sublist_List_filter {A} (p : A -> bool) l :
  sublist (List.filter p l) l.
Proof.
  induction l as [|x l IH]; [constructor|]. cbn [List.filter].
  destruct (p x); [apply sublist_skip|apply sublist_cons]; exact IH.
Qed.

(** One filter of [search]. *)
Lemma stage_spec (o : option string) (p : string -> TagEntry -> bool) l e :
  e ∈ match given o with
      | Some x => List.filter (p x) l
      | None => l
      end
  <-> e ∈ l /\ forall x, o = Some x -> x <> ""%string -> p x e = true.
Proof.
  destruct o as [[|c x]|]; cbn [given].
  - split; [|tauto]. intros H. split; [exact H|].
    intros x Hx Hne. injection Hx as <-. contradiction.
  - rewrite !list_elem_of_In, filter_In. split.
    + intros [H1 H2]. split; [exact H1|]. intros x' Hx _.
      injection Hx as <-. exact H2.
    + intros [H1 H2]. split; [exact H1|]. apply H2; [reflexivity|discriminate].
  - split; [|tauto]. intros H. split; [exact H|]. discriminate.
Qed.

Lemma stage_sublist (o : option string) (p : string -> TagEntry -> bool) l :
  sublist match given o with
          | Some x => List.filter (p x) l
          | None => l
          end l.
Proof. destruct (given o); [apply sublist_List_filter|reflexivity]. Qed.

Lemma stage_lower {A} (o : option string) (F : string -> A) (G : A) :
  match given (lower <$> o) with Some x => F (lower x) | None => G end
  = match given o with Some x => F (lower x) | None => G end.
Proof.
  destruct o as [[|c x]|]; [reflexivity| |reflexivity].
  cbn [fmap option_fmap option_map lower given].
  rewrite lower_char_idem, lower_lower. reflexivity.
Qed.

End QueryFacts.

(** ** Field codec: properties beyond the claims *)

(** X1.  [parse_tag_dump] accepts exactly the lists of 64 blocks of 16
    bytes and raises ValueError on every other list, never a struct
    error.  The record it returns keeps the image as its raw blocks; its
    byte fields have the widths of the layout (UID 4, manufacturer data
    12, colour 4, X-cam 12, signature 256), its ten integer fields are
    within 0..65535 and its seven text fields are no longer than their
    byte ranges. *)
Theorem parse_tag_dump_accepts b :
  match parse_tag_dump b with
  | Ok fd =>
      valid_image b = true /\ raw_blocks fd = b
      /\ length (BambuFormat.uid fd) = 4%nat
      /\ length (manufacturer_data fd) = 12%nat
      /\ length (color_rgba fd) = 4%nat
      /\ length (xcam_info fd) = 12%nat
      /\ length (rsa_signature fd) = 256%nat
      /\ Forall (fun z => 0 <= z <= 65535)
           [spool_weight_g fd; drying_temp_c fd; drying_time_h fd;
            bed_temp_type fd; bed_temp_c fd; max_hotend_temp_c fd;
            min_hotend_temp_c fd; filament_length_m fd; color_format fd;
            color_count fd]
      /\ (length (material_variant_id fd) <= 8)%nat
      /\ (length (material_id fd) <= 8)%nat
      /\ Forall (fun s : str => (length s <= 16)%nat)
           [filament_type fd; detailed_filament_type fd; tray_uid fd;
            production_datetime fd; short_production_datetime fd]
  | Raise e => e = ValueError /\ valid_image b = false
  end.
Proof.
  rewrite parse_tag_dump_eq. destruct (valid_image b) eqn:Hv;
    [|split; reflexivity].
  pose proof (valid_image_shaped b Hv) as Hb.
  assert (Hl : forall k i j, (k < 64)%nat -> (i <= j <= 16)%nat ->
                 length (slice (blk b k) i j) = (j - i)%nat).
  { intros k i j Hk Hij. apply length_slice_in.
    rewrite (proj2 Hb) by exact Hk. exact Hij. }
  cbn [parsed_record raw_blocks BambuFormat.uid manufacturer_data color_rgba
       xcam_info rsa_signature spool_weight_g drying_temp_c drying_time_h
       bed_temp_type bed_temp_c max_hotend_temp_c min_hotend_temp_c
       filament_length_m color_format color_count material_variant_id
       material_id filament_type detailed_filament_type tray_uid
       production_datetime short_production_datetime].
  rewrite !Hl by lia.
  repeat split; try reflexivity.
  - apply parsed_sig_length, Hb.
  - repeat (constructor; [apply u16_at_range; [exact Hb|lia|lia]|]).
    constructor.
  - apply length_read_string.
  - apply length_read_string.
  - repeat (constructor; [apply length_read_string|]). constructor.
Qed.

(** X2.  Whatever the record, [build_tag_blocks] returns 64 blocks when
    it returns.  When the image it starts from has 64 blocks of 16 bytes
    (or the record has no 64 raw blocks and the start is all zero) and
    the colour has at least four bytes and the secondary colour none or
    at least four, every block it returns has 16 bytes, so
    [parse_tag_dump] accepts the result. *)
Theorem build_returns_parseable fd out :
  build_tag_blocks fd = Ok out ->
  length out = 64%nat
  /\ (valid_image (base_blocks fd) = true -> record_sized fd = true ->
      valid_image out = true
      /\ parse_tag_dump out = Ok (parsed_record out)).
Proof.
  intros Hbuild. split; [exact (build_length fd out Hbuild)|].
  intros Hv Hsz. exact (build_parse_Ok fd out Hv Hsz Hbuild).
Qed.

(** A record built from scratch, and the reparsed dump of the test
    suite. *)
Lemma build_returns_parseable_witness :
  (exists out, build_tag_blocks FilamentData_default = Ok out
               /\ length out = 64%nat
               /\ parse_tag_dump out = Ok (parsed_record out))
  /\ exists out, build_tag_blocks (parsed_record test_image) = Ok out
                 /\ valid_image out = true.
Proof.
  split.
  - eexists. split; [vm_compute; reflexivity|].
    destruct (build_returns_parseable FilamentData_default _
                ltac:(vm_compute; reflexivity)) as [H1 H2].
    split; [exact H1|].
    apply H2; vm_compute; reflexivity.
  - eexists. split; [vm_compute; reflexivity|].
    apply (build_returns_parseable (parsed_record test_image) _
             ltac:(vm_compute; reflexivity));
      vm_compute; reflexivity.
Defined.

(** X3.  The two colour fields are written without padding.  A colour of
    fewer than four bytes makes block 5 shorter than 16 bytes (12 plus
    the colour's length), and a secondary colour of one to three bytes
    does the same to block 16; [parse_tag_dump] then rejects the built
    image with ValueError. *)
Theorem short_colour_shrinks_block fd out :
  valid_image (base_blocks fd) = true ->
  build_tag_blocks fd = Ok out ->
  ((length (color_rgba fd) < 4)%nat ->
   length (blk out 5) = (12 + length (color_rgba fd))%nat
   /\ parse_tag_dump out = Raise ValueError)
  /\ ((0 < length (secondary_color_abgr fd) < 4)%nat ->
      length (blk out 16) = (12 + length (secondary_color_abgr fd))%nat
      /\ parse_tag_dump out = Raise ValueError).
Proof.
  intros Hv Hbuild. pose proof (valid_image_shaped _ Hv) as [Hbl HB].
  pose proof (build_length fd out Hbuild) as Hlen.
  assert (Hrej : forall k, (k < 64)%nat -> length (blk out k) <> 16%nat ->
                           parse_tag_dump out = Raise ValueError).
  { intros k Hk Hne. rewrite parse_tag_dump_eq.
    rewrite (short_block_invalid out k) by (assumption || lia). reflexivity. }
  split.
  - intros Hc.
    destruct (build_block_5 fd out Hbuild) as (rw & rd & Hrw & Hrd & E).
    assert (Hl : length (blk out 5) = (12 + length (color_rgba fd))%nat).
    { rewrite E.
      assert (H1 : length (slice_assign (blk (base_blocks fd) 5) 0 4
                                        (take 4 (color_rgba fd)))
                   = (12 + length (color_rgba fd))%nat).
      { rewrite length_slice_assign_gen by lia.
        rewrite length_take, HB by lia. lia. }
      rewrite length_slice_assign_gen
        by (rewrite length_slice_assign_gen by lia; lia).
      rewrite length_slice_assign_gen by lia. lia. }
    split; [exact Hl|]. apply (Hrej 5%nat); lia.
  - intros Hc.
    destruct (build_block_16 fd out Hbuild) as (cf & cc & Hcf & Hcc & E).
    assert (Hl : length (blk out 16)
                 = (12 + length (secondary_color_abgr fd))%nat).
    { rewrite E. unfold W_secondary.
      destruct (length (secondary_color_abgr fd) =? 0)%nat eqn:E0;
        [apply Nat.eqb_eq in E0; lia|].
      cbn [negb fold_left wop_on Nat.eqb].
      pose proof (pack_H_length _ _ Hcf) as Hlcf.
      pose proof (pack_H_length _ _ Hcc) as Hlcc.
      assert (Hl2 : length (slice_assign
                             (slice_assign (blk (base_blocks fd) 16) 0 2 cf)
                             2 4 cc) = 16%nat).
      { rewrite length_slice_assign_gen
          by (rewrite length_slice_assign_gen by lia; lia).
        rewrite length_slice_assign_gen by lia. rewrite HB by lia. lia. }
      rewrite length_slice_assign_gen by lia.
      rewrite length_take. lia. }
    split; [exact Hl|]. apply (Hrej 16%nat); lia.
Qed.

(** A record built from scratch with the three-byte colour FF 00 00. *)
Lemma short_colour_shrinks_block_witness :
  exists out,
    build_tag_blocks (apply_edit (Set_color_rgba [xff; x00; x00])
                                 FilamentData_default) = Ok out
    /\ length (blk out 5) = 15%nat
    /\ parse_tag_dump out = Raise ValueError.
Proof.
  eexists. split; [vm_compute; reflexivity|].
  apply (proj1 (short_colour_shrinks_block
                  (apply_edit (Set_color_rgba [xff; x00; x00])
                              FilamentData_default) _
                  ltac:(vm_compute; reflexivity)
                  ltac:(vm_compute; reflexivity))).
  vm_compute. lia.
Defined.

(** X4.  Integers survive a build and a parse.  For a record that builds
    from a 64 x 16 start with sized colours, [parse_tag_dump] of the built
    image returns the record's own spool weight, drying temperature and
    time, bed temperature type and temperature, maximal and minimal
    hot-end temperature, filament length, colour format and colour
    count; the spool width comes back as [w / 100.0] for
    [w = int(spool_width_mm * 100)], the truncated hundredths. *)
Theorem integer_fields_roundtrip fd out :
  valid_image (base_blocks fd) = true -> record_sized fd = true ->
  build_tag_blocks fd = Ok out ->
  exists fd' w,
    parse_tag_dump out = Ok fd'
    /\ spool_weight_g fd' = spool_weight_g fd
    /\ drying_temp_c fd' = drying_temp_c fd
    /\ drying_time_h fd' = drying_time_h fd
    /\ bed_temp_type fd' = bed_temp_type fd
    /\ bed_temp_c fd' = bed_temp_c fd
    /\ max_hotend_temp_c fd' = max_hotend_temp_c fd
    /\ min_hotend_temp_c fd' = min_hotend_temp_c fd
    /\ filament_length_m fd' = filament_length_m fd
    /\ color_format fd' = color_format fd
    /\ color_count fd' = color_count fd
    /\ int_of_float (fmul (spool_width_mm fd) (float_of_int 100)) = Ok w
    /\ spool_width_mm fd' = fdiv (float_of_int w) (float_of_int 100).
Proof.
  intros Hv Hsz Hbuild.
  destruct (build_parse_Ok fd out Hv Hsz Hbuild) as [_ Hparse].
  destruct (built_int_fields fd out (valid_image_shaped _ Hv) Hsz Hbuild)
    as (H1 & H2 & H3 & H4 & H5 & H6 & H7 & H8 & H9 & H10 & H11).
  exists (parsed_record out), (u16_at out 10 4).
  split; [exact Hparse|].
  cbn [parsed_record spool_weight_g drying_temp_c drying_time_h
       bed_temp_type bed_temp_c max_hotend_temp_c min_hotend_temp_c
       filament_length_m color_format color_count spool_width_mm].
  repeat split; assumption.
Qed.

(** The dump of the test suite, reparsed: 1000 g on the spool. *)
Lemma integer_fields_roundtrip_witness :
  exists out fd',
    build_tag_blocks (parsed_record test_image) = Ok out
    /\ parse_tag_dump out = Ok fd'
    /\ spool_weight_g fd' = 1000.
Proof.
  eexists.
  destruct (integer_fields_roundtrip (parsed_record test_image) _
              ltac:(vm_compute; reflexivity) ltac:(vm_compute; reflexivity)
              ltac:(vm_compute; reflexivity))
    as (fd' & w & Hp & Hw & _).
  exists fd'. split; [reflexivity|]. split; [exact Hp|]. exact Hw.
Defined.

(** X5.  Text is stored truncated and read back cut and stripped.  For a
    record that builds from a 64 x 16 start with sized colours, each text
    field of the parse of the built image is the record's text cut to
    the width of the field (8 or 16), cut again at its first NUL, and
    stripped of white space at both ends.  Text within the width, without
    NUL and without white space at either end comes back unchanged. *)
Theorem text_fields_roundtrip fd out :
  valid_image (base_blocks fd) = true -> record_sized fd = true ->
  build_tag_blocks fd = Ok out ->
  (exists fd',
      parse_tag_dump out = Ok fd'
      /\ material_variant_id fd' = stored_text 8 (material_variant_id fd)
      /\ material_id fd' = stored_text 8 (material_id fd)
      /\ filament_type fd' = stored_text 16 (filament_type fd)
      /\ detailed_filament_type fd'
         = stored_text 16 (detailed_filament_type fd)
      /\ tray_uid fd' = stored_text 16 (tray_uid fd)
      /\ production_datetime fd' = stored_text 16 (production_datetime fd)
      /\ short_production_datetime fd'
         = stored_text 16 (short_production_datetime fd))
  /\ (forall n s, plain_text n s = true -> stored_text n s = s).
Proof.
  intros Hv Hsz Hbuild. split; [|exact stored_text_plain].
  destruct (build_parse_Ok fd out Hv Hsz Hbuild) as [_ Hparse].
  exists (parsed_record out). split; [exact Hparse|].
  exact (built_text_fields fd out (valid_image_shaped _ Hv) Hsz Hbuild).
Qed.

(** The filament type of the test dump set to PETG comes back as PETG. *)
Lemma text_fields_roundtrip_witness :
  exists out fd',
    build_tag_blocks (apply_edit (Set_filament_type str_PETG)
                                 (parsed_record test_image)) = Ok out
    /\ parse_tag_dump out = Ok fd'
    /\ filament_type fd' = str_PETG.
Proof.
  eexists.
  destruct (text_fields_roundtrip
              (apply_edit (Set_filament_type str_PETG)
                          (parsed_record test_image)) _
              ltac:(vm_compute; reflexivity) ltac:(vm_compute; reflexivity)
              ltac:(vm_compute; reflexivity))
    as ((fd' & Hp & _ & _ & Ht & _) & Hplain).
  exists fd'. split; [reflexivity|]. split; [exact Hp|].
  rewrite Ht. apply Hplain. vm_compute. reflexivity.
Defined.

(** X6.  The byte fields after a build from a 64 x 16 start with sized
    colours.  A non-empty UID, manufacturer data or X-cam value is cut or
    NUL-padded to its width (4, 12, 12) and written; an empty one leaves
    the bytes of the starting image.  The colour is always written, from
    the first four bytes of the record's value, and the two binary32
    fields hold [struct.pack("<f", x)] of the record's diameters. *)
Theorem byte_fields_after_build fd out :
  valid_image (base_blocks fd) = true -> record_sized fd = true ->
  build_tag_blocks fd = Ok out ->
  exists fd',
    parse_tag_dump out = Ok fd'
    /\ BambuFormat.uid fd'
       = (if negb (length (BambuFormat.uid fd) =? 0)%nat
          then ljust 4 x00 (take 4 (BambuFormat.uid fd))
          else slice (blk (base_blocks fd) 0) 0 4)
    /\ manufacturer_data fd'
       = (if negb (length (manufacturer_data fd) =? 0)%nat
          then ljust 12 x00 (take 12 (manufacturer_data fd))
          else slice (blk (base_blocks fd) 0) 4 16)
    /\ color_rgba fd' = take 4 (color_rgba fd)
    /\ xcam_info fd'
       = (if negb (length (xcam_info fd) =? 0)%nat
          then ljust 12 x00 (take 12 (xcam_info fd))
          else slice (blk (base_blocks fd) 8) 0 12)
    /\ pack_f (filament_diameter_mm fd) = Ok (slice (blk out 5) 8 12)
    /\ pack_f (nozzle_diameter fd) = Ok (slice (blk out 8) 12 16).
Proof.
  intros Hv Hsz Hbuild.
  destruct (build_parse_Ok fd out Hv Hsz Hbuild) as [_ Hparse].
  exists (parsed_record out). split; [exact Hparse|].
  exact (built_byte_fields fd out (valid_image_shaped _ Hv) Hsz Hbuild).
Qed.

(** A record built from scratch with the two-byte UID 7A D4. *)
Lemma byte_fields_after_build_witness :
  exists out fd',
    build_tag_blocks (apply_edit (Set_uid [x7a; xd4]) FilamentData_default)
    = Ok out
    /\ parse_tag_dump out = Ok fd'
    /\ BambuFormat.uid fd' = [x7a; xd4; x00; x00].
Proof.
  eexists.
  destruct (byte_fields_after_build
              (apply_edit (Set_uid [x7a; xd4]) FilamentData_default) _
              ltac:(vm_compute; reflexivity) ltac:(vm_compute; reflexivity)
              ltac:(vm_compute; reflexivity))
    as (fd' & Hp & Hu & _).
  exists fd'. split; [reflexivity|]. split; [exact Hp|]. exact Hu.
Defined.

(** X7.  [build_tag_blocks] returns an image exactly when the seven text
    fields are 7-bit, the ten integer fields are within 0..65535, the two
    diameters fit binary32 and [int(spool_width_mm * 100)] is defined and
    within 0..65535.  Out-of-range integers are refused, never wrapped;
    the raw blocks and the byte fields play no part. *)
Theorem build_accepts_iff fd :
  (exists out, build_tag_blocks fd = Ok out) <-> encodable fd = true.
Proof. exact (build_Ok_iff fd). Qed.

(** X8.  Rebuilding what was parsed.  For a 64 x 16 image [b], the build
    of [parse_tag_dump b] succeeds exactly when each of the seven text
    fields of [b] is 7-bit up to its first NUL, and raises
    UnicodeEncodeError otherwise (a byte above 0x7F is decoded to U+FFFD,
    which does not encode).  When it succeeds the result is a 64 x 16
    image equal to [b] at every byte outside the text fields, the two
    binary32 fields and the spool width. *)
Theorem rebuild_of_parsed b :
  valid_image b = true ->
  (text_7bit b = true ->
   exists out,
     build_tag_blocks (parsed_record b) = Ok out
     /\ valid_image out = true
     /\ forall k i, lossy_region k i = false ->
                    byte_at out k i = byte_at b k i)
  /\ (text_7bit b = false ->
      build_tag_blocks (parsed_record b) = Raise UnicodeEncodeError).
Proof.
  intros Hv. pose proof (valid_image_shaped b Hv) as Hb. split.
  - intros Ht.
    destruct (proj2 (build_Ok_iff (parsed_record b))) as [out Hbuild];
      [rewrite encodable_parsed by exact Hb; exact Ht|].
    exists out. split; [exact Hbuild|].
    destruct (rebuild_parsed_frame b out Hv Hbuild) as [Hs Ha].
    split; [apply shaped_valid_image, Hs|exact Ha].
  - intros Ht. apply rebuild_parsed_raises; assumption.
Qed.

(** The dump of the test suite rebuilds; with the byte E9 in its filament
    type it parses and does not rebuild. *)
Lemma rebuild_of_parsed_witness :
  (exists out, build_tag_blocks (parsed_record test_image) = Ok out
               /\ valid_image out = true)
  /\ build_tag_blocks (parsed_record image_high_byte)
     = Raise UnicodeEncodeError.
Proof.
  split.
  - destruct (proj1 (rebuild_of_parsed test_image
                       ltac:(vm_compute; reflexivity))
                ltac:(vm_compute; reflexivity)) as (out & H1 & H2 & _).
    exists out. split; assumption.
  - apply (proj2 (rebuild_of_parsed image_high_byte
                    ltac:(vm_compute; reflexivity))).
    vm_compute. reflexivity.
Defined.

(** X9.  A build from scratch.  When the record has no 64 raw blocks the
    image starts all zero: every sector trailer of the result is sixteen
    zero bytes (no keys, no access bits), and with sized colours every
    byte outside the field ranges of the layout is zero. *)
Theorem scratch_build_zero fd out :
  (length (raw_blocks fd) =? 64)%nat = false ->
  build_tag_blocks fd = Ok out ->
  (forall k, (k < 64)%nat -> Mifare.is_sector_trailer k = true ->
             blk out k = replicate 16 x00)
  /\ (record_sized fd = true ->
      forall k i, (k < 64)%nat -> (i < 16)%nat ->
                  all_fields_region k i = false ->
                  byte_at out k i = Some x00).
Proof.
  intros Hraw Hbuild.
  assert (Hbase : base_blocks fd = replicate 64 (replicate 16 x00)).
  { unfold base_blocks. rewrite Hraw, andb_false_r. reflexivity. }
  assert (Hz : forall k, (k < 64)%nat ->
                         blk (base_blocks fd) k = replicate 16 x00).
  { intros k Hk. rewrite Hbase. unfold blk.
    apply list_lookup_total_correct, lookup_replicate_2, Hk. }
  split.
  - intros k Hk Ht.
    rewrite (build_unwritten_block fd out k Hbuild); [apply Hz, Hk|].
    intros Hin. revert Ht.
    unfold WRITTEN_BLOCKS, RSA_WRITTEN_BLOCKS in Hin. cbn [app In] in Hin.
    repeat (destruct Hin as [<-|Hin]; [vm_compute; discriminate|]).
    destruct Hin.
  - intros Hsz k i Hk Hi HR.
    assert (Hs : shaped (base_blocks fd)).
    { split; [apply base_blocks_length|].
      intros k' Hk'. rewrite Hz by exact Hk'. apply length_replicate. }
    destruct (build_frame fd out Hs Hsz Hbuild) as [_ Ha].
    rewrite (Ha k i HR). unfold byte_at. rewrite Hz by exact Hk.
    apply lookup_replicate_2, Hi.
Qed.

(** The default record: block 3, the trailer of sector 0, is zero. *)
Lemma scratch_build_zero_witness :
  exists out,
    build_tag_blocks FilamentData_default = Ok out
    /\ blk out 3 = replicate 16 x00.
Proof.
  eexists. split; [vm_compute; reflexivity|].
  apply (proj1 (scratch_build_zero FilamentData_default _
                  ltac:(vm_compute; reflexivity)
                  ltac:(vm_compute; reflexivity)));
    [lia|vm_compute; reflexivity].
Defined.

(** ** Tag geometry *)


(** X10.  [all_data_blocks()] lists, in ascending order and without
    repetition, exactly the 48 blocks below 64 that are not sector
    trailers. *)
Theorem all_data_blocks_spec :
  (forall b, In b Mifare.all_data_blocks
             <-> (b < 64)%nat /\ Mifare.is_sector_trailer b = false)
  /\ length Mifare.all_data_blocks = 48%nat
  /\ StronglySorted lt Mifare.all_data_blocks.
Proof.
  split; [|split].
  - intros b. split.
    + intros H.
      assert (Hall : forallb (fun b => (b <? 64)%nat
                                       && negb (Mifare.is_sector_trailer b))
                             Mifare.all_data_blocks = true)
        by (vm_compute; reflexivity).
      rewrite forallb_forall in Hall.
      apply Hall, andb_prop in H as [H1 H2].
      split; [apply Nat.ltb_lt, H1|apply negb_true_iff, H2].
    + intros [Hb Ht].
      pose proof (below_64
                    (fun b => Mifare.is_sector_trailer b
                              || existsb (Nat.eqb b) Mifare.all_data_blocks)
                    ltac:(vm_compute; reflexivity) b Hb) as H.
      cbv beta in H. rewrite Ht in H. apply existsb_eqb_In, H.
  - reflexivity.
  - apply Sorted_StronglySorted; [intros x y z; lia|].
    change Mifare.all_data_blocks with
      [0; 1; 2; 4; 5; 6; 8; 9; 10; 12; 13; 14; 16; 17; 18; 20; 21; 22;
       24; 25; 26; 28; 29; 30; 32; 33; 34; 36; 37; 38; 40; 41; 42; 44; 45;
       46; 48; 49; 50; 52; 53; 54; 56; 57; 58; 60; 61; 62]%nat.
    repeat (constructor; [|constructor; lia]).
    repeat constructor.
Qed.

(** X11.  The four blocks of a sector.  For every sector [s], its data
    blocks followed by its trailer are the four consecutive blocks from
    [sector_to_block s]; a block belongs to them exactly when
    [block_to_sector] maps it to [s]; and a block is a sector trailer
    exactly when it is the trailer of its own sector. *)
Theorem sector_layout s :
  Mifare.data_blocks_for_sector s ++ [Mifare.sector_trailer_block s]
  = seq (Mifare.sector_to_block s) 4
  /\ (forall b, In b (seq (Mifare.sector_to_block s) 4)
                <-> Mifare.block_to_sector b = s)
  /\ (forall b, Mifare.is_sector_trailer b = true
                <-> b = Mifare.sector_trailer_block (Mifare.block_to_sector b))
  /\ Mifare.block_to_byte_offset (Mifare.sector_to_block s) = (64 * s)%nat.
Proof.
  unfold Mifare.data_blocks_for_sector, Mifare.sector_trailer_block,
    Mifare.sector_to_block, Mifare.block_to_sector, Mifare.is_sector_trailer,
    Mifare.block_to_byte_offset, Mifare.BLOCKS_PER_SECTOR,
    Mifare.BYTES_PER_BLOCK.
  split; [|split; [|split]].
  - cbn [seq map app Nat.sub]. repeat f_equal; lia.
  - intros b. rewrite in_seq. split.
    + intros H. symmetry. apply (Nat.div_unique b 4 s (b - s * 4)); lia.
    + intros <-. pose proof (Nat.div_mod_eq b 4).
      pose proof (Nat.mod_upper_bound b 4). lia.
  - intros b. rewrite Nat.eqb_eq.
    pose proof (Nat.div_mod_eq b 4). pose proof (Nat.mod_upper_bound b 4).
    pose proof (Nat.div_mod_eq (b + 1) 4).
    pose proof (Nat.mod_upper_bound (b + 1) 4).
    split; intros Hb.
    + assert ((b + 1) / 4 = b / 4 + 1)%nat.
      { symmetry. apply (Nat.div_unique (b + 1) 4 (b / 4 + 1) 0); lia. }
      lia.
    + assert ((b + 1) / 4 = b / 4 + 1)%nat.
      { symmetry. apply (Nat.div_unique (b + 1) 4 (b / 4 + 1) 0); lia. }
      lia.
  - lia.
Qed.

(** X12.  The layout constants of the codec agree with the geometry:
    [SECTOR_TRAILER_BLOCKS] holds exactly the blocks below 64 that
    [is_sector_trailer] accepts, and [RSA_DATA_BLOCKS] exactly the data
    blocks of sectors 10 to 15, eighteen of them, none a trailer. *)
Theorem layout_constants_agree :
  (forall b, In b SECTOR_TRAILER_BLOCKS
             <-> (b < 64)%nat /\ Mifare.is_sector_trailer b = true)
  /\ (forall b, In b RSA_DATA_BLOCKS
                <-> In b Mifare.all_data_blocks
                    /\ (10 <= Mifare.block_to_sector b)%nat)
  /\ RSA_DATA_BLOCKS = flat_map Mifare.data_blocks_for_sector (seq 10 6)
  /\ length RSA_DATA_BLOCKS = 18%nat.
Proof.
  split; [|split; [|split; reflexivity]].
  - intros b. split.
    + intros H.
      assert (Hall : forallb (fun b => (b <? 64)%nat
                                       && Mifare.is_sector_trailer b)
                             SECTOR_TRAILER_BLOCKS = true)
        by (vm_compute; reflexivity).
      rewrite forallb_forall in Hall.
      apply Hall, andb_prop in H as [H1 H2].
      split; [apply Nat.ltb_lt, H1|exact H2].
    + intros [Hb Ht].
      pose proof (below_64
                    (fun b => negb (Mifare.is_sector_trailer b)
                              || existsb (Nat.eqb b) SECTOR_TRAILER_BLOCKS)
                    ltac:(vm_compute; reflexivity) b Hb) as H.
      cbv beta in H. rewrite Ht in H. apply existsb_eqb_In, H.
  - intros b. split.
    + intros H.
      assert (Hall : forallb
                       (fun b => existsb (Nat.eqb b) Mifare.all_data_blocks
                                 && (10 <=? Mifare.block_to_sector b)%nat)
                       RSA_DATA_BLOCKS = true)
        by (vm_compute; reflexivity).
      rewrite forallb_forall in Hall.
      apply Hall, andb_prop in H as [H1 H2].
      split; [apply existsb_eqb_In, H1|apply Nat.leb_le, H2].
    + intros [Hin Hs].
      assert (Hb : (b < 64)%nat).
      { assert (Hall : forallb (fun b => (b <? 64)%nat)
                               Mifare.all_data_blocks = true)
          by (vm_compute; reflexivity).
        rewrite forallb_forall in Hall. apply Nat.ltb_lt, Hall, Hin. }
      pose proof (below_64
                    (fun b => negb (existsb (Nat.eqb b) Mifare.all_data_blocks
                                    && (10 <=? Mifare.block_to_sector b)%nat)
                              || existsb (Nat.eqb b) RSA_DATA_BLOCKS)
                    ltac:(vm_compute; reflexivity) b Hb) as H.
      cbv beta in H.
      rewrite (proj2 (existsb_eqb_In b _) Hin) in H.
      rewrite (proj2 (Nat.leb_le _ _) Hs) in H. apply existsb_eqb_In, H.
Qed.

(** X13.  [parse_sector_trailer] raises ValueError unless it is given
    exactly 16 bytes; then it splits them, in order and without loss, into
    key A (6 bytes), the access bits (4) and key B (6). *)
Theorem parse_sector_trailer_spec data :
  match Mifare.parse_sector_trailer data with
  | Ok t =>
      length data = 16%nat
      /\ Mifare.key_a t ++ Mifare.access_bits t ++ Mifare.key_b t = data
      /\ length (Mifare.key_a t) = 6%nat
      /\ length (Mifare.access_bits t) = 4%nat
      /\ length (Mifare.key_b t) = 6%nat
  | Raise e => e = ValueError /\ length data <> 16%nat
  end.
Proof.
  unfold Mifare.parse_sector_trailer. change Mifare.BYTES_PER_BLOCK with 16%nat.
  destruct (Nat.eqb_spec (length data) 16) as [Hl|Hl]; cbn [negb];
    [|split; [reflexivity|exact Hl]].
  cbn [Mifare.key_a Mifare.access_bits Mifare.key_b].
  split; [exact Hl|].
  do 16 (destruct data as [|? data]; [discriminate Hl|]).
  destruct data; [|discriminate Hl].
  repeat split.
Qed.

(** ** Transport formats: properties beyond the claims *)

(** X14.  [parse_from_binary] raises ValueError unless it is given
    exactly 1024 bytes; then it never fails, and the raw blocks of the
    record it returns, put end to end, are the bytes it was given.  It
    reads back what [build_binary] writes: the parse of the binary dump
    of a record is the parse of the record's built image, whenever that
    image has 64 blocks of 16 bytes. *)
Theorem binary_transport :
  (forall data,
      match parse_from_binary data with
      | Ok fd => length data = 1024%nat /\ concat (raw_blocks fd) = data
      | Raise e => e = ValueError /\ length data <> 1024%nat
      end)
  /\ (forall fd out,
         build_tag_blocks fd = Ok out -> valid_image out = true ->
         exists data, build_binary fd = Ok data
                      /\ parse_from_binary data = parse_tag_dump out).
Proof.
  split.
  - intros data. rewrite parse_from_binary_eq.
    destruct (Nat.eqb_spec (length data) 1024) as [Hl|Hl];
      [|split; [reflexivity|exact Hl]].
    split; [exact Hl|]. cbn [raw_blocks parsed_record].
    apply (concat_chunks 64). rewrite Hl. reflexivity.
  - intros fd out Hbuild Hv. exists (concat out).
    unfold build_binary. rewrite Hbuild. split; [reflexivity|].
    apply parse_from_binary_concat, Hv.
Qed.

(** The binary dump of the reparsed dump of the test suite. *)
Lemma binary_transport_witness :
  exists out data,
    build_tag_blocks (parsed_record test_image) = Ok out
    /\ build_binary (parsed_record test_image) = Ok data
    /\ parse_from_binary data = parse_tag_dump out.
Proof.
  eexists.
  destruct (proj2 binary_transport (parsed_record test_image) _
              ltac:(vm_compute; reflexivity) ltac:(vm_compute; reflexivity))
    as (data & H1 & H2).
  exists data. split; [reflexivity|]. split; assumption.
Defined.

(** X15.  The hex decoders read back what the hex encoders write.  For
    every record that builds, [parse_from_hex_blocks] of its per-block
    hex strings is [parse_tag_dump] of the built image; when that image
    has 64 blocks of 16 bytes, so is [parse_from_hex] of its one-string
    hex dump. *)
Theorem hex_transport fd out :
  build_tag_blocks fd = Ok out ->
  (exists hs, build_hex_blocks fd = Ok hs
              /\ parse_from_hex_blocks hs = parse_tag_dump out)
  /\ (valid_image out = true ->
      exists h, build_hex fd = Ok h
                /\ parse_from_hex h = parse_tag_dump out).
Proof.
  intros Hbuild. split.
  - exists (map hex_upper out). unfold build_hex_blocks. rewrite Hbuild.
    split; [reflexivity|]. unfold parse_from_hex_blocks.
    rewrite (traverse_map fromhex hex_upper out fromhex_hex_upper).
    reflexivity.
  - intros Hv. exists (hex_upper (concat out)).
    unfold build_hex, build_binary. rewrite Hbuild. split; [reflexivity|].
    unfold parse_from_hex. rewrite hex_upper_clean, fromhex_hex_upper.
    cbn [Py.bind]. apply parse_from_binary_concat, Hv.
Qed.

(** The hex dumps of the reparsed dump of the test suite. *)
Lemma hex_transport_witness :
  exists out h,
    build_tag_blocks (parsed_record test_image) = Ok out
    /\ build_hex (parsed_record test_image) = Ok h
    /\ parse_from_hex h = parse_tag_dump out.
Proof.
  eexists.
  destruct (proj2 (hex_transport (parsed_record test_image) _
                     ltac:(vm_compute; reflexivity))
              ltac:(vm_compute; reflexivity)) as (h & H1 & H2).
  exists h. split; [reflexivity|]. split; assumption.
Defined.

(** X16.  The base64 decoders read back what the base64 encoders write.
    For every record that builds, [parse_from_base64_blocks] of its
    per-block base64 strings (the blocks of the bridge protocol) is
    [parse_tag_dump] of the built image; when that image has 64 blocks of
    16 bytes, so is [parse_from_base64] of its one-string dump. *)
Theorem base64_transport fd out :
  build_tag_blocks fd = Ok out ->
  (exists bs, build_base64_blocks fd = Ok bs
              /\ parse_from_base64_blocks bs = parse_tag_dump out)
  /\ (valid_image out = true ->
      exists s, build_base64 fd = Ok s
                /\ parse_from_base64 s = parse_tag_dump out).
Proof.
  intros Hbuild. split.
  - exists (map b64encode out). unfold build_base64_blocks. rewrite Hbuild.
    split; [reflexivity|]. unfold parse_from_base64_blocks.
    rewrite (traverse_map b64decode b64encode out b64decode_b64encode).
    reflexivity.
  - intros Hv. exists (b64encode (concat out)).
    unfold build_base64, build_binary. rewrite Hbuild. split; [reflexivity|].
    unfold parse_from_base64. rewrite b64decode_b64encode.
    cbn [Py.bind]. apply parse_from_binary_concat, Hv.
Qed.

(** The base64 blocks of the reparsed dump of the test suite. *)
Lemma base64_transport_witness :
  exists out bs,
    build_tag_blocks (parsed_record test_image) = Ok out
    /\ build_base64_blocks (parsed_record test_image) = Ok bs
    /\ parse_from_base64_blocks bs = parse_tag_dump out.
Proof.
  eexists.
  destruct (proj1 (base64_transport (parsed_record test_image) _
                     ltac:(vm_compute; reflexivity))) as (bs & H1 & H2).
  exists bs. split; [reflexivity|]. split; assumption.
Defined.

(** X17.  [parse_proxmark3_dump] reads back what [build_proxmark3_dump]
    writes: for a record whose built image has 64 blocks of 16 bytes, the
    parse of the text dump (64 lines, each a label, a colon and sixteen
    spaced hex bytes) is [parse_tag_dump] of the built image. *)
Theorem proxmark3_transport fd out :
  build_tag_blocks fd = Ok out -> valid_image out = true ->
  exists text, build_proxmark3_dump fd = Ok text
               /\ parse_proxmark3_dump text = parse_tag_dump out.
Proof.
  intros Hbuild Hv. rewrite build_proxmark3_eq, Hbuild. cbn [Py.bind].
  eexists. split; [reflexivity|]. apply parse_proxmark3_text, Hv.
Qed.

(** The text dump of the reparsed dump of the test suite. *)
Lemma proxmark3_transport_witness :
  exists out text,
    build_tag_blocks (parsed_record test_image) = Ok out
    /\ build_proxmark3_dump (parsed_record test_image) = Ok text
    /\ parse_proxmark3_dump text = parse_tag_dump out.
Proof.
  eexists.
  destruct (proxmark3_transport (parsed_record test_image) _
              ltac:(vm_compute; reflexivity) ltac:(vm_compute; reflexivity))
    as (text & H1 & H2).
  exists text. split; [reflexivity|]. split; assumption.
Defined.

(** ** Key derivation: properties beyond the claim *)

(** X18.  [derive_keys_from_hex] either raises ValueError, exactly when
    the text is not a hex string, or returns sixteen keys of twelve
    upper-case hex digits each: the hex of the keys [derive_keys] makes
    of the decoded UID.  The case of the input does not matter: the
    lower-case hex of a UID (what the write endpoint passes) and its
    upper-case hex give the same keys. *)
Theorem derive_keys_from_hex_spec :
  (forall uid_hex,
      match derive_keys_from_hex uid_hex with
      | Ok keys =>
          length keys = 16%nat
          /\ Forall (fun k => String.length k = 12%nat
                              /\ forallb upper_hexish
                                         (list_ascii_of_string k) = true) keys
          /\ exists uid, fromhex uid_hex = Ok uid
                         /\ (let* ks := derive_keys uid in
                             Ok (map hex_upper ks)) = Ok keys
      | Raise e => e = ValueError /\ fromhex uid_hex = Raise ValueError
      end)
  /\ (forall uid,
         derive_keys_from_hex (hex uid) = derive_keys_from_hex (hex_upper uid)
         /\ derive_keys_from_hex (hex_upper uid)
            = (let* ks := derive_keys uid in Ok (map hex_upper ks))).
Proof.
  split.
  - intros uid_hex. unfold derive_keys_from_hex.
    destruct (fromhex uid_hex) as [uid|e] eqn:E.
    + cbn [Py.bind]. destruct (derive_keys_Ok uid) as (keys & Hk & Hl & Hall).
      rewrite Hk. cbn [Py.bind]. split; [rewrite length_map; exact Hl|].
      split; [|exists uid; split; [reflexivity|rewrite Hk; reflexivity]].
      apply Forall_forall. intros k Hin.
      apply list_elem_of_In, in_map_iff in Hin as (B & <- & HB).
      rewrite Forall_forall in Hall.
      rewrite length_hex_upper, (Hall B) by (apply list_elem_of_In, HB).
      split; [reflexivity|apply hex_upper_chars].
    + cbn [Py.bind]. pose proof (fromhex_Raise _ _ E) as ->.
      split; reflexivity.
  - intros uid. unfold derive_keys_from_hex.
    rewrite fromhex_hex, fromhex_hex_upper. split; reflexivity.
Qed.

(** X19.  The authentication data of a tag.  [get_sector_auths] returns
    sixteen entries, entry [i] for sector [i] with the six-byte key
    [derive_keys] gives that sector and its upper-case hex;
    [get_auth_payload] carries the same sixteen hex keys in the same
    order, and deriving keys from the UID text of the payload gives the
    keys of the payload. *)
Theorem auth_payload_consistent uid :
  exists keys auths payload,
    derive_keys uid = Ok keys
    /\ get_sector_auths uid = Ok auths
    /\ get_auth_payload uid = Ok payload
    /\ length auths = 16%nat
    /\ (forall i a, auths !! i = Some a ->
                    sector a = i /\ keys !! i = Some (key a)
                    /\ length (key a) = 6%nat
                    /\ key_hex a = hex_upper (key a))
    /\ payload_keys payload = map key_hex auths
    /\ derive_keys_from_hex (payload_uid payload) = Ok (payload_keys payload).
Proof.
  destruct (derive_keys_Ok uid) as (keys & Hk & Hl & Hall).
  unfold get_sector_auths, get_auth_payload, derive_keys_from_hex.
  rewrite Hk. cbn [Py.bind].
  do 3 eexists. split; [reflexivity|]. split; [reflexivity|].
  split; [reflexivity|].
  split; [rewrite length_imap; exact Hl|].
  split; [|split].
  - intros i a Hi. rewrite list_lookup_imap in Hi.
    destruct (keys !! i) as [k|] eqn:Ek; [|discriminate Hi].
    injection Hi as <-. cbn [sector key key_hex].
    repeat split. rewrite Forall_forall in Hall. apply Hall.
    eapply list_elem_of_lookup_2, Ek.
  - cbn [payload_keys]. symmetry. apply (map_key_hex_imap keys 0).
  - cbn [payload_uid payload_keys]. rewrite fromhex_hex_upper. cbn [Py.bind].
    rewrite Hk. reflexivity.
Qed.

(** ** Bridge sessions: properties beyond the claims *)

Section BridgeExtras.

Import Bridge.

(** X20.  Request ids are fresh.  In every state the manager can reach, a
    [request_read] or [request_write] that sends its frame uses the
    decimal text of the incremented counter as its id, an id that is in
    neither pending table, and a new future; the request is then waiting
    on that future, and every slot and every future there was before is
    still there. *)
Theorem request_ids_fresh st st' rid f :
  reachable st ->
  (request_read_send st = Ok (st', rid, f)
   \/ exists payload, request_write_send payload st = Ok (st', rid, f)) ->
  rid = pretty (_request_counter st + 1)%nat
  /\ _pending_reads st !! rid = None
  /\ _pending_writes st !! rid = None
  /\ futures st !! f = None
  /\ waiting st' rid f
  /\ (forall r g, _pending_reads st !! r = Some g ->
                  _pending_reads st' !! r = Some g)
  /\ (forall r g, _pending_writes st !! r = Some g ->
                  _pending_writes st' !! r = Some g)
  /\ (forall g s, futures st !! g = Some s -> futures st' !! g = Some s).
Proof.
  intros Hreach Hsend.
  destruct (reachable_bounded st Hreach) as (Hr & Hw & _).
  destruct (send_spec _ _ _ Hr) as (R1 & F1 & F2 & R4 & F5).
  destruct (send_spec _ _ _ Hw) as (W1 & _ & _ & W4 & _).
  unfold waiting.
  destruct Hsend as [H|[payload H]];
    [unfold request_read_send in H|unfold request_write_send in H];
    (destruct (_phone st); [|discriminate H]); injection H as <- <- <-; cbn.
  - split; [reflexivity|]. split; [exact R1|]. split; [exact W1|].
    split; [exact F1|]. split; [|split; [exact R4|split; [tauto|exact F5]]].
    split; [|exact F2]. left. apply lookup_insert_eq.
  - split; [reflexivity|]. split; [exact R1|]. split; [exact W1|].
    split; [exact F1|]. split; [|split; [tauto|split; [exact W4|exact F5]]].
    split; [|exact F2]. right. apply lookup_insert_eq.
Qed.

(** The first read request of a session, and a write request after it. *)
Lemma request_ids_fresh_witness :
  (exists st', request_read_send (connect 7 init) = Ok (st', "1"%string, 0%nat)
               /\ waiting st' "1" 0)
  /\ exists st1 st2,
       request_read_send (connect 7 init) = Ok (st1, "1"%string, 0%nat)
       /\ request_write_send ∅ st1 = Ok (st2, "2"%string, 1%nat)
       /\ _pending_reads st2 !! "1"%string = Some 0%nat
       /\ waiting st2 "2" 1.
Proof.
  split.
  - eexists. split; [reflexivity|].
    refine (proj1 (proj2 (proj2 (proj2 (proj2
      (request_ids_fresh (connect 7 init) _ "1" 0%nat _ _)))))).
    + apply Reach_connect, Reach_init.
    + left. reflexivity.
  - eexists. eexists. split; [reflexivity|]. split; [reflexivity|].
    split; [reflexivity|].
    refine (proj1 (proj2 (proj2 (proj2 (proj2
      (request_ids_fresh _ _ "2" 1%nat _ _)))))).
    + eapply Reach_read_send; [apply Reach_connect, Reach_init|reflexivity].
    + right. exists ∅. reflexivity.
Defined.

(** X21.  A reply resolves its request.  When a read request is waiting
    on a pending future, the TAG_DATA frame with its id is handled
    without an exception and without sending anything: the future gets
    the frame, the waiter returns it (whether or not its timeout fires
    afterwards), the slot is deleted, and no other slot and no other
    future is touched.  The same for a write request and the
    WRITE_RESULT frame with its id. *)
Theorem reply_resolves_request (write : bool) st rid f data timed_out :
  pending write st !! rid = Some f ->
  futures st !! f = Some FPending ->
  is_reply (reply_action write) rid data ->
  exists st',
    handle_message data st = Ok st'
    /\ futures st' = <[f := FResult data]> (futures st)
    /\ futures st' !! f = Some (FResult data)
    /\ request_resume write timed_out rid f st' = Some (st', Ok data)
    /\ pending write st' = delete rid (pending write st)
    /\ pending (negb write) st' = pending (negb write) st
    /\ _phone st' = _phone st
    /\ effects st' = effects st.
Proof.
  intros Hs Hf [Ha Hr].
  assert (Hlt : (f < length (futures st))%nat)
    by (apply lookup_lt_Some in Hf; exact Hf).
  assert (Hset : fut_set_result f data (futures st)
                 = Ok (<[f := FResult data]> (futures st))).
  { unfold fut_set_result, fut_done. rewrite Hf. reflexivity. }
  assert (Hnew : <[f := FResult data]> (futures st) !! f
                 = Some (FResult data))
    by (apply list_lookup_insert_eq, Hlt).
  unfold handle_message.
  rewrite (get_lookup data "action" "" _ Ha).
  destruct write; cbn [reply_action String.eqb Ascii.eqb Bool.eqb];
    cbn [pending] in Hs;
    rewrite (get_lookup data "request_id" "" _ Hr), Hs, Hset; cbn [Py.bind];
    eexists; (split; [reflexivity|]); (split; [reflexivity|]);
    (split; [exact Hnew|]);
    (split; [apply resume_result; exact Hnew|]); repeat split.
Qed.

(** The reply to the first read request of a session. *)
Lemma reply_resolves_request_witness :
  exists st1 st2,
    request_read_send (connect 7 init) = Ok (st1, "1"%string, 0%nat)
    /\ handle_message
         (<["action" := "TAG_DATA"]> (<["request_id" := "1"]> ∅))%string st1
       = Ok st2
    /\ request_read_resume false "1" 0 st2
       = Some (st2, Ok (<["action" := "TAG_DATA"]>
                          (<["request_id" := "1"]> ∅))%string)
    /\ _pending_reads st2 = delete "1"%string (_pending_reads st1).
Proof.
  exists (sent (request_read_send (connect 7 init))).
  destruct (reply_resolves_request false
              (sent (request_read_send (connect 7 init)))
              "1"%string 0%nat
              (<["action" := "TAG_DATA"]> (<["request_id" := "1"]> ∅))%string
              false)
    as (st2 & H1 & _ & _ & H3 & H4 & _).
  - reflexivity.
  - reflexivity.
  - split; reflexivity.
  - exists st2. split; [reflexivity|]. split; [exact H1|].
    split; [exact H3|exact H4].
Defined.

(** X22.  A disconnect cancels every waiting request.  Whatever the
    state, [disconnect] leaves no phone and two empty tables, sends and
    closes nothing, and keeps every future that was done.  A request that
    was waiting on a pending future, in either table, finds its future
    cancelled: its coroutine ends with CancelledError, not with
    TimeoutError, and the next request raises ConnectionError. *)
Theorem disconnect_cancels_waiters st rid f timed_out :
  waiting st rid f ->
  futures (disconnect st) !! f = Some FCancelled
  /\ request_read_resume timed_out rid f (disconnect st)
     = Some (disconnect st, Raise CancelledError)
  /\ request_write_resume timed_out rid f (disconnect st)
     = Some (disconnect st, Raise CancelledError)
  /\ _pending_reads (disconnect st) = ∅
  /\ _pending_writes (disconnect st) = ∅
  /\ is_connected (disconnect st) = false
  /\ request_read_send (disconnect st) = Raise ConnectionError
  /\ (forall payload,
        request_write_send payload (disconnect st) = Raise ConnectionError)
  /\ length (futures (disconnect st)) = length (futures st)
  /\ (forall g s, futures st !! g = Some s -> done s = true ->
                  futures (disconnect st) !! g = Some s)
  /\ effects (disconnect st) = effects st.
Proof.
  intros [Hs Hf].
  destruct (cancel_twice (_pending_reads st) (_pending_writes st)
              (futures st) f (ex_intro _ rid Hs) Hf) as [Hc Hd].
  rewrite <- disconnect_futures in Hc, Hd.
  split; [exact Hc|].
  split; [apply resume_cancelled, Hc|].
  split; [apply resume_cancelled, Hc|].
  repeat (split; [reflexivity|]).
  split; [|split; [exact Hd|reflexivity]].
  rewrite disconnect_futures.
  rewrite (proj1 (cancel_pending_spec _ _)).
  apply (proj1 (cancel_pending_spec _ _)).
Qed.

(** A read request is waiting when the phone goes away. *)
Lemma disconnect_cancels_waiters_witness :
  exists st1,
    request_read_send (connect 7 init) = Ok (st1, "1"%string, 0%nat)
    /\ request_read_resume false "1" 0 (disconnect st1)
       = Some (disconnect st1, Raise CancelledError)
    /\ request_read_send (disconnect st1) = Raise ConnectionError.
Proof.
  exists (sent (request_read_send (connect 7 init))).
  split; [reflexivity|].
  destruct (disconnect_cancels_waiters
              (sent (request_read_send (connect 7 init)))
              "1"%string 0%nat false)
    as (_ & H1 & _ & _ & _ & _ & H2 & _).
  - split; [left|]; reflexivity.
  - split; [exact H1|exact H2].
Defined.

(** X23.  An ERROR frame fails every waiting request, whatever request
    id the frame carries.  The frame is handled without an exception; a
    request that was waiting on a pending future, in either table, finds
    the exception [Exception(message)] on its future, with
    ["NFC error"] for a frame without a message, and its coroutine ends
    with that exception.  Both tables, the phone and the futures that
    were done are as before. *)
Theorem error_frame_fails_waiters st data rid f timed_out :
  data !! "action"%string = Some "ERROR"%string ->
  waiting st rid f ->
  exists st',
    handle_message data st = Ok st'
    /\ futures st' !! f
       = Some (FException
                 (Exception (default "NFC error"%string
                                     (data !! "message"%string))))
    /\ request_read_resume timed_out rid f st'
       = Some (st', Raise (Exception (default "NFC error"%string
                                              (data !! "message"%string))))
    /\ request_write_resume timed_out rid f st'
       = Some (st', Raise (Exception (default "NFC error"%string
                                               (data !! "message"%string))))
    /\ _pending_reads st' = _pending_reads st
    /\ _pending_writes st' = _pending_writes st
    /\ _phone st' = _phone st
    /\ effects st' = effects st
    /\ (forall g s, futures st !! g = Some s -> done s = true ->
                    futures st' !! g = Some s).
Proof.
  intros Ha [Hs Hf].
  destruct (error_futures data st (get_lookup data "action" "" _ Ha))
    as (st' & H & Hfut & Hr & Hw & Hp & He).
  exists st'. split; [exact H|].
  destruct (fail_twice (Exception (get data "message" "NFC error"))
              (_pending_reads st) (_pending_writes st)
              (futures st) f (ex_intro _ rid Hs) Hf) as [Hc Hd].
  rewrite <- Hfut in Hc, Hd. unfold get in Hc.
  split; [exact Hc|].
  split; [apply resume_exception, Hc|].
  split; [apply resume_exception, Hc|].
  repeat (split; [assumption|]). exact Hd.
Qed.

(** A read and a write request are waiting when the phone reports an
    error for the write. *)
Lemma error_frame_fails_waiters_witness :
  exists st1 st2 st3,
    request_read_send (connect 7 init) = Ok (st1, "1"%string, 0%nat)
    /\ request_write_send ∅ st1 = Ok (st2, "2"%string, 1%nat)
    /\ handle_message
         (<["action" := "ERROR"]>
            (<["message" := "no tag"]> (<["request_id" := "2"]> ∅)))%string
         st2 = Ok st3
    /\ request_read_resume false "1" 0 st3
       = Some (st3, Raise (Exception "no tag")).
Proof.
  exists (sent (request_read_send (connect 7 init))).
  exists (sent (request_write_send ∅
                  (sent (request_read_send (connect 7 init))))).
  destruct (error_frame_fails_waiters
              (sent (request_write_send ∅
                       (sent (request_read_send (connect 7 init)))))
              (<["action" := "ERROR"]>
                 (<["message" := "no tag"]>
                    (<["request_id" := "2"]> ∅)))%string
              "1"%string 0%nat false)
    as (st3 & H1 & _ & H3 & _).
  - reflexivity.
  - split; [left|]; reflexivity.
  - exists st3. split; [reflexivity|]. split; [reflexivity|].
    split; [exact H1|exact H3].
Defined.

(** X24.  A reply to a request that is settled ends the session.  When
    the slot of a request is still in its table and its future is done
    (an ERROR frame leaves such slots), the TAG_DATA or WRITE_RESULT
    frame with its id makes [set_result] raise InvalidStateError out of
    [handle_message]; the loop of [listen] then disconnects and stops. *)
Theorem reply_to_settled_request (write : bool) st rid f s data :
  pending write st !! rid = Some f ->
  futures st !! f = Some s ->
  done s = true ->
  is_reply (reply_action write) rid data ->
  handle_message data st = Raise InvalidStateError
  /\ listen_step (Frame data) st = (disconnect st, false).
Proof.
  intros Hs Hf Hd [Ha Hr].
  assert (H : handle_message data st = Raise InvalidStateError).
  { unfold handle_message. rewrite (get_lookup data "action" "" _ Ha).
    destruct write; cbn [reply_action String.eqb Ascii.eqb Bool.eqb];
      cbn [pending] in Hs;
      rewrite (get_lookup data "request_id" "" _ Hr), Hs;
      unfold fut_set_result, fut_done; rewrite Hf, Hd; reflexivity. }
  split; [exact H|]. unfold listen_step. rewrite H. reflexivity.
Qed.

(** The phone reports an error for a read request and then sends the
    tag data for it. *)
Lemma reply_to_settled_request_witness :
  exists st1 st2,
    request_read_send (connect 7 init) = Ok (st1, "1"%string, 0%nat)
    /\ handle_message
         (<["action" := "ERROR"]> (<["request_id" := "1"]> ∅))%string st1
       = Ok st2
    /\ listen_step
         (Frame (<["action" := "TAG_DATA"]>
                   (<["request_id" := "1"]> ∅))%string) st2
       = (disconnect st2, false)
    /\ is_connected st2 = true
    /\ is_connected (disconnect st2) = false.
Proof.
  exists (sent (request_read_send (connect 7 init))).
  eexists. split; [reflexivity|]. split; [reflexivity|].
  split; [|split; reflexivity].
  apply (reply_to_settled_request false _ "1"%string 0%nat
           (FException (Exception "NFC error"))).
  - reflexivity.
  - reflexivity.
  - reflexivity.
  - split; reflexivity.
Defined.



(** X26.  A request that timed out.  When the timeout of a waiting
    request fires, its coroutine cancels the future, deletes the slot
    and ends with TimeoutError; the other table and the phone are as
    before.  In a state the manager can reach, the reply that comes
    late is then dropped: it is handled without an exception and
    changes nothing. *)
Theorem late_reply_after_timeout (write : bool) st rid f data :
  reachable st ->
  pending write st !! rid = Some f ->
  futures st !! f = Some FPending ->
  is_reply (reply_action write) rid data ->
  exists st',
    request_resume write true rid f st = Some (st', Raise TimeoutError)
    /\ futures st' !! f = Some FCancelled
    /\ pending write st' = delete rid (pending write st)
    /\ pending (negb write) st' = pending (negb write) st
    /\ _phone st' = _phone st
    /\ handle_message data st' = Ok st'.
Proof.
  intros Hreach Hs Hf [Ha Hr].
  assert (Hc : fut_cancel f (futures st) !! f = Some FCancelled).
  { unfold fut_cancel, fut_done. rewrite Hf. cbn [done].
    apply list_lookup_insert_eq. apply lookup_lt_Some in Hf. exact Hf. }
  assert (Hres : request_resume write true rid f st
                 = Some (with_futures (fut_cancel f (futures st))
                           (if write
                            then with_writes (delete rid (_pending_writes st)) st
                            else with_reads (delete rid (_pending_reads st)) st),
                         Raise TimeoutError)).
  { destruct write;
      unfold request_resume, request_read_resume, request_write_resume,
        wait_for; rewrite Hf; reflexivity. }
  eexists. split; [exact Hres|]. split; [destruct write; exact Hc|].
  split; [destruct write; reflexivity|].
  split; [destruct write; reflexivity|].
  split; [destruct write; reflexivity|].
  apply handle_unsolicited.
  - destruct (reachable_bounded st Hreach) as (_ & _ & Ho).
    destruct write; exact Ho.
  - rewrite (get_lookup data "action" "" _ Ha). destruct write; discriminate.
  - rewrite (get_lookup data "action" "" _ Ha),
            (get_lookup data "request_id" "" _ Hr).
    destruct write; [discriminate|]. intros _. cbn. apply lookup_delete_eq.
  - rewrite (get_lookup data "action" "" _ Ha),
            (get_lookup data "request_id" "" _ Hr).
    destruct write; [|discriminate]. intros _. cbn. apply lookup_delete_eq.
Qed.

(** The first write request of a session times out. *)
Lemma late_reply_after_timeout_witness :
  exists st1 st2,
    request_write_send ∅ (connect 7 init) = Ok (st1, "1"%string, 0%nat)
    /\ request_write_resume true "1" 0 st1 = Some (st2, Raise TimeoutError)
    /\ handle_message
         (<["action" := "WRITE_RESULT"]> (<["request_id" := "1"]> ∅))%string
         st2 = Ok st2.
Proof.
  exists (sent (request_write_send ∅ (connect 7 init))).
  destruct (late_reply_after_timeout true
              (sent (request_write_send ∅ (connect 7 init)))
              "1"%string 0%nat
              (<["action" := "WRITE_RESULT"]>
                 (<["request_id" := "1"]> ∅))%string)
    as (st2 & H1 & _ & _ & _ & _ & H2).
  - eapply Reach_write_send; [apply Reach_connect, Reach_init|reflexivity].
  - reflexivity.
  - reflexivity.
  - split; reflexivity.
  - exists st2. split; [reflexivity|]. split; [exact H1|exact H2].
Defined.

End BridgeExtras.

(** ** Library catalog: properties beyond the claim *)

Section DumpExtras.

Import Catalog.


End DumpExtras.

Section CatalogExtras.

Import Catalog.

(** X28.  [_build_material_index] lists every material of the entries
    once, in ascending order, each with the subtypes of its entries,
    once each and in ascending order; a material without entry is not
    listed, and no list of subtypes is empty. *)
Theorem material_index_spec es :
  StronglySorted str_le (map fst (_build_material_index es))
  /\ NoDup (map fst (_build_material_index es))
  /\ (forall m subs,
        (m, subs) ∈ _build_material_index es ->
        StronglySorted str_le subs /\ NoDup subs /\ subs <> []
        /\ forall s, s ∈ subs <->
                     exists e, e ∈ es /\ material e = m /\ subtype e = s)
  /\ (forall e, e ∈ es ->
        exists subs, (material e, subs) ∈ _build_material_index es
                     /\ subtype e ∈ subs).
Proof.
  unfold _build_material_index.
  set (M := foldl _ ∅ es). cbv zeta.
  assert (HM : forall k,
             match M !! k with
             | Some X =>
                 (exists e, e ∈ es /\ material e = k)
                 /\ forall s, s ∈ X <->
                      exists e, e ∈ es /\ material e = k /\ subtype e = s
             | None => forall e, e ∈ es -> material e <> k
             end).
  { intros k. pose proof (index_fold es ∅ k) as H.
    match type of H with
    | match ?t !! k with _ => _ end => change t with M in H
    end.
    destruct (M !! k) as [X|].
    - destruct H as [Hex HS]. rewrite lookup_empty in Hex, HS. split.
      + destruct Hex as [[x Hx]|Hex]; [discriminate Hx|exact Hex].
      + intros s. rewrite HS. cbn [from_option Datatypes.id]. rewrite elem_of_empty. tauto.
    - apply H. }
  destruct (sorted_items_spec (map_to_list M)) as [Hsort Hperm].
  assert (Hfst : map fst (map (fun kv : string * gset string =>
                   (fst kv, sorted_strings (elements (snd kv))))
                   (sorted_items (map_to_list M)))
                 = map fst (sorted_items (map_to_list M))).
  { rewrite map_map. reflexivity. }
  assert (Hin : forall m subs,
             (m, subs) ∈ map (fun kv : string * gset string =>
                   (fst kv, sorted_strings (elements (snd kv))))
                   (sorted_items (map_to_list M))
             <-> exists X, M !! m = Some X
                           /\ subs = sorted_strings (elements X)).
  { intros m subs. change (map ?f ?l) with (f <$> l).
    rewrite list_elem_of_fmap. split.
    - intros ([k X] & E & Hk). cbn [fst snd] in E. injection E as -> ->.
      rewrite Hperm in Hk. apply elem_of_map_to_list in Hk.
      exists X. split; [exact Hk|reflexivity].
    - intros (X & HS & ->). exists (m, X). split; [reflexivity|].
      rewrite Hperm. apply elem_of_map_to_list. exact HS. }
  split; [rewrite Hfst; exact Hsort|].
  split; [rewrite Hfst; change (map fst ?l) with (l.*1); rewrite Hperm;
          apply NoDup_fst_map_to_list|].
  split.
  - intros m subs H. apply Hin in H as (X & HS & ->).
    destruct (sorted_strings_spec (elements X) (NoDup_elements X))
      as (H1 & H2 & H3).
    specialize (HM m). rewrite HS in HM. destruct HM as [(e & He & Hm) HS'].
    split; [exact H1|]. split; [exact H2|]. split.
    + intros Hnil. assert (Hs : subtype e ∈ sorted_strings (elements X)).
      { apply H3, elem_of_elements, HS'. exists e. repeat split; assumption. }
      rewrite Hnil in Hs. apply elem_of_nil in Hs. exact Hs.
    + intros s. rewrite H3, elem_of_elements. apply HS'.
  - intros e He. specialize (HM (material e)).
    destruct (M !! material e) as [X|] eqn:ES.
    + exists (sorted_strings (elements X)). split.
      * apply Hin. exists X. split; [exact ES|reflexivity].
      * apply (sorted_strings_spec (elements X) (NoDup_elements X)).
        apply elem_of_elements, HM. exists e. repeat split. exact He.
    + exfalso. apply (HM e He). reflexivity.
Qed.

(** X29.  [get_colors] lists the colours of the entries whose material
    and subtype are exactly the two given (the case matters here), once
    each and in ascending order. *)
Theorem get_colors_spec material_ subtype_ lib :
  StronglySorted str_le (get_colors material_ subtype_ lib)
  /\ NoDup (get_colors material_ subtype_ lib)
  /\ forall c,
       c ∈ get_colors material_ subtype_ lib
       <-> exists e, e ∈ entries (catalog lib)
                     /\ material e = material_ /\ subtype e = subtype_
                     /\ color e = c.
Proof.
  unfold get_colors. cbv zeta.
  set (X := foldl _ ∅ (entries (catalog lib))).
  destruct (sorted_strings_spec (elements X) (NoDup_elements X))
    as (H1 & H2 & H3).
  split; [exact H1|]. split; [exact H2|].
  intros c. rewrite H3, elem_of_elements. unfold X.
  rewrite colors_fold, elem_of_empty. tauto.
Qed.

(** X30.  [search] returns entries of the catalog in the order of the
    catalog: those that pass every filter that is given and not empty.
    The material and the subtype filter compare the whole text, the
    colour filter looks for the text inside the colour, and the query
    looks for it inside the material, the subtype, the colour or the
    UID, all of them after [lower()] on both sides, so the case of the
    arguments does not matter. *)
Theorem search_spec material_ subtype_ color_ query lib :
  sublist (search material_ subtype_ color_ query lib)
          (entries (catalog lib))
  /\ (forall e,
        e ∈ search material_ subtype_ color_ query lib
        <-> e ∈ entries (catalog lib)
            /\ (forall m, material_ = Some m -> m <> ""%string ->
                          lower (material e) = lower m)
            /\ (forall s, subtype_ = Some s -> s <> ""%string ->
                          lower (subtype e) = lower s)
            /\ (forall c, color_ = Some c -> c <> ""%string ->
                          occurs_in (lower c) (lower (color e)))
            /\ (forall q, query = Some q -> q <> ""%string ->
                          occurs_in (lower q) (lower (material e))
                          \/ occurs_in (lower q) (lower (subtype e))
                          \/ occurs_in (lower q) (lower (color e))
                          \/ occurs_in (lower q) (lower (uid e))))
  /\ search (lower <$> material_) (lower <$> subtype_) (lower <$> color_)
            (lower <$> query) lib
     = search material_ subtype_ color_ query lib.
Proof.
  split; [|split].
  - unfold search. cbv zeta.
    etransitivity;
      [apply (stage_sublist query
                (fun q e => contains (lower q) (lower (material e))
                            || contains (lower q) (lower (subtype e))
                            || contains (lower q) (lower (color e))
                            || contains (lower q) (lower (uid e))))|].
    etransitivity;
      [apply (stage_sublist color_
                (fun c e => contains (lower c) (lower (color e))))|].
    etransitivity;
      [apply (stage_sublist subtype_
                (fun s e => String.eqb (lower (subtype e)) (lower s)))|].
    apply (stage_sublist material_
             (fun m e => String.eqb (lower (material e)) (lower m))).
  - intros e. unfold search. cbv zeta.
    etransitivity;
      [apply (stage_spec query
                (fun q e => contains (lower q) (lower (material e))
                            || contains (lower q) (lower (subtype e))
                            || contains (lower q) (lower (color e))
                            || contains (lower q) (lower (uid e))))|].
    rewrite (stage_spec color_
               (fun c e => contains (lower c) (lower (color e)))).
    rewrite (stage_spec subtype_
               (fun s e => String.eqb (lower (subtype e)) (lower s))).
    rewrite (stage_spec material_
               (fun m e => String.eqb (lower (material e)) (lower m))).
    cbv beta.
    assert (Hq : forall q,
               contains (lower q) (lower (material e))
               || contains (lower q) (lower (subtype e))
               || contains (lower q) (lower (color e))
               || contains (lower q) (lower (uid e)) = true
               <-> occurs_in (lower q) (lower (material e))
                   \/ occurs_in (lower q) (lower (subtype e))
                   \/ occurs_in (lower q) (lower (color e))
                   \/ occurs_in (lower q) (lower (uid e))).
    { intros q. rewrite !orb_true_iff, !contains_spec. tauto. }
    split.
    + intros [[[[H0 H1] H2] H3] H4]. split; [exact H0|].
      split; [intros m Hm Hne; apply String.eqb_eq, (H1 m Hm Hne)|].
      split; [intros s Hs Hne; apply String.eqb_eq, (H2 s Hs Hne)|].
      split; [intros c Hc Hne; apply contains_spec, (H3 c Hc Hne)|].
      intros q Hq' Hne. apply Hq, (H4 q Hq' Hne).
    + intros (H0 & H1 & H2 & H3 & H4).
      split; [split; [split; [split; [exact H0|]|]|]|].
      * intros m Hm Hne. apply String.eqb_eq, (H1 m Hm Hne).
      * intros s Hs Hne. apply String.eqb_eq, (H2 s Hs Hne).
      * intros c Hc Hne. apply contains_spec, (H3 c Hc Hne).
      * intros q Hq' Hne. apply Hq, (H4 q Hq' Hne).
  - unfold search. cbv zeta.
    rewrite (stage_lower material_
               (fun m => List.filter
                           (fun e => String.eqb (lower (material e)) m)
                           (entries (catalog lib)))).
    set (r1 := match given material_ with Some _ => _ | None => _ end).
    rewrite (stage_lower subtype_
               (fun s => List.filter
                           (fun e => String.eqb (lower (subtype e)) s) r1)).
    set (r2 := match given subtype_ with Some _ => _ | None => _ end).
    rewrite (stage_lower color_
               (fun c => List.filter
                           (fun e => contains c (lower (color e))) r2)).
    set (r3 := match given color_ with Some _ => _ | None => _ end).
    rewrite (stage_lower query
               (fun q => List.filter
                           (fun e => contains q (lower (material e))
                                     || contains q (lower (subtype e))
                                     || contains q (lower (color e))
                                     || contains q (lower (uid e))) r3)).
    reflexivity.
Qed.

End CatalogExtras.
